(** * web-to-ios-mcp: framework detection and migration-spec synthesis

    A shallow embedding of the detection engine of the repository
    (src/utils/file.ts, src/detectors/nextjs-detector.ts,
    src/detectors/vite-detector.ts, dist/tools/detect-framework.js and
    src/generators/spec-generator.ts) together with the properties the
    specification states about it.

    Conventions.
    - A JavaScript string is a Rocq [string]: the 8-bit units of its
      UTF-8 text.  The text of a file read with the encoding utf-8 is
      well formed, and a character beyond ASCII takes two to four
      units, none of which is an ASCII character.
    - A value produced by [JSON.parse] is a [json]; an object is a finite
      map from property names to values.
    - An [async] function returns [exn A]: [Ok a] for a fulfilled promise,
      [Throw msg] for a rejected one.  [try]/[catch] is [try_catch].
    - The services of the Node runtime the code calls ([fs], [path],
      [JSON.parse]) are the fields of a [Host]. *)

From Stdlib Require Import ZArith NArith Ascii String List Bool Lia.
From stdpp Require Import base option gmap strings list fin_maps pretty.

(** ** Completion of calls: the error monad of [async]/[await] *)

Inductive exn (A : Type) : Type :=
| Ok (a : A)
| Throw (msg : string).
Arguments Ok {A} a.
Arguments Throw {A} msg.

Definition ebind {A B} (m : exn A) (k : A → exn B) : exn B :=
  match m with
  | Ok a => k a
  | Throw e => Throw e
  end.

Notation "x <- m ;; k" := (ebind m (fun x => k))
  (at level 100, m at next level, right associativity).

Definition try_catch {A} (body : exn A) (handler : string → exn A) : exn A :=
  match body with
  | Ok a => Ok a
  | Throw e => handler e
  end.

(** [a || b] of two awaited booleans: the right operand is awaited only
    when the left one is false. *)
Definition eor (a b : exn bool) : exn bool :=
  x <- a ;; if x then Ok true else b.

(** ** JavaScript values read from JSON *)

(** A number, as far as this program can tell numbers apart.  The code
    does no arithmetic on the values of a manifest and compares none of
    them: of a number it observes whether it counts as false, which is
    whether it is zero ([JSON.parse] yields no NaN), and the text that
    its conversion to a string gives (the digits of an integer below
    10^21, a decimal point for a fraction, an exponent beyond). *)
Record Number := { isZero : bool; numberText : string }.

#[local] Unset Elimination Schemes.
Inductive json : Type :=
| JNull
| JBool (b : bool)
| JNum (n : Number)
| JStr (s : string)
| JArr (l : list json)
| JObj (m : gmap string json).
#[local] Set Elimination Schemes.

(** Truthiness ([!v], [a || b], [v ? x : y]). *)
Definition truthy (v : json) : bool :=
  match v with
  | JNull => false
  | JBool b => b
  | JNum n => negb (isZero n)
  | JStr s => negb (String.eqb s "")
  | JArr _ => true
  | JObj _ => true
  end.

(** Truthiness of a value that may be [undefined]. *)
Definition truthy_opt (v : option json) : bool :=
  match v with
  | Some x => truthy x
  | None => false
  end.

(** [a || b] on values that may be [undefined]. *)
Definition jor (a b : option json) : option json :=
  if truthy_opt a then a else b.

Fixpoint chars_of (s : string) : list string :=
  match s with
  | EmptyString => []
  | String c s' => String c EmptyString :: chars_of s'
  end.

(** The own enumerable properties of a value, as an object spread
    [{...v}] copies them: the members of an object, the indexed elements
    of an array, the indexed characters of a string, nothing for [null],
    [undefined], a boolean or a number. *)
Definition indexed {A} (f : A → json) (l : list A) : gmap string json :=
  list_to_map (imap (fun i x => (pretty i, f x)) l).

Definition own_props (v : json) : gmap string json :=
  match v with
  | JObj m => m
  | JArr l => indexed id l
  | JStr s => indexed JStr (chars_of s)
  | _ => ∅
  end.

(** Property read [v.k] on a value that is not [null]; [None] is
    [undefined].  The names the detectors read (dependencies,
    devDependencies, scripts, build and package names) are never
    members inherited from a prototype nor [length], so a read finds an
    own enumerable property or nothing. *)
Definition get (v : json) (k : string) : option json := own_props v !! k.

(** Optional chaining [o?.k], where [o] may be [undefined] or [null]. *)
Definition get_opt (o : option json) (k : string) : option json :=
  match o with
  | None => None
  | Some JNull => None
  | Some v => get v k
  end.

(** [{ ...a, ...b }]: members of [b] override those of [a]. *)
Definition spread2 (a b : option json) : gmap string json :=
  from_option own_props ∅ b ∪ from_option own_props ∅ a.

(** The message of the [TypeError] of a conversion that finds no
    primitive value. *)
Definition typeErrorText : string := "Cannot convert object to primitive value".

(** String conversion of a template-literal hole [${v}].  An array is
    converted by [join]: its elements in order, [null] as the empty
    text, with commas between.  An object is converted by the [toString]
    it inherits, unless it has a member of that name: a member read from
    JSON is no function, [valueOf] then yields no primitive value either
    (the inherited one returns the object, a member is no function), and
    the conversion throws. *)
Fixpoint ToString (v : json) : exn string :=
  match v with
  | JNull => Ok "null"
  | JBool true => Ok "true"
  | JBool false => Ok "false"
  | JNum n => Ok (numberText n)
  | JStr s => Ok s
  | JArr l =>
      parts <-
        (fix each (l : list json) : exn (list string) :=
           match l with
           | [] => Ok []
           | x :: l' =>
               part <- match x with JNull => Ok "" | _ => ToString x end ;;
               rest <- each l' ;;
               Ok (part :: rest)
           end) l ;;
      Ok (String.concat "," parts)
  | JObj m =>
      if bool_decide (is_Some (m !! "toString")) then Throw typeErrorText
      else Ok "[object Object]"
  end.

(** ** The host: Node's [fs], [path] and [JSON] *)

Record Stats := { st_size : N; st_isDirectory : bool }.

Record Dirent := { d_name : string; d_isFile : bool }.

Record Host := {
  (** [path.join(...segments)] *)
  path_join : list string → string;
  (** [fs.access(p)]: [Ok tt] when the path is visible, a rejection otherwise *)
  fs_access : string → exn unit;
  (** [fs.stat(p)] *)
  fs_stat : string → exn Stats;
  (** [fs.readFile(p, 'utf-8')] *)
  fs_readFile : string → exn string;
  (** [fs.readdir(p, { withFileTypes: true, recursive: true })] *)
  fs_readdir : string → exn (list Dirent);
  (** [JSON.parse(text)]: a [SyntaxError] is a [Throw] *)
  JSON_parse : string → exn json;
}.

(** ** src/utils/file.ts *)

Module File.

(** The default of [maxSize]: [10 * 1024 * 1024]. *)
Definition defaultMaxSize : N := 10 * 1024 * 1024.

(** [safeReadFile]: [None] is the [null] result.  The [console.warn] of
    the too-large branch writes to the log and has no other effect. *)
Definition safeReadFile (h : Host) (filePath : string) (maxSize : N)
  : exn (option string) :=
  try_catch
    (_ <- fs_access h filePath ;;
     stats <- fs_stat h filePath ;;
     if (maxSize <? st_size stats)%N then Ok None
     else
       text <- fs_readFile h filePath ;;
       Ok (Some text))
    (fun _ => Ok None).

Definition fileExists (h : Host) (filePath : string) : exn bool :=
  try_catch
    (_ <- fs_access h filePath ;; Ok true)
    (fun _ => Ok false).

(** [!content] for [content : string | null]. *)
Definition falsy_text (content : option string) : bool :=
  match content with
  | None => true
  | Some s => String.eqb s ""
  end.

(** [readJsonFile]: the [null] result is [JNull].  The [console.error]
    of the handler writes to the log and has no other effect. *)
Definition readJsonFile (h : Host) (filePath : string) : exn json :=
  content <- safeReadFile h filePath defaultMaxSize ;;
  if falsy_text content then Ok JNull
  else
    try_catch
      (JSON_parse h (default "" content))
      (fun _ => Ok JNull).

Definition readPackageJson (h : Host) (projectPath : string) : exn json :=
  let pkgPath := path_join h [projectPath; "package.json"] in
  readJsonFile h pkgPath.

End File.

(** ** Regular expressions, as the two patterns of the detectors need them

    A backtracking matcher in continuation-passing style, in the manner
    of the matcher of the language definition: a pattern is matched
    against the rest of the input and hands the rest it leaves to its
    continuation; a failure of the continuation makes the pattern try
    its next alternative.  [cap] is the text of capture group 1.

    The input is the UTF-8 text.  Both patterns begin with an ASCII
    letter, so a match begins where a character begins; the class of
    the two quotes and its complement are told by the unit alone, since
    no unit of a character beyond ASCII is a quote; the class of white
    space has members of two and three units and is given by them. *)

Module RegExp.

Inductive regex : Type :=
| Eps                       (* the empty pattern *)
| Chr (c : ascii)           (* a literal character of ASCII *)
| Cls (p : ascii → bool)    (* a class told by the unit alone *)
| Uni (members : list (list ascii))
                            (* a class given by the units of its members *)
| Seq (r1 r2 : regex)       (* r1 r2 *)
| Star (r : regex)          (* r*, greedy *)
| Group (r : regex).        (* ( r ), capture group 1 *)

(** [r+] *)
Definition Plus (r : regex) : regex := Seq r (Star r).

(** A literal word. *)
Fixpoint Lit (w : list ascii) : regex :=
  match w with
  | [] => Eps
  | c :: w' => Seq (Chr c) (Lit w')
  end.

Definition chars (s : string) : list ascii := list_ascii_of_string s.

Definition capture := option (list ascii).

Definition cont (A : Type) := capture → list ascii → option A.

(** What is left of [s] after its head [w]. *)
Fixpoint strip (w s : list ascii) : option (list ascii) :=
  match w, s with
  | [], _ => Some s
  | c :: w', a :: s' => if Ascii.eqb a c then strip w' s' else None
  | _ :: _, [] => None
  end.

(** What is left of [s] after the member that heads it.  The members of
    a class are characters, and in UTF-8 no character is the head of
    another, so at most one member heads [s]. *)
Fixpoint strip_first (members : list (list ascii)) (s : list ascii)
  : option (list ascii) :=
  match members with
  | [] => None
  | w :: rest =>
      match strip w s with
      | Some s' => Some s'
      | None => strip_first rest s
      end
  end.

(** [rmatch r k cap s]: match [r] at the head of [s].  An iteration of
    [r*] that consumes nothing is refused; every accepted iteration
    shortens the input, so [length s] iterations are the most there can
    be. *)
Fixpoint rmatch {A} (r : regex) (k : cont A) (cap : capture) (s : list ascii)
  {struct r} : option A :=
  match r with
  | Eps => k cap s
  | Chr c =>
      match s with
      | a :: s' => if Ascii.eqb a c then k cap s' else None
      | [] => None
      end
  | Cls p =>
      match s with
      | a :: s' => if p a then k cap s' else None
      | [] => None
      end
  | Uni members =>
      match strip_first members s with
      | Some s' => k cap s'
      | None => None
      end
  | Seq r1 r2 => rmatch r1 (fun cap' s' => rmatch r2 k cap' s') cap s
  | Star r1 =>
      (fix loop (fuel : nat) (cap : capture) (s : list ascii) : option A :=
         match fuel with
         | O => k cap s
         | S fuel' =>
             match
               rmatch r1
                 (fun cap' s' =>
                    if length s' <? length s then loop fuel' cap' s' else None)
                 cap s
             with
             | Some a => Some a
             | None => k cap s
             end
         end) (length s) cap s
  | Group r1 =>
      rmatch r1
        (fun _ s' => k (Some (take (length s - length s') s)) s')
        cap s
  end.

(** A match of the whole pattern anchored at the head of [s]; the result
    is the capture. *)
Definition match_here (r : regex) (s : list ascii) : option capture :=
  rmatch r (fun cap _ => Some cap) None s.

(** The search of [RegExp.prototype.exec]: the leftmost position at
    which the pattern matches. *)
Fixpoint exec (r : regex) (s : list ascii) : option capture :=
  match match_here r s with
  | Some cap => Some cap
  | None =>
      match s with
      | [] => None
      | _ :: s' => exec r s'
      end
  end.

(** [re.test(text)] *)
Definition test (r : regex) (text : string) : bool :=
  bool_decide (is_Some (exec r (chars text))).

(** [text.match(re)] for a pattern without the [g] flag: [None] is
    [null]; of the match array only element 1 is kept, [None] when the
    group did not take part. *)
Definition match_ (r : regex) (text : string) : option (option string) :=
  option_map (option_map string_of_list_ascii) (exec r (chars text)).

(** The units of a code point of the basic plane in UTF-8. *)
Definition utf8 (cp : N) : list ascii :=
  if (cp <? 0x80)%N then [ascii_of_N cp]
  else if (cp <? 0x800)%N then
    [ascii_of_N (0xC0 + cp / 0x40); ascii_of_N (0x80 + cp mod 0x40)]
  else
    [ascii_of_N (0xE0 + cp / 0x1000);
     ascii_of_N (0x80 + (cp / 0x40) mod 0x40);
     ascii_of_N (0x80 + cp mod 0x40)].

(** The code points of the class [\s]: the white space of the language
    (tab, vertical tab, form feed, the byte order mark U+FEFF and the
    space separators of Unicode: space, no-break space, U+1680, U+2000
    to U+200A, U+202F, U+205F, U+3000) and its line terminators (line
    feed, carriage return, U+2028, U+2029). *)
Definition whiteSpacePoints : list N :=
  [ 0x9; 0xA; 0xB; 0xC; 0xD; 0x20; 0xA0; 0x1680;
    0x2000; 0x2001; 0x2002; 0x2003; 0x2004; 0x2005; 0x2006; 0x2007;
    0x2008; 0x2009; 0x200A; 0x2028; 0x2029; 0x202F; 0x205F; 0x3000;
    0xFEFF ]%N.

Definition whiteSpace : list (list ascii) := map utf8 whiteSpacePoints.

(** The class [\s]. *)
Definition space : regex := Uni whiteSpace.

(** The class of the two quote characters. *)
Definition is_quote (c : ascii) : bool :=
  match c with
  | "'" | "034" => true
  | _ => false
  end%char.

End RegExp.

(** ** src/types/index.ts *)

Inductive FrameworkType := Fw_vite | Fw_nextjs | Fw_cra | Fw_unknown.

Inductive UILibrary := Ui_react | Ui_vue | Ui_svelte | Ui_angular | Ui_unknown.

Inductive RouterType := Rt_app | Rt_pages | Rt_unknown.

(** The fields every project model has.  [version] and [buildCommand]
    are copied from the manifest as they are, so they hold whatever
    value the manifest has there. *)
Record ProjectInfo := {
  version : json;
  buildCommand : json;
  buildOutputDir : string;
}.

Record ViteProjectInfo := {
  vite_base :> ProjectInfo;
  uiLibrary : UILibrary;
  viteConfigPath : option string;
  hasReactRouter : bool;
  hasVueRouter : bool;
}.

Record NextJsProjectInfo := {
  nextjs_base :> ProjectInfo;
  routerType : RouterType;
  hasApiRoutes : bool;
  isStaticExport : bool;
}.

Record CRAProjectInfo := {
  cra_base :> ProjectInfo;
  cra_hasReactRouter : bool;
}.

(** The union [AnyProjectInfo]; the [framework] tag is the constructor. *)
Inductive AnyProjectInfo :=
| Vite (i : ViteProjectInfo)
| NextJs (i : NextJsProjectInfo)
| CRA (i : CRAProjectInfo).

Definition framework (p : AnyProjectInfo) : FrameworkType :=
  match p with
  | Vite _ => Fw_vite
  | NextJs _ => Fw_nextjs
  | CRA _ => Fw_cra
  end.

Definition base (p : AnyProjectInfo) : ProjectInfo :=
  match p with
  | Vite i => i
  | NextJs i => i
  | CRA i => i
  end.

Record GenerateSpecOptions := {
  projectPath : string;
  appName : string;
  bundleId : string;
  primaryColor : option string;
}.

(** ** src/detectors/nextjs-detector.ts *)

Module NextJsDetector.
Import File.

Definition isDirectory (h : Host) (dirPath : string) : exn bool :=
  try_catch
    (stats <- fs_stat h dirPath ;; Ok (st_isDirectory stats))
    (fun _ => Ok false).

Definition detectRouterType (h : Host) (projectPath : string) : exn RouterType :=
  let appDirPath := path_join h [projectPath; "app"] in
  let pagesDirPath := path_join h [projectPath; "pages"] in
  let srcAppDirPath := path_join h [projectPath; "src"; "app"] in
  let srcPagesDirPath := path_join h [projectPath; "src"; "pages"] in
  hasAppDir <- eor (isDirectory h appDirPath) (isDirectory h srcAppDirPath) ;;
  hasPagesDir <- eor (isDirectory h pagesDirPath) (isDirectory h srcPagesDirPath) ;;
  if hasAppDir then Ok Rt_app
  else if hasPagesDir then Ok Rt_pages
  else Ok Rt_unknown.

Definition isRouteFile (entry : Dirent) : bool :=
  d_isFile entry &&
  (String.eqb (d_name entry) "route.ts" || String.eqb (d_name entry) "route.js").

Definition hasRouteFiles (h : Host) (dirPath : string) : exn bool :=
  try_catch
    (entries <- fs_readdir h dirPath ;; Ok (existsb isRouteFile entries))
    (fun _ => Ok false).

Definition detectApiRoutes (h : Host) (projectPath : string)
    (routerType : RouterType) : exn bool :=
  match routerType with
  | Rt_pages =>
      let pagesApiPath := path_join h [projectPath; "pages"; "api"] in
      let srcPagesApiPath := path_join h [projectPath; "src"; "pages"; "api"] in
      eor (isDirectory h pagesApiPath) (isDirectory h srcPagesApiPath)
  | Rt_app =>
      let appDirPath := path_join h [projectPath; "app"] in
      let srcAppDirPath := path_join h [projectPath; "src"; "app"] in
      hasApiInApp <- hasRouteFiles h appDirPath ;;
      hasApiInSrcApp <- hasRouteFiles h srcAppDirPath ;;
      Ok (hasApiInApp || hasApiInSrcApp)
  | Rt_unknown => Ok false
  end.

Definition configNames : list string :=
  ["next.config.js"; "next.config.mjs"; "next.config.ts"].

(** The pattern [output\s*:\s*QexportQ], where [Q] is the class of the
    single and the double quote. *)
Definition exportPattern : RegExp.regex :=
  let ws := RegExp.Star RegExp.space in
  RegExp.Seq (RegExp.Lit (RegExp.chars "output"))
    (RegExp.Seq ws
      (RegExp.Seq (RegExp.Chr ":")
        (RegExp.Seq ws
          (RegExp.Seq (RegExp.Cls RegExp.is_quote)
            (RegExp.Seq (RegExp.Lit (RegExp.chars "export"))
              (RegExp.Cls RegExp.is_quote)))))).

(** The [for ... of] loop of [detectStaticExport] over the names that
    are left. *)
Fixpoint scanConfigs (h : Host) (projectPath : string) (names : list string)
  : exn bool :=
  match names with
  | [] => Ok false
  | name :: rest =>
      let configPath := path_join h [projectPath; name] in
      configContent <- safeReadFile h configPath defaultMaxSize ;;
      if falsy_text configContent then scanConfigs h projectPath rest
      else if RegExp.test exportPattern (default "" configContent) then Ok true
      else scanConfigs h projectPath rest
  end.

Definition detectStaticExport (h : Host) (projectPath : string) : exn bool :=
  scanConfigs h projectPath configNames.

(** [None] is the [null] result. *)
Definition detectNextJsProject (h : Host) (projectPath : string)
  : exn (option NextJsProjectInfo) :=
  packageJson <- readPackageJson h projectPath ;;
  if negb (truthy packageJson) then Ok None
  else
    let nextVersion :=
      jor (get_opt (get packageJson "dependencies") "next")
          (get_opt (get packageJson "devDependencies") "next") in
    match nextVersion with
    | None => Ok None
    | Some nextVersion =>
        if negb (truthy nextVersion) then Ok None
        else
          routerType <- detectRouterType h projectPath ;;
          hasApiRoutes <- detectApiRoutes h projectPath routerType ;;
          isStaticExport <- detectStaticExport h projectPath ;;
          let buildCommand :=
            default (JStr "next build")
              (jor (get_opt (get packageJson "scripts") "build")
                   (Some (JStr "next build"))) in
          let buildOutputDir := if isStaticExport then "out" else ".next" in
          Ok (Some {|
            nextjs_base := {|
              version := nextVersion;
              buildCommand := buildCommand;
              buildOutputDir := buildOutputDir |};
            routerType := routerType;
            hasApiRoutes := hasApiRoutes;
            isStaticExport := isStaticExport |})
    end.

End NextJsDetector.

(** ** src/detectors/vite-detector.ts *)

Module ViteDetector.
Import File.

Definition detectUILibrary (packageJson : json) : UILibrary :=
  let deps :=
    spread2 (get packageJson "dependencies") (get packageJson "devDependencies") in
  if truthy_opt (deps !! "react") then Ui_react
  else if truthy_opt (deps !! "vue") then Ui_vue
  else if truthy_opt (deps !! "svelte") then Ui_svelte
  else if truthy_opt (deps !! "@angular/core") then Ui_angular
  else Ui_unknown.

Definition configNames : list string :=
  ["vite.config.ts"; "vite.config.js"; "vite.config.mjs"; "vite.config.cjs"].

(** The [for ... of] loop of [findViteConfig] over the names that are
    left. *)
Fixpoint findConfigIn (h : Host) (projectPath : string) (names : list string)
  : exn (option string) :=
  match names with
  | [] => Ok None
  | name :: rest =>
      let configPath := path_join h [projectPath; name] in
      found <- fileExists h configPath ;;
      if found then Ok (Some name) else findConfigIn h projectPath rest
  end.

Definition findViteConfig (h : Host) (projectPath : string) : exn (option string) :=
  findConfigIn h projectPath configNames.

(** The pattern [outDir\s*:\s*Q([^Q]+)Q], where [Q] is the class of
    the single and the double quote. *)
Definition outDirPattern : RegExp.regex :=
  let ws := RegExp.Star RegExp.space in
  let not_quote := fun c => negb (RegExp.is_quote c) in
  RegExp.Seq (RegExp.Lit (RegExp.chars "outDir"))
    (RegExp.Seq ws
      (RegExp.Seq (RegExp.Chr ":")
        (RegExp.Seq ws
          (RegExp.Seq (RegExp.Cls RegExp.is_quote)
            (RegExp.Seq (RegExp.Group (RegExp.Plus (RegExp.Cls not_quote)))
              (RegExp.Cls RegExp.is_quote)))))).

Definition detectBuildOutputDir (h : Host) (projectPath : string)
    (viteConfigPath : option string) : exn string :=
  let outputDir := "dist" in
  match viteConfigPath with
  | None => Ok outputDir
  | Some viteConfigPath =>
      let configPath := path_join h [projectPath; viteConfigPath] in
      configContent <- safeReadFile h configPath defaultMaxSize ;;
      if falsy_text configContent then Ok outputDir
      else
        match RegExp.match_ outDirPattern (default "" configContent) with
        | Some (Some dir) => if String.eqb dir "" then Ok outputDir else Ok dir
        | _ => Ok outputDir
        end
  end.

(** [None] is the [null] result. *)
Definition detectViteProject (h : Host) (projectPath : string)
  : exn (option ViteProjectInfo) :=
  packageJson <- readPackageJson h projectPath ;;
  if negb (truthy packageJson) then Ok None
  else
    let dependencies := get packageJson "dependencies" in
    let devDependencies := get packageJson "devDependencies" in
    let viteVersion :=
      jor (get_opt dependencies "vite") (get_opt devDependencies "vite") in
    match viteVersion with
    | None => Ok None
    | Some viteVersion =>
        if negb (truthy viteVersion) then Ok None
        else
          let uiLibrary := detectUILibrary packageJson in
          viteConfigPath <- findViteConfig h projectPath ;;
          buildOutputDir <- detectBuildOutputDir h projectPath viteConfigPath ;;
          let hasReactRouter :=
            truthy_opt
              (jor (jor (jor (get_opt dependencies "react-router-dom")
                             (get_opt devDependencies "react-router-dom"))
                        (get_opt dependencies "react-router"))
                   (get_opt devDependencies "react-router")) in
          let hasVueRouter :=
            truthy_opt
              (jor (get_opt dependencies "vue-router")
                   (get_opt devDependencies "vue-router")) in
          let buildCommand :=
            default (JStr "vite build")
              (jor (get_opt (get packageJson "scripts") "build")
                   (Some (JStr "vite build"))) in
          Ok (Some {|
            vite_base := {|
              version := viteVersion;
              buildCommand := buildCommand;
              buildOutputDir := buildOutputDir |};
            uiLibrary := uiLibrary;
            viteConfigPath := viteConfigPath;
            hasReactRouter := hasReactRouter;
            hasVueRouter := hasVueRouter |})
    end.

End ViteDetector.

(** ** Text helpers for the templates *)

(** The line feed of the template literals. *)
Definition nl : string := String "010" EmptyString.

(** The double quote. *)
Definition dq : string := String "034" EmptyString.

(** The text whose lines are [l]. *)
Definition lines (l : list string) : string := String.concat nl l.

(** [needle] occurs in [hay]. *)
Definition Substring (needle hay : string) : Prop :=
  ∃ pre post, hay = pre +:+ needle +:+ post.

Fixpoint contains (needle hay : string) : bool :=
  String.prefix needle hay ||
  match hay with
  | EmptyString => false
  | String _ hay' => contains needle hay'
  end.

Definition upper_char (c : ascii) : ascii :=
  let n := nat_of_ascii c in
  if (97 <=? n) && (n <=? 122) then ascii_of_nat (n - 32) else c.

(** [toUpperCase] on the framework tags, which are ASCII. *)
Fixpoint toUpperCase (s : string) : string :=
  match s with
  | EmptyString => EmptyString
  | String c s' => String (upper_char c) (toUpperCase s')
  end.

Definition framework_tag (f : FrameworkType) : string :=
  match f with
  | Fw_vite => "vite"
  | Fw_nextjs => "nextjs"
  | Fw_cra => "cra"
  | Fw_unknown => "unknown"
  end.

Definition uiLibrary_tag (u : UILibrary) : string :=
  match u with
  | Ui_react => "react"
  | Ui_vue => "vue"
  | Ui_svelte => "svelte"
  | Ui_angular => "angular"
  | Ui_unknown => "unknown"
  end.

(** [s || fallback] for [s : string | null]. *)
Definition text_or (s : option string) (fallback : string) : string :=
  match s with
  | Some t => if String.eqb t "" then fallback else t
  | None => fallback
  end.

(** ** dist/tools/detect-framework.js *)

Module DetectFramework.

Record ContentItem := { type : string; text : string }.

Record ToolResult := { content : list ContentItem }.

Definition reply (msg : string) : ToolResult :=
  {| content := [ {| type := "text"; text := msg |} ] |}.

Definition isCapacitorReady (projectInfo : AnyProjectInfo) : bool :=
  match projectInfo with
  | NextJs i => isStaticExport i && negb (hasApiRoutes i)
  | _ => true
  end.

(** The text of the reply when no detector matched. *)
Definition noFrameworkText (projectPath : string) : string :=
  lines [
    "❌ No supported framework detected in: " +:+ projectPath;
    "";
    "Supported frameworks:";
    "- Vite (React, Vue, Svelte, Angular)";
    "- Next.js";
    "- Create React App (coming soon)";
    "";
    "Please ensure:";
    "- package.json exists";
    "- Framework is installed in dependencies or devDependencies"
  ].

Definition viteDetails (i : ViteProjectInfo) : string :=
  "**UI Library:** " +:+ uiLibrary_tag (uiLibrary i) +:+ nl +:+
  "**Vite Config:** " +:+ text_or (viteConfigPath i) "Not found" +:+ nl +:+
  (if hasReactRouter i then "**React Router:** Yes" +:+ nl else "") +:+
  (if hasVueRouter i then "**Vue Router:** Yes" +:+ nl else "").

Definition nextjsDetails (i : NextJsProjectInfo) : string :=
  "**Router Type:** " +:+
    match routerType i with
    | Rt_app => "App Router (app/)"
    | Rt_pages => "Pages Router (pages/)"
    | Rt_unknown => "Unknown"
    end +:+ nl +:+
  "**API Routes:** " +:+ (if hasApiRoutes i then "Yes ⚠️" else "No") +:+ nl +:+
  "**Static Export:** " +:+
    (if isStaticExport i then "Enabled ✓" else "Not configured ⚠️") +:+ nl +:+ nl +:+
  (if negb (isStaticExport i) then
     "> ⚠️ **Important:** Next.js requires static export for Capacitor." +:+ nl +:+
     "> Add `output: 'export'` to next.config.js" +:+ nl +:+ nl
   else "") +:+
  (if hasApiRoutes i then
     "> ⚠️ **Warning:** API routes detected. These won't work with static export." +:+ nl +:+
     "> Consider moving to external backend (Supabase, Firebase, etc.)" +:+ nl +:+ nl
   else "").

(** The text of the reply for a detected project, with the version and
    the build command as texts. *)
Definition detectedLines (projectInfo : AnyProjectInfo)
    (versionText commandText : string) : string :=
  "✓ Framework detected: **" +:+
    toUpperCase (framework_tag (framework projectInfo)) +:+ "**" +:+ nl +:+ nl +:+
  "**Version:** " +:+ versionText +:+ nl +:+
  "**Build Command:** `" +:+ commandText +:+ "`" +:+ nl +:+
  "**Build Output:** `" +:+ buildOutputDir (base projectInfo) +:+ "`" +:+ nl +:+ nl +:+
  match projectInfo with
  | Vite i => viteDetails i
  | NextJs i => nextjsDetails i
  | CRA _ => ""
  end +:+
  nl +:+ "**Capacitor Compatibility:** " +:+
  (if isCapacitorReady projectInfo then "✓ Ready" else "⚠️ Needs configuration").

(** The statements that build [result]: the holes are converted in the
    order of the text, and a conversion that throws ends them. *)
Definition detectedText (projectInfo : AnyProjectInfo) : exn string :=
  versionText <- ToString (version (base projectInfo)) ;;
  commandText <- ToString (buildCommand (base projectInfo)) ;;
  Ok (detectedLines projectInfo versionText commandText).

(** [viteProject || nextjsProject] *)
Definition firstDetected (viteProject : option ViteProjectInfo)
    (nextjsProject : option NextJsProjectInfo) : option AnyProjectInfo :=
  match viteProject with
  | Some v => Some (Vite v)
  | None => option_map NextJs nextjsProject
  end.

Definition detectFrameworkTool (h : Host) (projectPath : string) : exn ToolResult :=
  try_catch
    (viteProject <- ViteDetector.detectViteProject h projectPath ;;
     nextjsProject <- NextJsDetector.detectNextJsProject h projectPath ;;
     match firstDetected viteProject nextjsProject with
     | None => Ok (reply (noFrameworkText projectPath))
     | Some projectInfo =>
         result <- detectedText projectInfo ;;
         Ok (reply result)
     end)
    (fun message => Ok (reply ("❌ Error detecting framework: " +:+ message))).

End DetectFramework.

(** ** src/generators/spec-generator.ts *)

Module SpecGenerator.

(** [now] is the reading of the clock, [new Date().toISOString()]. *)
Definition generateHeader (now appName : string) (projectInfo : AnyProjectInfo)
  : exn string :=
  versionText <- ToString (version (base projectInfo)) ;;
  Ok (lines [
    "# iOS Migration Specification: " +:+ appName;
    "";
    "Generated: " +:+ now;
    "Framework: " +:+ toUpperCase (framework_tag (framework projectInfo));
    "Version: " +:+ versionText;
    "";
    "---"
  ]).

Definition yesNo (b : bool) : string := if b then "Yes" else "No".

Definition generateProjectOverview (projectInfo : AnyProjectInfo) : exn string :=
  versionText <- ToString (version (base projectInfo)) ;;
  commandText <- ToString (buildCommand (base projectInfo)) ;;
  let overview := lines [
    "## Project Overview";
    "";
    "- **Framework**: " +:+ framework_tag (framework projectInfo);
    "- **Version**: " +:+ versionText;
    "- **Build Command**: `" +:+ commandText +:+ "`";
    "- **Build Output**: `" +:+ buildOutputDir (base projectInfo) +:+ "`"
  ] in
  Ok match projectInfo with
  | Vite i =>
      overview +:+ lines [
        "";
        "- **UI Library**: " +:+ uiLibrary_tag (uiLibrary i);
        "- **React Router**: " +:+ yesNo (hasReactRouter i);
        "- **Vue Router**: " +:+ yesNo (hasVueRouter i)
      ]
  | NextJs i =>
      overview +:+ lines [
        "";
        "- **Router Type**: " +:+
          match routerType i with
          | Rt_app => "App Router"
          | Rt_pages => "Pages Router"
          | Rt_unknown => "Unknown"
          end;
        "- **API Routes**: " +:+
          (if hasApiRoutes i then "Yes (⚠️ Requires backend setup)" else "No");
        "- **Static Export**: " +:+
          (if isStaticExport i then "Yes ✓" else "No (⚠️ Required for Capacitor)")
      ]
  | CRA i =>
      overview +:+ lines [
        "";
        "- **React Router**: " +:+ yesNo (cra_hasReactRouter i)
      ]
  end.

Definition generateCapacitorSetup (projectInfo : AnyProjectInfo)
    (appName bundleId : string) : string :=
  lines [
    "## Capacitor Setup";
    "";
    "### 1. Install Capacitor";
    "";
    "```bash";
    "npm install @capacitor/core @capacitor/cli";
    "npm install @capacitor/ios";
    "```";
    "";
    "### 2. Initialize Capacitor";
    "";
    "```bash";
    "npx cap init " +:+ dq +:+ appName +:+ dq +:+ " " +:+ dq +:+ bundleId +:+ dq +:+
      " --web-dir=" +:+ dq +:+ buildOutputDir (base projectInfo) +:+ dq;
    "```";
    "";
    "### 3. Add iOS Platform";
    "";
    "```bash";
    "npx cap add ios";
    "```"
  ].

(** The line that announces the missing static export. *)
Definition criticalLine : string :=
  "⚠️ **CRITICAL**: You must enable static export for Capacitor.".

(** The instructions that follow it; they end with an empty line. *)
Definition enableExportText : string :=
  lines [
    "Edit `next.config.js`:";
    "";
    "```javascript";
    "/** @type {import('next').NextConfig} */";
    "const nextConfig = {";
    "  output: 'export',";
    "  images: {";
    "    unoptimized: true, // Required for static export";
    "  },";
    "};";
    "";
    "module.exports = nextConfig;";
    "```";
    "";
    ""
  ].

(** The text about API routes of a project that has them. *)
Definition apiRoutesText : string :=
  lines [
    "⚠️ **API Routes Detected**: API routes don't work with static export.";
    "Options:";
    "- Move API logic to external backend (Supabase, Firebase, etc.)";
    "- Use serverless functions (Vercel, Netlify)";
    "- Create separate backend service"
  ].

Definition appRouterText : string :=
  lines [
    "";
    "### 3. App Router Considerations";
    "";
    "- Remove server components that use `fetch` at build time";
    "- Convert `generateStaticParams` for all dynamic routes";
    "- Use `getStaticProps` pattern with static data"
  ].

Definition pagesRouterText : string :=
  lines [
    "";
    "### 3. Pages Router Considerations";
    "";
    "- Replace `getServerSideProps` with `getStaticProps`";
    "- Ensure all dynamic routes have `getStaticPaths`";
    "- Remove API routes or move to external service"
  ].

Definition generateNextJsSteps (projectInfo : AnyProjectInfo) : string :=
  match projectInfo with
  | NextJs i =>
      lines [
        "## Next.js Specific Configuration";
        "";
        "### 1. Enable Static Export";
        "";
        if isStaticExport i then "✓ Static export is already enabled."
        else criticalLine;
        "";
        (if negb (isStaticExport i) then enableExportText else "") +:+
          "### 2. Handle Dynamic Features";
        "";
        if hasApiRoutes i then apiRoutesText else "✓ No API routes detected.";
        "";
        match routerType i with Rt_app => appRouterText | _ => "" end;
        "";
        match routerType i with Rt_pages => pagesRouterText | _ => "" end
      ]
  | _ => ""
  end.

(** [s.split(sep).pop()]: the text after the last [sep]. *)
Fixpoint lastSegment (sep : ascii) (s acc : string) : string :=
  match s with
  | EmptyString => acc
  | String c s' =>
      if Ascii.eqb c sep then lastSegment sep s' ""
      else lastSegment sep s' (acc +:+ String c EmptyString)
  end.

Definition generateViteSteps (projectInfo : AnyProjectInfo) : string :=
  match projectInfo with
  | Vite i =>
      lines [
        "## Vite Specific Configuration";
        "";
        "### 1. Base Path Configuration";
        "";
        "Update `vite.config." +:+
          text_or (option_map (fun p => lastSegment "." p "") (viteConfigPath i)) "ts" +:+
          "`:";
        "";
        "```typescript";
        "export default defineConfig({";
        "  base: './', // Important for mobile";
        "  build: {";
        "    outDir: '" +:+ buildOutputDir i +:+ "',";
        "  },";
        "});";
        "```";
        "";
        "### 2. Environment Variables";
        "";
        "Vite uses `import.meta.env`:";
        "- Prefix with `VITE_` for client-side variables";
        "- Create `.env.production` for production builds";
        "";
        "### 3. Router Configuration";
        "";
        if hasReactRouter i then
          lines [
            "**React Router detected**:";
            "```typescript";
            "import { BrowserRouter } from 'react-router-dom';";
            "";
            "// Use BrowserRouter (hash routing not needed for Capacitor)";
            "<BrowserRouter>";
            "  <App />";
            "</BrowserRouter>";
            "```"
          ]
        else "";
        "";
        if hasVueRouter i then
          lines [
            "**Vue Router detected**:";
            "```typescript";
            "import { createRouter, createWebHistory } from 'vue-router';";
            "";
            "const router = createRouter({";
            "  history: createWebHistory(), // Use web history";
            "  routes,";
            "});";
            "```"
          ]
        else ""
      ]
  | _ => ""
  end.

Definition generateCRASteps (projectInfo : AnyProjectInfo) : string :=
  match projectInfo with
  | CRA i =>
      lines [
        "## Create React App Configuration";
        "";
        "### 1. Environment Variables";
        "";
        "- Use `REACT_APP_` prefix for client-side variables";
        "- Create `.env.production` for production";
        "";
        "### 2. Homepage Configuration";
        "";
        "Update `package.json`:";
        "";
        "```json";
        "{";
        "  " +:+ dq +:+ "homepage" +:+ dq +:+ ": " +:+ dq +:+ "." +:+ dq;
        "}";
        "```";
        "";
        if cra_hasReactRouter i then
          lines [
            "### 3. Router Configuration";
            "";
            "```typescript";
            "import { BrowserRouter } from 'react-router-dom';";
            "";
            "<BrowserRouter>";
            "  <App />";
            "</BrowserRouter>";
            "```"
          ]
        else ""
      ]
  | _ => ""
  end.

Definition generateFrameworkSpecificSteps (projectInfo : AnyProjectInfo) : string :=
  match framework projectInfo with
  | Fw_nextjs => generateNextJsSteps projectInfo
  | Fw_vite => generateViteSteps projectInfo
  | Fw_cra => generateCRASteps projectInfo
  | Fw_unknown => ""
  end.

Definition generateCommonIssues (_projectInfo : AnyProjectInfo) : string :=
  lines [
    "## Common Issues & Solutions";
    "";
    "### 1. CORS and API Calls";
    "";
    "⚠️ Mobile apps don't have CORS restrictions, but:";
    "- Use absolute URLs for API calls";
    "- Configure proper authentication headers";
    "- Test with actual backend endpoints";
    "";
    "### 2. Local Storage & Cookies";
    "";
    "✓ Works normally in Capacitor";
    "- Consider using Capacitor Storage for sensitive data";
    "- `@capacitor/preferences` for persistent storage";
    "";
    "### 3. File Access & Camera";
    "";
    "Add Capacitor plugins as needed:";
    "";
    "```bash";
    "npm install @capacitor/camera @capacitor/filesystem";
    "```";
    "";
    "### 4. Deep Linking";
    "";
    "Configure URL schemes in `capacitor.config.ts`:";
    "";
    "```typescript";
    "{";
    "  server: {";
    "    androidScheme: 'https'";
    "  }";
    "}";
    "```";
    "";
    "### 5. Safe Area & Notch";
    "";
    "Add viewport meta tag and CSS:";
    "";
    "```css";
    "body {";
    "  padding: env(safe-area-inset-top) env(safe-area-inset-right)";
    "          env(safe-area-inset-bottom) env(safe-area-inset-left);";
    "}";
    "```"
  ].

Definition generateBuildSteps (projectInfo : AnyProjectInfo) : exn string :=
  commandText <- ToString (buildCommand (base projectInfo)) ;;
  Ok (lines [
    "## Build & Deploy Steps";
    "";
    "### 1. Build Web Assets";
    "";
    "```bash";
    commandText;
    "```";
    "";
    "### 2. Sync with Capacitor";
    "";
    "```bash";
    "npx cap sync ios";
    "```";
    "";
    "### 3. Open in Xcode";
    "";
    "```bash";
    "npx cap open ios";
    "```";
    "";
    "### 4. Configure in Xcode";
    "";
    "- Set development team (Signing & Capabilities)";
    "- Configure app icons and splash screens";
    "- Set deployment target (iOS 13.0+)";
    "- Add required permissions to Info.plist";
    "";
    "### 5. Build & Run";
    "";
    "- Select device/simulator";
    "- Click Run (⌘R) or Build (⌘B)"
  ]).

Definition generateTestingChecklist : string :=
  lines [
    "## Testing Checklist";
    "";
    "- [ ] App launches without crashes";
    "- [ ] Navigation works correctly";
    "- [ ] API calls succeed";
    "- [ ] Authentication flows work";
    "- [ ] Local storage persists";
    "- [ ] Images and assets load";
    "- [ ] Forms submit properly";
    "- [ ] Responsive layout on different screen sizes";
    "- [ ] Status bar and safe area handled";
    "- [ ] Back button behavior correct"
  ].

Definition generateNextSteps (primaryColor : option string) : string :=
  lines [
    "## Next Steps";
    "";
    "1. **App Icon & Splash Screen**";
    "   - Use `@capacitor/assets` for generation";
    "   - Prepare 1024x1024 icon" +:+
      match primaryColor with
      | Some c =>
          if String.eqb c "" then ""
          else " (use " +:+ c +:+ " as primary color)"
      | None => ""
      end;
    "";
    "2. **App Store Preparation**";
    "   - Create App Store Connect listing";
    "   - Prepare screenshots (6.5" +:+ dq +:+ ", 5.5" +:+ dq +:+ ")";
    "   - Write app description and keywords";
    "";
    "3. **Testing**";
    "   - Test on physical device";
    "   - Submit to TestFlight for beta testing";
    "";
    "4. **Performance Optimization**";
    "   - Minimize bundle size";
    "   - Optimize images";
    "   - Enable code splitting";
    "";
    "---";
    "";
    "**Generated by web-to-ios-mcp**"
  ].

(** The sections of the document: the elements of the array are
    computed in order, and a section that throws ends the computation. *)
Definition sections (now : string) (projectInfo : AnyProjectInfo)
    (options : GenerateSpecOptions) : exn (list string) :=
  header <- generateHeader now (appName options) projectInfo ;;
  overview <- generateProjectOverview projectInfo ;;
  let setup :=
    generateCapacitorSetup projectInfo (appName options) (bundleId options) in
  let steps := generateFrameworkSpecificSteps projectInfo in
  let issues := generateCommonIssues projectInfo in
  buildSteps <- generateBuildSteps projectInfo ;;
  Ok [ header; overview; setup; steps; issues; buildSteps;
       generateTestingChecklist; generateNextSteps (primaryColor options) ].

(** [sections.join('\n\n')].  The function is [async] and awaits
    nothing: its promise is fulfilled with this text, or rejected with
    what a section threw. *)
Definition generateMigrationSpec (now : string) (projectInfo : AnyProjectInfo)
    (options : GenerateSpecOptions) : exn string :=
  all <- sections now projectInfo options ;;
  Ok (String.concat (nl +:+ nl) all).

End SpecGenerator.

(** ** dist/tools/generate-spec.js *)

Module GenerateSpec.

(** The text of the reply when no detector matched. *)
Definition noFrameworkText (projectPath : string) : string :=
  lines [
    "❌ Could not detect a supported framework in: " +:+ projectPath;
    "";
    "Supported frameworks:";
    "- Vite (React, Vue, Svelte)";
    "- Next.js";
    "";
    "Please ensure the project has a valid package.json with framework dependencies."
  ].

(** The arguments [projectPath], [appName], [bundleId], [primaryColor]
    are the members of the options the generator is given, so [args] is
    that record. *)
Definition generateSpecTool (h : Host) (now : string) (args : GenerateSpecOptions)
  : exn DetectFramework.ToolResult :=
  try_catch
    (viteProject <- ViteDetector.detectViteProject h (projectPath args) ;;
     nextjsProject <- NextJsDetector.detectNextJsProject h (projectPath args) ;;
     match DetectFramework.firstDetected viteProject nextjsProject with
     | None => Ok (DetectFramework.reply (noFrameworkText (projectPath args)))
     | Some projectInfo =>
         spec <-
           SpecGenerator.generateMigrationSpec now projectInfo
             {| projectPath := projectPath args;
                appName := appName args;
                bundleId := bundleId args;
                primaryColor := primaryColor args |} ;;
         Ok (DetectFramework.reply spec)
     end)
    (fun message =>
       Ok (DetectFramework.reply ("❌ Error generating specification: " +:+ message))).

End GenerateSpec.

(** ** dist/tools/generate-config.js *)

Module GenerateConfig.

(** [CapacitorConfigOptions]; the framework is the text the caller
    sent. *)
Record CapacitorConfigOptions := {
  appName : string;
  appId : string;
  webDir : string;
  framework : string;
  primaryColor : option string;
}.

(** The functions of generators/config-generator.js, of which the
    repository holds the declarations only.  They are ordinary calls
    that may throw.  The scripts are the entries of the record in the
    order [Object.entries] lists them. *)
Record ConfigGenerator := {
  generateCapacitorConfig : CapacitorConfigOptions → exn string;
  generateCapacitorScripts : string → exn (list (string * string));
  generateSetupGuide : CapacitorConfigOptions → exn string;
  generateInfoPlistPermissions : exn string;
  generateGitignoreEntries : exn string;
}.

Definition scriptLine (entry : string * string) : string :=
  "    " +:+ dq +:+ fst entry +:+ dq +:+ ": " +:+ dq +:+ snd entry +:+ dq.

Definition configText (configContent : string) (scripts : list (string * string))
    (gitignore permissions setupGuide : string) : string :=
  lines [
    "# Capacitor Configuration Generated";
    "";
    "## 1. capacitor.config.ts";
    "";
    "```typescript";
    configContent;
    "```";
    "";
    "## 2. Add these scripts to package.json";
    "";
    "```json";
    "{";
    "  " +:+ dq +:+ "scripts" +:+ dq +:+ ": {";
    String.concat ("," +:+ nl) (map scriptLine scripts);
    "  }";
    "}";
    "```";
    "";
    "## 3. Update .gitignore";
    "";
    "```";
    gitignore;
    "```";
    "";
    "## 4. iOS Permissions Template";
    "";
    permissions;
    "";
    "---";
    "";
    "## Setup Guide";
    "";
    setupGuide
  ].

Definition generateConfigTool (g : ConfigGenerator) (args : CapacitorConfigOptions)
  : exn DetectFramework.ToolResult :=
  try_catch
    (let options := {|
       appName := appName args; appId := appId args; webDir := webDir args;
       framework := framework args; primaryColor := primaryColor args |} in
     configContent <- generateCapacitorConfig g options ;;
     scripts <- generateCapacitorScripts g (framework args) ;;
     setupGuide <- generateSetupGuide g options ;;
     permissions <- generateInfoPlistPermissions g ;;
     gitignore <- generateGitignoreEntries g ;;
     Ok (DetectFramework.reply
           (configText configContent scripts gitignore permissions setupGuide)))
    (fun message =>
       Ok (DetectFramework.reply ("❌ Error generating config: " +:+ message))).

End GenerateConfig.

(** ** dist/resources/index.js *)

Module Resources.

(** [dirname] is [__dirname], the directory of the module. *)
Definition loadImplementationGuide (h : Host) (dirname : string) : exn string :=
  let filePath := path_join h [dirname; "../../IMPLEMENTATION_GUIDE.md"] in
  fs_readFile h filePath.

Definition loadCommonIssues (h : Host) (dirname : string) : exn string :=
  let filePath := path_join h [dirname; "../../COMMON_ISSUES.md"] in
  fs_readFile h filePath.

End Resources.

(** ** src/index.ts: the request handlers *)

Module Server.

Record PropertySchema := {
  p_type : string;
  p_description : string;
  p_enum : option (list string);
}.

(** An input schema; its [type] is [object]. *)
Record InputSchema := {
  properties : list (string * PropertySchema);
  required : list string;
}.

Record ToolInfo := {
  name : string;
  description : string;
  inputSchema : InputSchema;
}.

Definition textProperty (description : string) : PropertySchema :=
  {| p_type := "string"; p_description := description; p_enum := None |}.

(** The handler of [ListToolsRequestSchema]. *)
Definition listTools : list ToolInfo := [
  {| name := "detect_web_framework";
     description :=
       "Detect the web framework used in a project (Vite, Next.js, CRA). Returns framework type, version, and build configuration.";
     inputSchema := {|
       properties := [
         ("projectPath", textProperty "Absolute path to the web project directory") ];
       required := ["projectPath"] |} |};
  {| name := "generate_ios_migration_spec";
     description :=
       "Generate a detailed iOS migration specification document based on the detected framework.";
     inputSchema := {|
       properties := [
         ("projectPath", textProperty "Absolute path to the web project directory");
         ("appName",
          textProperty ("Name of the iOS app (e.g., " +:+ dq +:+ "Spark Vault" +:+ dq +:+ ")"));
         ("bundleId",
          textProperty ("Bundle identifier (e.g., " +:+ dq +:+ "com.ogadix.sparkvault" +:+ dq +:+ ")"));
         ("primaryColor",
          textProperty ("Optional: Primary color in hex format (e.g., " +:+ dq +:+ "#8b5cf6" +:+ dq +:+ ")")) ];
       required := ["projectPath"; "appName"; "bundleId"] |} |};
  {| name := "generate_capacitor_config";
     description :=
       "Generate a Capacitor configuration file (capacitor.config.ts) optimized for the detected framework.";
     inputSchema := {|
       properties := [
         ("appName", textProperty "Name of the app");
         ("appId", textProperty "Bundle identifier");
         ("webDir",
          textProperty ("Build output directory (e.g., " +:+ dq +:+ "dist" +:+ dq +:+ ", " +:+
                        dq +:+ "out" +:+ dq +:+ ", " +:+ dq +:+ "build" +:+ dq +:+ ")"));
         ("framework",
          {| p_type := "string";
             p_description := "Framework type (vite, nextjs, cra)";
             p_enum := Some ["vite"; "nextjs"; "cra"] |});
         ("primaryColor", textProperty "Optional: Primary color in hex format") ];
       required := ["appName"; "appId"; "webDir"; "framework"] |} |}
].

Record ResourceInfo := {
  r_uri : string;
  r_name : string;
  r_description : string;
  r_mimeType : string;
}.

(** The handler of [ListResourcesRequestSchema]. *)
Definition listResources : list ResourceInfo := [
  {| r_uri := "web-to-ios://guides/implementation";
     r_name := "Implementation Guide";
     r_description :=
       "Complete guide for iOS migration implementation, including design principles, risk management, and quality checklist";
     r_mimeType := "text/markdown" |};
  {| r_uri := "web-to-ios://guides/troubleshooting";
     r_name := "Common Issues & Solutions";
     r_description :=
       "Troubleshooting guide for web-to-iOS conversion covering build errors, runtime issues, and framework-specific problems";
     r_mimeType := "text/markdown" |}
].

Record ResourceContent := { uri : string; mimeType : string; text : string }.

Record ReadResourceResult := { contents : list ResourceContent }.

(** The handler of [ReadResourceRequestSchema].  It has no handler of
    its own for failures: a rejection of the load is its rejection. *)
Definition readResource (h : Host) (dirname : string) (uri : string)
  : exn ReadResourceResult :=
  if String.eqb uri "web-to-ios://guides/implementation" then
    guide <- Resources.loadImplementationGuide h dirname ;;
    Ok {| contents := [ {| uri := uri; mimeType := "text/markdown"; text := guide |} ] |}
  else if String.eqb uri "web-to-ios://guides/troubleshooting" then
    guide <- Resources.loadCommonIssues h dirname ;;
    Ok {| contents := [ {| uri := uri; mimeType := "text/markdown"; text := guide |} ] |}
  else Throw ("Unknown resource: " +:+ uri).

(** The arguments of a tool call, with the members the three input
    schemas name; each tool takes its own. *)
Record Arguments := {
  arg_projectPath : string;
  arg_appName : string;
  arg_bundleId : string;
  arg_appId : string;
  arg_webDir : string;
  arg_framework : string;
  arg_primaryColor : option string;
}.

(** The handler of [CallToolRequestSchema].  [now] is the reading of the
    clock and [g] the configuration generator. *)
Definition callTool (h : Host) (now : string) (g : GenerateConfig.ConfigGenerator)
    (name : string) (args : Arguments) : exn DetectFramework.ToolResult :=
  try_catch
    (if String.eqb name "detect_web_framework" then
       DetectFramework.detectFrameworkTool h (arg_projectPath args)
     else if String.eqb name "generate_ios_migration_spec" then
       GenerateSpec.generateSpecTool h now
         {| projectPath := arg_projectPath args;
            appName := arg_appName args;
            bundleId := arg_bundleId args;
            primaryColor := arg_primaryColor args |}
     else if String.eqb name "generate_capacitor_config" then
       GenerateConfig.generateConfigTool g
         {| GenerateConfig.appName := arg_appName args;
            GenerateConfig.appId := arg_appId args;
            GenerateConfig.webDir := arg_webDir args;
            GenerateConfig.framework := arg_framework args;
            GenerateConfig.primaryColor := arg_primaryColor args |}
     else Throw ("Unknown tool: " +:+ name))
    (fun errorMessage => Ok (DetectFramework.reply ("Error: " +:+ errorMessage))).

End Server.

(** * The vocabulary of the specification *)

(** ** Files and directories of a project *)

Section ProjectTree.
Variable h : Host.

(** No file is visible at [path]: [fs.access] rejects. *)
Definition Missing (path : string) : Prop :=
  ∃ e, fs_access h path = Throw e.

(** The file at [path] exists, is not larger than the bound of the
    facade, and reads as [content]. *)
Definition Readable (path content : string) : Prop :=
  fs_access h path = Ok tt ∧
  ∃ stats, fs_stat h path = Ok stats ∧
           (st_size stats ≤ File.defaultMaxSize)%N ∧
           fs_readFile h path = Ok content.

(** [path] is a directory. *)
Definition IsDir (path : string) : Prop :=
  ∃ stats, fs_stat h path = Ok stats ∧ st_isDirectory stats = true.

Definition manifestPath (projectPath : string) : string :=
  path_join h [projectPath; "package.json"].

(** The manifest of the project parses to [pkg]. *)
Definition Manifest (projectPath : string) (pkg : json) : Prop :=
  ∃ content, Readable (manifestPath projectPath) content ∧
             content ≠ "" ∧ JSON_parse h content = Ok pkg.

(** The manifest is missing, or what is there is not JSON. *)
Definition ManifestUnusable (projectPath : string) : Prop :=
  Missing (manifestPath projectPath) ∨
  ∃ content e, Readable (manifestPath projectPath) content ∧
               JSON_parse h content = Throw e.

(** [name] is the first of [names] that exists in the project. *)
Definition FirstExisting (projectPath : string) (names : list string)
    (name : string) : Prop :=
  ∃ before after,
    names = before ++ name :: after ∧
    Forall (fun n => Missing (path_join h [projectPath; n])) before ∧
    fs_access h (path_join h [projectPath; name]) = Ok tt.

End ProjectTree.

(** ** Dependencies of a manifest *)

Definition dependencyTables : list string := ["dependencies"; "devDependencies"].

(** The entry of package [name] in a dependency table of the manifest. *)
Definition entry (pkg : json) (table name : string) : option json :=
  get_opt (get pkg table) name.

(** [name] appears in neither table. *)
Definition Lacks (pkg : json) (name : string) : Prop :=
  Forall (fun table => entry pkg table name = None) dependencyTables.

(** [name] is declared: a table lists it, and where it is listed its
    version is a text that is not empty. *)
Definition Declares (pkg : json) (name : string) : Prop :=
  Exists (fun table => is_Some (entry pkg table name)) dependencyTables ∧
  Forall (fun table =>
            ∀ v, entry pkg table name = Some v → ∃ ver, v = JStr ver ∧ ver ≠ "")
         dependencyTables.

(** ** Literal settings in a configuration text *)

(** A run of white-space characters, on the units of a text. *)
Inductive Spaces : list ascii → Prop :=
| Spaces_nil : Spaces []
| Spaces_cons w ws : w ∈ RegExp.whiteSpace → Spaces ws → Spaces (w ++ ws).

Definition Whitespace (s : string) : Prop := Spaces (RegExp.chars s).

Definition Quote (s : string) : Prop := s = "'" ∨ s = dq.

Definition QuoteFree (s : string) : Prop :=
  Forall (fun c => RegExp.is_quote c = false) (RegExp.chars s).

(** [key: 'value'] stands in [content] right after [pre], with either
    quote and any white space around the colon. *)
Definition SettingAt (key value pre content : string) : Prop :=
  ∃ ws1 ws2 q1 q2 post,
    Whitespace ws1 ∧ Whitespace ws2 ∧ Quote q1 ∧ Quote q2 ∧
    content = pre +:+ key +:+ ws1 +:+ ":" +:+ ws2 +:+ q1 +:+ value +:+ q2 +:+ post.

(** The text has the literal [output: 'export']. *)
Definition ExportLiteral (content : string) : Prop :=
  ∃ pre, SettingAt "output" "export" pre content.

(** An [outDir: 'dir'] with a directory that is not empty. *)
Definition OutDirAt (dir pre content : string) : Prop :=
  dir ≠ "" ∧ QuoteFree dir ∧ SettingAt "outDir" dir pre content.

(** [dir] is the directory of the first [outDir] setting of the text. *)
Definition FirstOutDir (content dir : string) : Prop :=
  ∃ pre, OutDirAt dir pre content ∧
         ∀ dir' pre', OutDirAt dir' pre' content →
                      String.length pre ≤ String.length pre'.

(** ** The reply that lists the supported frameworks *)

Definition supportedFrameworks : list string :=
  ["Vite (React, Vue, Svelte, Angular)"; "Next.js"; "Create React App (coming soon)"].

Definition bullets (names : list string) : string :=
  String.concat "" (map (fun n => "- " +:+ n +:+ nl) names).

(** ** The two warnings of the migration document *)

(** The warning of a project without static export: the [CRITICAL] line,
    an empty line and the instructions. *)
Definition staticExportWarning : string :=
  SpecGenerator.criticalLine +:+ nl +:+ nl +:+ SpecGenerator.enableExportText.


(** The lines of a text, and those of a warning that are not empty. *)
Fixpoint splitLines (s line : string) : list string :=
  match s with
  | EmptyString => [line]
  | String c s' =>
      if Ascii.eqb c "010" then line :: splitLines s' ""
      else splitLines s' (line +:+ String c EmptyString)
  end.

Definition warningLines (w : string) : list string :=
  List.filter (fun line => negb (String.eqb line "")) (splitLines w "").

(** ** Runs of characters *)

(** What is left of [l] after its longest head of elements that satisfy
    [p], and that head. *)
Fixpoint dropWhile {A} (p : A → bool) (l : list A) : list A :=
  match l with
  | [] => []
  | x :: l' => if p x then dropWhile p l' else l
  end.

Fixpoint takeWhile {A} (p : A → bool) (l : list A) : list A :=
  match l with
  | [] => []
  | x :: l' => if p x then x :: takeWhile p l' else []
  end.

(** ** Texts in which a warning cannot begin *)





(** The version and the build command of a model have the texts
    [versionText] and [commandText]. *)
Definition Rendered (i : ProjectInfo) (versionText commandText : string) : Prop :=
  ToString (version i) = Ok versionText ∧
  ToString (buildCommand i) = Ok commandText.


(** ** Example projects *)

(** A project tree written out, and the host that serves it.  Its
    [JSON.parse] knows the texts listed in [fx_json] and rejects every
    other text. *)
Record Fixture := {
  fx_files : list (string * string);          (* path, content *)
  fx_dirs : list string;
  fx_listing : list (string * list Dirent);   (* directory, recursive listing *)
  fx_json : list (string * json);             (* text, parsed value *)
}.

Definition byName {A} (l : list (string * A)) (k : string) : option A :=
  snd <$> find (fun e => String.eqb (fst e) k) l.

Definition fixtureHost (fx : Fixture) : Host := {|
  path_join := String.concat "/";
  fs_access p :=
    if bool_decide (is_Some (byName (fx_files fx) p)) || existsb (String.eqb p) (fx_dirs fx)
    then Ok tt else Throw "ENOENT";
  fs_stat p :=
    match byName (fx_files fx) p with
    | Some c => Ok {| st_size := N.of_nat (String.length c); st_isDirectory := false |}
    | None =>
        if existsb (String.eqb p) (fx_dirs fx)
        then Ok {| st_size := 0; st_isDirectory := true |}
        else Throw "ENOENT"
    end;
  fs_readFile p :=
    match byName (fx_files fx) p with
    | Some c => Ok c
    | None => Throw "ENOENT"
    end;
  fs_readdir p :=
    match byName (fx_listing fx) p with
    | Some l => Ok l
    | None => Throw "ENOENT"
    end;
  JSON_parse t :=
    match byName (fx_json fx) t with
    | Some v => Ok v
    | None => Throw "SyntaxError"
    end;
|}.

Definition quoted (s : string) : string := dq +:+ s +:+ dq.

(** The text of a manifest with one table of one package, and the value
    of a manifest with one table. *)
Definition manifestText (table name ver : string) : string :=
  "{" +:+ quoted table +:+ ":{" +:+ quoted name +:+ ":" +:+ quoted ver +:+ "}}".

Definition manifestValue (table : string) (deps : list (string * string)) : json :=
  JObj {[ table := JObj (list_to_map (prod_map id JStr <$> deps)) ]}.

Definition nextManifest : string := manifestText "dependencies" "next" "14.0.0".

(** No manifest at all. *)
Definition emptyProject : Fixture := {|
  fx_files := []; fx_dirs := ["/proj"]; fx_listing := []; fx_json := [] |}.

(** A manifest that is not JSON. *)
Definition brokenProject : Fixture := {|
  fx_files := [("/proj/package.json", "{ oops")];
  fx_dirs := ["/proj"]; fx_listing := []; fx_json := [] |}.

(** A Next.js project in the middle of a migration: both router
    directories, no configuration file. *)
Definition migratingProject : Fixture := {|
  fx_files := [("/proj/package.json", nextManifest)];
  fx_dirs := ["/proj"; "/proj/app"; "/proj/pages"; "/proj/pages/api"];
  fx_listing := [("/proj/app", [ {| d_name := "page.tsx"; d_isFile := true |} ])];
  fx_json := [(nextManifest, manifestValue "dependencies" [("next", "14.0.0")])] |}.

(** A Next.js project without router directories, exported statically. *)
Definition bareProject : Fixture := {|
  fx_files := [("/proj/package.json", nextManifest);
               ("/proj/next.config.mjs", "export default { output: 'export' }")];
  fx_dirs := ["/proj"];
  fx_listing := [];
  fx_json := [(nextManifest, manifestValue "dependencies" [("next", "14.0.0")])] |}.

(** A Next.js project whose export mode is computed, not written out. *)
Definition computedProject : Fixture := {|
  fx_files := [("/proj/package.json", nextManifest);
               ("/proj/next.config.js",
                "const mode = 'export'; module.exports = { output: mode }")];
  fx_dirs := ["/proj"; "/proj/app"; "/proj/app/api"; "/proj/app/api/users"];
  fx_listing := [("/proj/app",
                  [ {| d_name := "page.tsx"; d_isFile := true |};
                    {| d_name := "api"; d_isFile := false |};
                    {| d_name := "users"; d_isFile := false |};
                    {| d_name := "route.ts"; d_isFile := true |} ])];
  fx_json := [(nextManifest, manifestValue "dependencies" [("next", "14.0.0")])] |}.

Definition viteManifest : string :=
  "{" +:+ quoted "dependencies" +:+ ":{" +:+ quoted "react" +:+ ":" +:+
  quoted "18.2.0" +:+ "}," +:+ quoted "devDependencies" +:+ ":{" +:+
  quoted "vite" +:+ ":" +:+ quoted "5.0.0" +:+ "}}".

(** A Vite project with React and a custom output directory. *)
Definition viteProject : Fixture := {|
  fx_files := [("/proj/package.json", viteManifest);
               ("/proj/vite.config.js", "export default { build: { outDir: 'build' } }")];
  fx_dirs := ["/proj"];
  fx_listing := [];
  fx_json := [(viteManifest,
               JObj {[ "dependencies" := JObj {[ "react" := JStr "18.2.0" ]};
                       "devDependencies" := JObj {[ "vite" := JStr "5.0.0" ]} ]})] |}.

(** A Next.js model and options for a document. *)
Definition sampleOptions : GenerateSpecOptions := {|
  projectPath := "/proj"; appName := "Shop"; bundleId := "com.example.shop";
  primaryColor := Some "#336699" |}.




(** ** Route files and notes *)

(** The recursive listing of [dir] can be read and holds a file named
    route.ts or route.js. *)
Definition RouteFileIn (h : Host) (dir : string) : Prop :=
  ∃ entries e,
    fs_readdir h dir = Ok entries ∧ e ∈ entries ∧ d_isFile e = true ∧
    (d_name e = "route.ts" ∨ d_name e = "route.js").

(** The project has a route file under app/ or src/app/. *)
Definition HasRouteFile (h : Host) (projectPath : string) : Prop :=
  RouteFileIn h (path_join h [projectPath; "app"]) ∨
  RouteFileIn h (path_join h [projectPath; "src"; "app"]).

(** The project has an app directory, respectively a pages directory. *)
Definition HasAppDir (h : Host) (projectPath : string) : Prop :=
  IsDir h (path_join h [projectPath; "app"]) ∨
  IsDir h (path_join h [projectPath; "src"; "app"]).

Definition HasPagesDir (h : Host) (projectPath : string) : Prop :=
  IsDir h (path_join h [projectPath; "pages"]) ∨
  IsDir h (path_join h [projectPath; "src"; "pages"]).

Definition HasPagesApiDir (h : Host) (projectPath : string) : Prop :=
  IsDir h (path_join h [projectPath; "pages"; "api"]) ∨
  IsDir h (path_join h [projectPath; "src"; "pages"; "api"]).

(** One of the candidate files of Next.js is readable and holds the
    export literal. *)
Definition ExportConfigured (h : Host) (projectPath : string) : Prop :=
  ∃ name content,
    name ∈ NextJsDetector.configNames ∧
    Readable h (path_join h [projectPath; name]) content ∧
    ExportLiteral content.

(** The text has an [outDir] setting somewhere. *)
Definition HasOutDir (content : string) : Prop :=
  ∃ dir pre, OutDirAt dir pre content.

(** A value that counts as false: null, false, zero and the empty text. *)
Definition Falsy (v : json) : Prop :=
  v = JNull ∨ v = JBool false ∨ (∃ n, v = JNum n ∧ isZero n = true) ∨ v = JStr "".

(** [name] is not listed in [table], or is listed there with a value
    that counts as false. *)
Definition Unlisted (pkg : json) (table name : string) : Prop :=
  ∀ v, entry pkg table name = Some v → Falsy v.

(** The build script of a manifest, [scripts.build]. *)
Definition buildScript (pkg : json) : option json :=
  get_opt (get pkg "scripts") "build".

(** The beginnings of the two notes of the detection reply. *)
Definition importantNote : string := "> ⚠️ **Important:**".

Definition warningNote : string := "> ⚠️ **Warning:**".

(** The first character of a text. *)
Definition headChar (s : string) : option ascii :=
  match s with
  | EmptyString => None
  | String c _ => Some c
  end.

(** The text of the detection tool about a detected project: its
    description, or the error text when a conversion threw. *)
Definition detectedReply (projectInfo : AnyProjectInfo) : string :=
  match DetectFramework.detectedText projectInfo with
  | Ok result => result
  | Throw message => "❌ Error detecting framework: " +:+ message
  end.

(** The text of the specification tool about a detected project: the
    document, or the error text when a conversion threw. *)
Definition specReply (now : string) (projectInfo : AnyProjectInfo)
    (options : GenerateSpecOptions) : string :=
  match SpecGenerator.generateMigrationSpec now projectInfo options with
  | Ok spec => spec
  | Throw message => "❌ Error generating specification: " +:+ message
  end.

(** The reply of the server to a call of a tool it does not know. *)
Definition unknownToolText (name : string) : string :=
  "Error: Unknown tool: " +:+ name.

(** The beginning of the hint at the primary colour in the last section
    of the document. *)
Definition colourLead : string := " (use ".

(** The line of the Vite section that names the configuration file. *)
Definition updateLine (configFile : string) : string :=
  "Update `" +:+ configFile +:+ "`:".

(** The paths of the two guides. *)
Definition guidePath (h : Host) (dirname : string) (uri : string) : string :=
  if String.eqb uri "web-to-ios://guides/implementation"
  then path_join h [dirname; "../../IMPLEMENTATION_GUIDE.md"]
  else path_join h [dirname; "../../COMMON_ISSUES.md"].

(** ** More example projects *)

Definition manifestOf (fx_text : string) (v : json) (files : list (string * string))
    (dirs : list string) : Fixture := {|
  fx_files := ("/proj/package.json", fx_text) :: files;
  fx_dirs := "/proj" :: dirs;
  fx_listing := [];
  fx_json := [(fx_text, v)] |}.

(** next is listed with an empty version. *)
Definition emptyVersionProject : Fixture :=
  manifestOf (manifestText "dependencies" "next" "")
    (manifestValue "dependencies" [("next", "")]) [] [].

Definition twoTables (deps devDeps : list (string * string)) : json :=
  JObj {[ "dependencies" := JObj (list_to_map (prod_map id JStr <$> deps));
          "devDependencies" := JObj (list_to_map (prod_map id JStr <$> devDeps)) ]}.

(** next in both tables, with different versions; a build script. *)
Definition bothTablesValue : json :=
  JObj {[ "dependencies" := JObj {[ "next" := JStr "14.0.0" ]};
          "devDependencies" := JObj {[ "next" := JStr "13.5.0" ]};
          "scripts" := JObj {[ "build" := JStr "next build && next export" ]} ]}.

Definition bothTablesProject : Fixture :=
  manifestOf "both-tables.json" bothTablesValue [] ["/proj/pages"; "/proj/pages/api"].

(** A Vue project on Vite that also lists react-router. *)
Definition mixedRoutersValue : json :=
  twoTables [("vue", "3.4.0"); ("react-router", "6.20.0")] [("vite", "5.0.0")].

Definition mixedRoutersProject : Fixture :=
  manifestOf "mixed-routers.json" mixedRoutersValue [] [].

(** vite and next together. *)
Definition hybridProject : Fixture :=
  manifestOf "hybrid.json"
    (twoTables [("next", "14.0.0"); ("vue", "3.4.0")] [("vite", "5.0.0")]) [] [].

(** A first configuration file without an output directory, a second
    one with it. *)
Definition twoConfigsProject : Fixture :=
  manifestOf viteManifest
    (twoTables [("react", "18.2.0")] [("vite", "5.0.0")])
    [("/proj/vite.config.ts", "export default {}");
     ("/proj/vite.config.js", "export default { build: { outDir: 'build' } }")] [].

(** The no-break space U+00A0, in UTF-8. *)
Definition nbsp : string := String "194" (String "160" EmptyString).

(** A Next.js project whose export literal has no-break spaces around
    the colon. *)
Definition nbspNextProject : Fixture :=
  manifestOf nextManifest (manifestValue "dependencies" [("next", "14.0.0")])
    [("/proj/next.config.js",
      "module.exports = { output" +:+ nbsp +:+ ":" +:+ nbsp +:+ "'export' }")] [].

(** A Vite project whose first outDir setting has a no-break space
    before the colon. *)
Definition nbspViteProject : Fixture :=
  manifestOf viteManifest
    (twoTables [("react", "18.2.0")] [("vite", "5.0.0")])
    [("/proj/vite.config.ts",
      "export default { build: { outDir" +:+ nbsp +:+ ": 'a' }, old: { outDir: 'b' } }")]
    [].

(** vite is listed with an object that has a member named toString. *)
Definition unprintableValue : json :=
  JObj {[ "devDependencies" :=
            JObj {[ "vite" :=
                      JObj {[ "toString" :=
                                JNum {| isZero := false; numberText := "1" |} ]} ]} ]}.

Definition unprintableProject : Fixture :=
  manifestOf "unprintable.json" unprintableValue [] [].

(** A Vite project without a configuration file. *)
Definition plainViteProject : Fixture :=
  manifestOf viteManifest
    (twoTables [("svelte", "4.0.0")] [("vite", "5.0.0")]) [] [].

(** react with a real version in dependencies and an empty one in
    devDependencies. *)
Definition shadowedReactValue : json :=
  twoTables [("react", "18.2.0"); ("vite", "5.0.0")] [("react", "")].

(** A configuration generator that answers, and one whose scripts
    fail. *)
Definition sampleGenerator : GenerateConfig.ConfigGenerator := {|
  GenerateConfig.generateCapacitorConfig o := Ok ("appId: " +:+ GenerateConfig.appId o);
  GenerateConfig.generateCapacitorScripts f := Ok [("cap:sync", "npx cap sync ios")];
  GenerateConfig.generateSetupGuide o := Ok "guide";
  GenerateConfig.generateInfoPlistPermissions := Ok "permissions";
  GenerateConfig.generateGitignoreEntries := Ok "ios/" |}.

Definition failingGenerator : GenerateConfig.ConfigGenerator := {|
  GenerateConfig.generateCapacitorConfig o := Ok "config";
  GenerateConfig.generateCapacitorScripts f := Throw "no scripts";
  GenerateConfig.generateSetupGuide o := Ok "guide";
  GenerateConfig.generateInfoPlistPermissions := Ok "permissions";
  GenerateConfig.generateGitignoreEntries := Ok "ios/" |}.

Definition sampleArguments : Server.Arguments := {|
  Server.arg_projectPath := "/proj";
  Server.arg_appName := "Shop";
  Server.arg_bundleId := "com.example.shop";
  Server.arg_appId := "com.example.shop";
  Server.arg_webDir := "dist";
  Server.arg_framework := "vite";
  Server.arg_primaryColor := None |}.

(** A host that serves the two guides beside the modules. *)
Definition guidesProject : Fixture := {|
  fx_files := [("/srv/dist/resources/../../IMPLEMENTATION_GUIDE.md", "# Guide");
               ("/srv/dist/resources/../../COMMON_ISSUES.md", "# Issues")];
  fx_dirs := []; fx_listing := []; fx_json := [] |}.

(** * Properties *)

(** ** The file access facade *)

Section FileFacts.
Import File.
Variable h : Host.

Lemma safeReadFile_total path maxSize :
  ∃ r, safeReadFile h path maxSize = Ok r.
Proof.
  unfold safeReadFile.
  destruct (fs_access h path) as [[]|e]; simpl; [|eauto].
  destruct (fs_stat h path) as [st|e]; simpl; [|eauto].
  destruct (maxSize <? st_size st)%N; [eauto|].
  destruct (fs_readFile h path); simpl; eauto.
Qed.

Lemma safeReadFile_missing path maxSize :
  Missing h path → safeReadFile h path maxSize = Ok None.
Proof. intros [e He]. unfold safeReadFile. now rewrite He. Qed.

Lemma safeReadFile_too_large path maxSize stats :
  fs_stat h path = Ok stats → (maxSize < st_size stats)%N →
  safeReadFile h path maxSize = Ok None.
Proof.
  intros Hst Hlt. unfold safeReadFile.
  destruct (fs_access h path) as [[]|e]; simpl; [|reflexivity].
  rewrite Hst. simpl. apply N.ltb_lt in Hlt. now rewrite Hlt.
Qed.

Lemma safeReadFile_Some path content :
  safeReadFile h path defaultMaxSize = Ok (Some content) ↔ Readable h path content.
Proof.
  unfold safeReadFile, Readable. split.
  - destruct (fs_access h path) as [[]|e]; simpl; [|discriminate].
    destruct (fs_stat h path) as [st|e]; simpl; [|discriminate].
    destruct (N.ltb_spec defaultMaxSize (st_size st)); [discriminate|].
    destruct (fs_readFile h path) as [c|e]; simpl; [|discriminate].
    intros [= ->]. split; [reflexivity|]. exists st. auto.
  - intros (Hacc & st & Hst & Hle & Hrd). rewrite Hacc, Hst. simpl.
    destruct (N.ltb_spec defaultMaxSize (st_size st)); [lia|].
    now rewrite Hrd.
Qed.

Lemma readJsonFile_total path : ∃ v, readJsonFile h path = Ok v.
Proof.
  unfold readJsonFile.
  destruct (safeReadFile_total path defaultMaxSize) as [r ->]. simpl.
  destruct (falsy_text r); [eauto|].
  destruct (JSON_parse h (default "" r)); simpl; eauto.
Qed.

Lemma readJsonFile_absent path :
  safeReadFile h path defaultMaxSize = Ok None → readJsonFile h path = Ok JNull.
Proof. intros H. unfold readJsonFile. now rewrite H. Qed.

Lemma readJsonFile_invalid path content e :
  Readable h path content → JSON_parse h content = Throw e →
  readJsonFile h path = Ok JNull.
Proof.
  intros Hr Hp. apply safeReadFile_Some in Hr. unfold readJsonFile.
  rewrite Hr. simpl. destruct (String.eqb content ""); [reflexivity|].
  now rewrite Hp.
Qed.

Lemma readPackageJson_Manifest projectPath pkg :
  Manifest h projectPath pkg → readPackageJson h projectPath = Ok pkg.
Proof.
  intros (content & Hr & Hne & Hp). apply safeReadFile_Some in Hr.
  unfold readPackageJson, readJsonFile. fold (manifestPath h projectPath).
  rewrite Hr. simpl.
  destruct (String.eqb_spec content ""); [contradiction|].
  now rewrite Hp.
Qed.

Lemma readPackageJson_unusable projectPath :
  ManifestUnusable h projectPath → readPackageJson h projectPath = Ok JNull.
Proof.
  unfold readPackageJson. fold (manifestPath h projectPath).
  intros [Hm | (content & e & Hr & Hp)].
  - apply readJsonFile_absent. now apply safeReadFile_missing.
  - eapply readJsonFile_invalid; eauto.
Qed.

Lemma fileExists_access path :
  fs_access h path = Ok tt → fileExists h path = Ok true.
Proof. intros H. unfold fileExists. now rewrite H. Qed.

Lemma fileExists_missing path :
  Missing h path → fileExists h path = Ok false.
Proof. intros [e H]. unfold fileExists. now rewrite H. Qed.

End FileFacts.

(** ** Runs of characters *)

Section Runs.
Context {A : Type} (p : A → bool).

Lemma takeWhile_dropWhile l : takeWhile p l ++ dropWhile p l = l.
Proof. induction l as [|x l IH]; simpl; [|destruct (p x); simpl; rewrite ?IH]; reflexivity. Qed.

Lemma takeWhile_all l : Forall (fun x => p x = true) (takeWhile p l).
Proof.
  induction l as [|x l IH]; simpl; [constructor|].
  destruct (p x) eqn:E; constructor; assumption.
Qed.

Lemma dropWhile_head x l' l : dropWhile p l = x :: l' → p x = false.
Proof.
  induction l as [|y l IH]; simpl; [discriminate|].
  destruct (p y) eqn:E; [assumption|]. now intros [= -> _].
Qed.

Lemma dropWhile_run run x rest :
  Forall (fun y => p y = true) run → p x = false →
  dropWhile p (run ++ x :: rest) = x :: rest.
Proof.
  intros Hrun Hx. induction Hrun as [|y run Hy _ IH]; simpl.
  - now rewrite Hx.
  - now rewrite Hy.
Qed.

Lemma takeWhile_run run x rest :
  Forall (fun y => p y = true) run → p x = false →
  takeWhile p (run ++ x :: rest) = run.
Proof.
  intros Hrun Hx. induction Hrun as [|y run Hy _ IH]; simpl.
  - now rewrite Hx.
  - rewrite Hy. now f_equal.
Qed.

End Runs.

(** ** The matcher *)

Module RegExpFacts.
Import RegExp.

Section Matcher.
Context {A : Type}.
Implicit Types (k : cont A) (cap : capture) (s : list ascii).

Lemma rmatch_Seq r1 r2 k cap s :
  rmatch (Seq r1 r2) k cap s = rmatch r1 (fun cap' s' => rmatch r2 k cap' s') cap s.
Proof. reflexivity. Qed.

Lemma rmatch_Chr c k cap s :
  rmatch (Chr c) k cap s =
  match s with
  | a :: s' => if Ascii.eqb a c then k cap s' else None
  | [] => None
  end.
Proof. reflexivity. Qed.

Lemma rmatch_Cls p k cap s :
  rmatch (Cls p) k cap s =
  match s with
  | a :: s' => if p a then k cap s' else None
  | [] => None
  end.
Proof. reflexivity. Qed.

Lemma rmatch_Group r k cap s :
  rmatch (Group r) k cap s =
  rmatch r (fun _ s' => k (Some (take (length s - length s') s)) s') cap s.
Proof. reflexivity. Qed.

Lemma rmatch_Lit_app w k cap s : rmatch (Lit w) k cap (w ++ s) = k cap s.
Proof.
  induction w as [|c w IH]; simpl; [reflexivity|].
  rewrite Ascii.eqb_refl. apply IH.
Qed.

Lemma rmatch_Lit_inv w k cap s a :
  rmatch (Lit w) k cap s = Some a → ∃ s', s = w ++ s' ∧ k cap s' = Some a.
Proof.
  revert s. induction w as [|c w IH]; simpl; intros s H; [eauto|].
  destruct s as [|x s]; [discriminate|].
  destruct (Ascii.eqb_spec x c) as [->|]; [|discriminate].
  destruct (IH _ H) as (s' & -> & Hk). eauto.
Qed.

(** A greedy run of a class, before a continuation that refuses to
    start inside the run, stops exactly where the run ends. *)
Lemma rmatch_Star_Cls p k cap s :
  (∀ cap' c s', p c = true → k cap' (c :: s') = None) →
  rmatch (Star (Cls p)) k cap s = k cap (dropWhile p s).
Proof.
  intros Hk. simpl.
  generalize (Nat.le_refl (length s)).
  generalize (length s) at 2 3 as fuel.
  intros fuel. revert s.
  induction fuel as [|fuel IH]; intros s Hlen.
  - destruct s; [reflexivity|simpl in Hlen; lia].
  - destruct s as [|c s]; [reflexivity|]. simpl.
    destruct (p c) eqn:Hc; [|reflexivity].
    destruct (Nat.ltb_spec (length s) (S (length s))); [|lia].
    simpl in Hlen. rewrite IH by lia.
    destruct (k cap (dropWhile p s)) eqn:E; [reflexivity|].
    now rewrite Hk.
Qed.

(** *** The class of white space *)

Lemma strip_Some w s s' : strip w s = Some s' ↔ s = w ++ s'.
Proof.
  revert s. induction w as [|c w IH]; intros s; simpl.
  - split; [intros [= ->]|intros ->]; reflexivity.
  - destruct s as [|x s]; [split; discriminate|].
    destruct (Ascii.eqb_spec x c) as [->|Hne].
    + rewrite IH. split; [intros ->|intros [= ->]]; reflexivity.
    + split; [discriminate|]. intros [= -> _]. contradiction.
Qed.

Lemma strip_first_Some members s s' :
  strip_first members s = Some s' → ∃ w, w ∈ members ∧ s = w ++ s'.
Proof.
  induction members as [|w members IH]; simpl; [discriminate|].
  destruct (strip w s) as [s1|] eqn:E.
  - intros [= <-]. apply strip_Some in E. exists w. split; [left|exact E].
  - intros H. destruct (IH H) as (w' & Hw' & ->). exists w'. split; [now right|reflexivity].
Qed.

Lemma strip_first_None members s w :
  strip_first members s = None → w ∈ members → strip w s = None.
Proof.
  induction members as [|w0 members IH]; simpl; intros H Hw.
  - inversion Hw.
  - destruct (strip w0 s) eqn:E; [discriminate|].
    apply elem_of_cons in Hw as [-> | Hw]; auto.
Qed.

(** No white-space character is the head of another. *)
Lemma whiteSpace_heads w1 w2 r1 r2 :
  w1 ∈ whiteSpace → w2 ∈ whiteSpace → w1 ++ r1 = w2 ++ r2 → w1 = w2.
Proof.
  assert (H : Forall (fun w1 => Forall (fun w2 =>
                ∀ r1 r2, w1 ++ r1 = w2 ++ r2 → w1 = w2) whiteSpace) whiteSpace).
  { remember whiteSpace as ws eqn:E. vm_compute in E. subst ws.
    repeat constructor; intros ? ? ?; simplify_eq/=; reflexivity. }
  intros H1 H2. rewrite Forall_forall in H.
  specialize (H w1 H1). rewrite Forall_forall in H. exact (H w2 H2 r1 r2).
Qed.

(** A white-space character begins with a unit that is neither the
    colon nor a quote. *)
Lemma whiteSpace_head w :
  w ∈ whiteSpace →
  ∃ c w', w = c :: w' ∧ Ascii.eqb c ":" = false ∧ is_quote c = false.
Proof.
  assert (H : Forall (fun w => ∃ c w', w = c :: w' ∧ Ascii.eqb c ":" = false ∧
                                       is_quote c = false) whiteSpace).
  { remember whiteSpace as ws eqn:E. vm_compute in E. subst ws.
    repeat constructor; eexists _, _; repeat split. }
  rewrite Forall_forall in H. apply H.
Qed.

Lemma strip_first_space w s' :
  w ∈ whiteSpace → strip_first whiteSpace (w ++ s') = Some s'.
Proof.
  intros Hw. destruct (strip_first whiteSpace (w ++ s')) as [s0|] eqn:E.
  - apply strip_first_Some in E as (w0 & Hw0 & E).
    pose proof (whiteSpace_heads _ _ _ _ Hw Hw0 E) as <-.
    apply app_inv_head in E. now subst.
  - apply (strip_first_None _ _ w) in E; [|assumption].
    assert (E' : strip w (w ++ s') = Some s') by now apply strip_Some.
    congruence.
Qed.

(** A greedy run of white space, before a continuation that refuses to
    start at a white-space character, takes a whole run. *)
Lemma rmatch_Star_space k cap s a :
  (∀ cap' w s', w ∈ whiteSpace → k cap' (w ++ s') = None) →
  rmatch (Star space) k cap s = Some a ↔
  ∃ ws rest, Spaces ws ∧ s = ws ++ rest ∧ k cap rest = Some a.
Proof.
  intros Hk. unfold space. cbn [rmatch].
  generalize (Nat.le_refl (length s)).
  generalize (length s) at 2 3 as fuel.
  intros fuel. revert s.
  induction fuel as [|fuel IH]; intros s Hlen.
  - destruct s; [|simpl in Hlen; lia]. split.
    + intros H. exists [], []. split; [constructor|]. auto.
    + intros (ws & rest & _ & E & H).
      symmetry in E. apply app_eq_nil in E as [-> ->]. exact H.
  - cbv beta iota.
    destruct (strip_first whiteSpace s) as [s1|] eqn:E1.
    + apply strip_first_Some in E1 as (w & Hw & ->).
      assert (Hlt : length s1 < length (w ++ s1)).
      { destruct (whiteSpace_head w Hw) as (c & w' & -> & _).
        rewrite length_app. simpl. lia. }
      apply Nat.ltb_lt in Hlt as Hltb. rewrite Hltb, (Hk cap w s1 Hw).
      specialize (IH s1 ltac:(lia)).
      match goal with
      | |- (match ?X with Some _ => _ | None => _ end = _) ↔ _ => set (x := X) in *
      end.
      assert (Hx : match x with Some a0 => Some a0 | None => None end = Some a
                   ↔ x = Some a) by (destruct x; split; congruence).
      rewrite Hx, IH. clear Hx. split.
      * intros (ws & rest & Hws & -> & Hrest).
        exists (w ++ ws), rest. split; [now constructor|].
        split; [now rewrite <- app_assoc|assumption].
      * intros (ws & rest & Hws & E & Hrest).
        destruct Hws as [|w0 ws Hw0 Hws].
        { simpl in E. subst rest. rewrite (Hk cap w s1 Hw) in Hrest.
          discriminate. }
        rewrite <- app_assoc in E.
        pose proof (whiteSpace_heads _ _ _ _ Hw Hw0 E) as <-.
        apply app_inv_head in E. subst s1. eauto.
    + split.
      * intros H. exists [], s. split; [constructor|]. auto.
      * intros (ws & rest & Hws & -> & Hrest).
        destruct Hws as [|w0 ws Hw0 Hws]; [exact Hrest|].
        rewrite <- app_assoc, (strip_first_space _ _ Hw0) in E1. discriminate.
Qed.

(** The common head of the two patterns: a key, a colon with optional
    white space around it, an opening quote. *)
Lemma rmatch_setting key rest k cap s a :
  rmatch
    (Seq (Lit key)
      (Seq (Star space)
        (Seq (Chr ":")
          (Seq (Star space)
            (Seq (Cls is_quote) rest))))) k cap s = Some a
  ↔ ∃ ws1 ws2 q s',
      s = key ++ ws1 ++ ":"%char :: ws2 ++ q :: s' ∧
      Spaces ws1 ∧ Spaces ws2 ∧
      is_quote q = true ∧
      rmatch rest k cap s' = Some a.
Proof.
  assert (Hcolon : ∀ r (k' : cont A) cap' w s',
            w ∈ whiteSpace → rmatch (Seq (Chr ":") r) k' cap' (w ++ s') = None).
  { intros r k' cap' w s' Hw. destruct (whiteSpace_head w Hw) as (c & w' & -> & Hc & _).
    rewrite rmatch_Seq, rmatch_Chr. simpl. now rewrite Hc. }
  assert (Hquote : ∀ r (k' : cont A) cap' w s',
            w ∈ whiteSpace → rmatch (Seq (Cls is_quote) r) k' cap' (w ++ s') = None).
  { intros r k' cap' w s' Hw. destruct (whiteSpace_head w Hw) as (c & w' & -> & _ & Hc).
    rewrite rmatch_Seq, rmatch_Cls. simpl. now rewrite Hc. }
  rewrite rmatch_Seq. split.
  - intros H. apply rmatch_Lit_inv in H as (s1 & -> & H).
    rewrite rmatch_Seq in H.
    apply rmatch_Star_space in H as (ws1 & r1 & H1 & -> & H);
      [|intros; apply Hcolon; assumption].
    rewrite rmatch_Seq, rmatch_Chr in H.
    destruct r1 as [|c s2]; [discriminate|].
    destruct (Ascii.eqb_spec c ":") as [->|]; [|discriminate].
    rewrite rmatch_Seq in H.
    apply rmatch_Star_space in H as (ws2 & r2 & H2 & -> & H);
      [|intros; apply Hquote; assumption].
    rewrite rmatch_Seq, rmatch_Cls in H.
    destruct r2 as [|q s3]; [discriminate|].
    destruct (is_quote q) eqn:Hq; [|discriminate].
    exists ws1, ws2, q, s3. auto.
  - intros (ws1 & ws2 & q & s' & -> & H1 & H2 & Hq & H).
    rewrite rmatch_Lit_app, rmatch_Seq.
    apply rmatch_Star_space; [intros; apply Hcolon; assumption|].
    exists ws1, (":"%char :: ws2 ++ q :: s'). split; [assumption|].
    split; [reflexivity|].
    rewrite rmatch_Seq, rmatch_Chr, Ascii.eqb_refl, rmatch_Seq.
    apply rmatch_Star_space; [intros; apply Hquote; assumption|].
    exists ws2, (q :: s'). split; [assumption|]. split; [reflexivity|].
    now rewrite rmatch_Seq, rmatch_Cls, Hq.
Qed.

(** A captured run of characters that are not quotes, closed by a
    quote. *)
Lemma rmatch_quoted_run k cap s a :
  rmatch (Seq (Group (Plus (Cls (fun c => negb (is_quote c))))) (Cls is_quote))
    k cap s = Some a
  ↔ ∃ run q post,
      s = run ++ q :: post ∧ run ≠ [] ∧
      Forall (fun c => negb (is_quote c) = true) run ∧
      is_quote q = true ∧
      k (Some run) post = Some a.
Proof.
  set (nq := fun c => negb (is_quote c)).
  assert (Hclose : ∀ (k' : cont A) cap' c s',
            nq c = true → rmatch (Cls is_quote) k' cap' (c :: s') = None).
  { intros k' cap' c s' Hc. rewrite rmatch_Cls. unfold nq in Hc.
    destruct (is_quote c); [discriminate|reflexivity]. }
  assert (Htake : ∀ c s1,
            take (length (c :: s1) - length (dropWhile nq s1)) (c :: s1)
            = c :: takeWhile nq s1).
  { intros c s1. rewrite <- (takeWhile_dropWhile nq s1) at 1 3.
    rewrite length_cons, length_app.
    replace (S (length (takeWhile nq s1) + length (dropWhile nq s1))
             - length (dropWhile nq s1))
      with (length (c :: takeWhile nq s1)) by (simpl; lia).
    rewrite app_comm_cons. apply take_app_length. }
  rewrite rmatch_Seq, rmatch_Group. unfold Plus.
  rewrite rmatch_Seq, rmatch_Cls. fold nq. split.
  - destruct s as [|c s1]; [discriminate|].
    destruct (nq c) eqn:Hc; [|discriminate].
    rewrite rmatch_Star_Cls by (intros; apply Hclose; assumption).
    rewrite rmatch_Cls, Htake.
    destruct (dropWhile nq s1) as [|q post] eqn:E; [discriminate|].
    destruct (is_quote q) eqn:Hq; [|discriminate].
    intros H. exists (c :: takeWhile nq s1), q, post.
    repeat split; auto.
    + simpl. rewrite <- E, takeWhile_dropWhile. reflexivity.
    + constructor; [assumption|apply takeWhile_all].
  - intros (run & q & post & -> & Hne & Hrun & Hq & H).
    destruct run as [|c run]; [contradiction|].
    inversion Hrun as [|? ? Hc Hrun']; subst.
    change (nq c = true) in Hc.
    change ((c :: run) ++ q :: post) with (c :: run ++ q :: post).
    cbv iota. rewrite Hc.
    rewrite rmatch_Star_Cls by (intros; apply Hclose; assumption).
    assert (Hnq : nq q = false) by (unfold nq; now rewrite Hq).
    rewrite Htake.
    rewrite dropWhile_run, takeWhile_run by assumption.
    rewrite rmatch_Cls, Hq. exact H.
Qed.

End Matcher.

(** The search. *)
Lemma exec_None r s :
  exec r s = None ↔ ∀ pre suf, s = pre ++ suf → match_here r suf = None.
Proof.
  induction s as [|x s IH]; simpl.
  - split.
    + intros H pre suf E. symmetry in E. apply app_eq_nil in E as [_ ->].
      destruct (match_here r []); [discriminate|reflexivity].
    + intros H. now rewrite (H [] [] eq_refl).
  - split.
    + intros H pre suf E.
      destruct (match_here r (x :: s)) eqn:Hm; [discriminate|].
      destruct pre as [|y pre]; simpl in E; [now subst|].
      injection E as -> ->. eapply IH; eauto.
    + intros H. rewrite (H [] (x :: s) eq_refl).
      apply IH. intros pre suf ->. apply (H (x :: pre) suf). reflexivity.
Qed.

Lemma exec_first r s pre suf cap :
  s = pre ++ suf → match_here r suf = Some cap →
  (∀ pre' suf', s = pre' ++ suf' → length pre' < length pre →
                match_here r suf' = None) →
  exec r s = Some cap.
Proof.
  revert s. induction pre as [|x pre IH]; intros s -> Hm Hmin.
  - simpl. destruct suf; simpl; now rewrite Hm.
  - simpl. rewrite (Hmin [] (x :: pre ++ suf) eq_refl) by (simpl; lia).
    apply IH; [reflexivity|assumption|].
    intros pre' suf' E Hlt. apply (Hmin (x :: pre') suf').
    + simpl. now rewrite E.
    + simpl. lia.
Qed.

Lemma exec_Some_inv r s cap :
  exec r s = Some cap →
  ∃ pre suf,
    s = pre ++ suf ∧ match_here r suf = Some cap ∧
    ∀ pre' suf', s = pre' ++ suf' → length pre' < length pre →
                 match_here r suf' = None.
Proof.
  induction s as [|x s IH]; simpl.
  - destruct (match_here r []) eqn:E; [|discriminate].
    intros [= ->]. exists [], []. repeat split; auto. simpl. lia.
  - destruct (match_here r (x :: s)) eqn:E.
    + intros [= ->]. exists [], (x :: s). repeat split; auto. simpl. lia.
    + intros H. destruct (IH H) as (pre & suf & -> & Hm & Hmin).
      exists (x :: pre), suf. repeat split; auto.
      intros [|y pre'] suf' E' Hlt; simpl in E'; [now subst|].
      injection E' as -> E'. apply (Hmin pre' suf' E'). simpl in Hlt. lia.
Qed.

Lemma exec_is_Some r s :
  is_Some (exec r s) ↔ ∃ pre suf, s = pre ++ suf ∧ is_Some (match_here r suf).
Proof.
  split.
  - induction s as [|x s IH]; simpl.
    + destruct (match_here r []) eqn:E; [|intros []; discriminate].
      intros _. exists [], []. rewrite E. eauto.
    + destruct (match_here r (x :: s)) eqn:E.
      * intros _. exists [], (x :: s). rewrite E. eauto.
      * intros H. destruct (IH H) as (pre & suf & -> & Hm).
        exists (x :: pre), suf. eauto.
  - intros (pre & suf & E & [cap Hm]).
    destruct (exec r s) eqn:Hx; [eauto|].
    rewrite exec_None in Hx. rewrite (Hx _ _ E) in Hm. discriminate.
Qed.

End RegExpFacts.

Import RegExp RegExpFacts.

(** ** Texts and their characters *)

Lemma text_assoc a b c : (a +:+ b) +:+ c = a +:+ (b +:+ c).
Proof.
  induction a as [|x a IH]; [reflexivity|].
  change (String x ((a +:+ b) +:+ c) = String x (a +:+ (b +:+ c))). now rewrite IH.
Qed.

Lemma chars_app a b : chars (a +:+ b) = chars a ++ chars b.
Proof. induction a as [|c a IH]; simpl; [reflexivity|]. now rewrite <- IH. Qed.

Lemma text_app l1 l2 :
  string_of_list_ascii (l1 ++ l2) = string_of_list_ascii l1 +:+ string_of_list_ascii l2.
Proof. induction l1 as [|c l IH]; simpl; [reflexivity|]. now rewrite IH. Qed.

Lemma chars_text l : chars (string_of_list_ascii l) = l.
Proof. apply list_ascii_of_string_of_list_ascii. Qed.

Lemma text_chars s : string_of_list_ascii (chars s) = s.
Proof. apply string_of_list_ascii_of_string. Qed.

Lemma length_chars s : length (chars s) = String.length s.
Proof. induction s as [|c s IH]; simpl; [reflexivity|]. now rewrite <- IH. Qed.

Lemma chars_inj a b : chars a = chars b → a = b.
Proof. intros H. rewrite <- (text_chars a), <- (text_chars b). now rewrite H. Qed.

Lemma is_quote_Quote c : is_quote c = true ↔ Quote (String c EmptyString).
Proof.
  unfold Quote, dq. split.
  - destruct c as [[] [] [] [] [] [] [] []]; simpl; try discriminate; auto.
  - intros [[= ->] | [= ->]]; reflexivity.
Qed.

Lemma Quote_char q : Quote q → ∃ c, q = String c EmptyString ∧ is_quote c = true.
Proof. intros [-> | ->]; eexists; split; reflexivity. Qed.

(** A setting, read on the characters of the text. *)
Lemma SettingAt_chars key value pre content :
  SettingAt key value pre content ↔
  ∃ ws1 ws2 q1 q2 post,
    chars content =
      chars pre ++ chars key ++ ws1 ++ ":"%char :: ws2 ++ q1 :: chars value ++ q2 :: post ∧
    Spaces ws1 ∧
    Spaces ws2 ∧
    is_quote q1 = true ∧ is_quote q2 = true.
Proof.
  split.
  - intros (ws1 & ws2 & q1 & q2 & post & H1 & H2 & Hq1 & Hq2 & ->).
    apply Quote_char in Hq1 as (c1 & -> & Hc1).
    apply Quote_char in Hq2 as (c2 & -> & Hc2).
    exists (chars ws1), (chars ws2), c1, c2, (chars post).
    repeat split; auto. now rewrite !chars_app.
  - intros (ws1 & ws2 & q1 & q2 & post & E & H1 & H2 & Hq1 & Hq2).
    exists (string_of_list_ascii ws1), (string_of_list_ascii ws2),
      (String q1 EmptyString), (String q2 EmptyString), (string_of_list_ascii post).
    unfold Whitespace. rewrite !chars_text.
    repeat split; auto; try (now apply is_quote_Quote).
    apply chars_inj. rewrite E, !chars_app, !chars_text. reflexivity.
Qed.

(** ** The two patterns *)

Lemma match_here_export s cap :
  match_here NextJsDetector.exportPattern s = Some cap ↔
  cap = None ∧
  ∃ ws1 ws2 q1 q2 post,
    s = chars "output" ++ ws1 ++ ":"%char :: ws2 ++ q1 :: chars "export" ++ q2 :: post ∧
    Spaces ws1 ∧
    Spaces ws2 ∧
    is_quote q1 = true ∧ is_quote q2 = true.
Proof.
  unfold match_here, NextJsDetector.exportPattern. rewrite rmatch_setting. split.
  - intros (ws1 & ws2 & q1 & s' & -> & H1 & H2 & Hq1 & H).
    rewrite rmatch_Seq in H. apply rmatch_Lit_inv in H as (s2 & -> & H).
    rewrite rmatch_Cls in H. destruct s2 as [|q2 post]; [discriminate|].
    destruct (is_quote q2) eqn:Hq2; [|discriminate].
    injection H as <-. split; [reflexivity|].
    exists ws1, ws2, q1, q2, post. auto.
  - intros (-> & ws1 & ws2 & q1 & q2 & post & -> & H1 & H2 & Hq1 & Hq2).
    exists ws1, ws2, q1, (chars "export" ++ q2 :: post). repeat split; auto.
    now rewrite rmatch_Seq, rmatch_Lit_app, rmatch_Cls, Hq2.
Qed.

Lemma test_export content :
  test NextJsDetector.exportPattern content = true ↔ ExportLiteral content.
Proof.
  unfold test. rewrite bool_decide_eq_true, exec_is_Some. unfold ExportLiteral. split.
  - intros (pre & suf & E & [cap Hm]).
    apply match_here_export in Hm as (_ & ws1 & ws2 & q1 & q2 & post & -> & H).
    exists (string_of_list_ascii pre). apply SettingAt_chars.
    exists ws1, ws2, q1, q2, post. now rewrite chars_text.
  - intros (pre & H). apply SettingAt_chars in H as (ws1 & ws2 & q1 & q2 & post & E & H).
    eexists (chars pre), _. split; [exact E|].
    exists None. apply match_here_export. split; [reflexivity|]. eauto 10.
Qed.

Lemma match_here_outDir s cap :
  match_here ViteDetector.outDirPattern s = Some cap ↔
  ∃ ws1 ws2 q1 dir q2 post,
    s = chars "outDir" ++ ws1 ++ ":"%char :: ws2 ++ q1 :: dir ++ q2 :: post ∧
    Spaces ws1 ∧
    Spaces ws2 ∧
    is_quote q1 = true ∧ is_quote q2 = true ∧
    dir ≠ [] ∧ Forall (fun c => is_quote c = false) dir ∧
    cap = Some dir.
Proof.
  unfold match_here, ViteDetector.outDirPattern. cbv zeta.
  rewrite rmatch_setting. split.
  - intros (ws1 & ws2 & q1 & s' & -> & H1 & H2 & Hq1 & H).
    apply rmatch_quoted_run in H as (dir & q2 & post & -> & Hne & Hdir & Hq2 & [= <-]).
    exists ws1, ws2, q1, dir, q2, post. repeat split; auto.
    eapply Forall_impl; [exact Hdir|]. intros c. simpl. now destruct (is_quote c).
  - intros (ws1 & ws2 & q1 & dir & q2 & post & -> & H1 & H2 & Hq1 & Hq2 & Hne & Hdir & ->).
    exists ws1, ws2, q1, (dir ++ q2 :: post). repeat split; auto.
    apply rmatch_quoted_run. exists dir, q2, post. repeat split; auto.
    eapply Forall_impl; [exact Hdir|]. intros c. simpl. now intros ->.
Qed.

Lemma OutDirAt_match dir pre content :
  OutDirAt dir pre content ↔
  ∃ suf, chars content = chars pre ++ suf ∧ dir ≠ "" ∧
         match_here ViteDetector.outDirPattern suf = Some (Some (chars dir)).
Proof.
  unfold OutDirAt. rewrite SettingAt_chars. split.
  - intros (Hne & Hqf & ws1 & ws2 & q1 & q2 & post & E & H1 & H2 & Hq1 & Hq2).
    eexists. split; [exact E|]. split; [assumption|].
    apply match_here_outDir. exists ws1, ws2, q1, (chars dir), q2, post.
    repeat split; auto. destruct dir; [contradiction|discriminate].
  - intros (suf & E & Hne & Hm).
    apply match_here_outDir in Hm
      as (ws1 & ws2 & q1 & d & q2 & post & -> & H1 & H2 & Hq1 & Hq2 & _ & Hd & [= <-]).
    repeat split; auto. exists ws1, ws2, q1, q2, post. auto.
Qed.

Lemma FirstOutDir_match content dir :
  match_ ViteDetector.outDirPattern content = Some (Some dir) →
  FirstOutDir content dir.
Proof.
  unfold match_. destruct (exec _ _) as [[d|]|] eqn:Hx; try discriminate.
  intros [= <-].
  apply exec_Some_inv in Hx as (pre & suf & E & Hm & Hmin).
  assert (Hne : string_of_list_ascii d ≠ "").
  { apply match_here_outDir in Hm
      as (? & ? & ? & d' & ? & ? & _ & _ & _ & _ & _ & Hd & _ & [= ->]).
    destruct d'; [contradiction|discriminate]. }
  exists (string_of_list_ascii pre). split.
  - apply OutDirAt_match. exists suf. rewrite !chars_text. auto.
  - intros dir' pre' Hat. apply OutDirAt_match in Hat as (suf' & E' & _ & Hm').
    destruct (Nat.le_gt_cases (String.length (string_of_list_ascii pre))
                              (String.length pre')) as [Hle | Hlt]; [exact Hle|].
    rewrite <- !length_chars, chars_text in Hlt.
    rewrite (Hmin _ _ E' Hlt) in Hm'. discriminate.
Qed.

Lemma match_FirstOutDir content dir :
  FirstOutDir content dir →
  match_ ViteDetector.outDirPattern content = Some (Some dir) ∧ dir ≠ "".
Proof.
  intros (pre & Hat & Hmin).
  pose proof Hat as (Hne & _).
  apply OutDirAt_match in Hat as (suf & E & _ & Hm).
  split; [|assumption]. unfold match_.
  rewrite (exec_first _ _ (chars pre) suf (Some (chars dir))); auto.
  - simpl. now rewrite text_chars.
  - intros pre' suf' E' Hlt.
    destruct (match_here ViteDetector.outDirPattern suf') as [cap|] eqn:Hm'; [|reflexivity].
    exfalso.
    pose proof Hm' as Hm''.
    apply match_here_outDir in Hm''
      as (ws1 & ws2 & q1 & d & q2 & post & _ & _ & _ & _ & _ & Hd & _ & ->).
    assert (Hat' : OutDirAt (string_of_list_ascii d) (string_of_list_ascii pre') content).
    { apply OutDirAt_match. exists suf'. rewrite !chars_text. repeat split; auto.
      destruct d; [contradiction|discriminate]. }
    apply Hmin in Hat'. rewrite <- !length_chars, chars_text in Hat'. lia.
Qed.

(** ** The Next.js detector *)

Section NextJsFacts.
Import File NextJsDetector.
Variable h : Host.
Implicit Types (projectPath path : string).

Lemma isDirectory_total path : ∃ b, isDirectory h path = Ok b.
Proof. unfold isDirectory. destruct (fs_stat h path); simpl; eauto. Qed.

Lemma isDirectory_true path : isDirectory h path = Ok true ↔ IsDir h path.
Proof.
  unfold isDirectory, IsDir. split.
  - destruct (fs_stat h path) as [st|]; simpl; [|discriminate].
    intros [= H]. eauto.
  - intros (st & -> & H). simpl. now rewrite H.
Qed.

Lemma eor_total a b :
  (∃ x, a = Ok x) → (∃ y, b = Ok y) → ∃ z, eor a b = Ok z.
Proof. intros [x ->] [y ->]. simpl. destruct x; eauto. Qed.

Lemma eor_true a b :
  (∃ x, a = Ok x) → (a = Ok true ∨ b = Ok true) → eor a b = Ok true.
Proof. intros [x ->] [H | H]; simpl; [now injection H as ->|]. now destruct x. Qed.

Lemma detectRouterType_total projectPath :
  ∃ r, detectRouterType h projectPath = Ok r.
Proof.
  unfold detectRouterType.
  destruct (eor_total _ _ (isDirectory_total (path_join h [projectPath; "app"]))
              (isDirectory_total (path_join h [projectPath; "src"; "app"]))) as [a ->].
  destruct (eor_total _ _ (isDirectory_total (path_join h [projectPath; "pages"]))
              (isDirectory_total (path_join h [projectPath; "src"; "pages"]))) as [b ->].
  simpl. destruct a, b; eauto.
Qed.

Lemma hasRouteFiles_total path : ∃ b, hasRouteFiles h path = Ok b.
Proof. unfold hasRouteFiles. destruct (fs_readdir h path); simpl; eauto. Qed.

Lemma detectApiRoutes_total projectPath r :
  ∃ b, detectApiRoutes h projectPath r = Ok b.
Proof.
  destruct r; simpl; [| |eauto].
  - destruct (hasRouteFiles_total (path_join h [projectPath; "app"])) as [a ->].
    destruct (hasRouteFiles_total (path_join h [projectPath; "src"; "app"])) as [b ->].
    simpl. eauto.
  - apply eor_total; apply isDirectory_total.
Qed.

(** What the loop over the candidate names answers. *)
Lemma scanConfigs_spec projectPath names :
  ∃ b, scanConfigs h projectPath names = Ok b ∧
       (b = true ↔
        ∃ name content,
          name ∈ names ∧
          Readable h (path_join h [projectPath; name]) content ∧
          ExportLiteral content).
Proof.
  induction names as [|name rest (b & IH & Hb)]; simpl.
  - exists false. split; [reflexivity|]. split; [discriminate|].
    intros (n & c & Hin & _). inversion Hin.
  - destruct (safeReadFile_total h (path_join h [projectPath; name]) defaultMaxSize)
      as [r Hr].
    rewrite Hr. simpl.
    assert (Hrest : (∃ n c, n ∈ rest ∧ Readable h (path_join h [projectPath; n]) c
                           ∧ ExportLiteral c) →
                    ∃ n c, n ∈ name :: rest ∧ Readable h (path_join h [projectPath; n]) c
                           ∧ ExportLiteral c).
    { intros (n & c & Hin & H). exists n, c. split; [now right|assumption]. }
    assert (Hskip : ¬ (∃ c, r = Some c ∧ ExportLiteral c) →
                    (∃ n c, n ∈ name :: rest ∧ Readable h (path_join h [projectPath; n]) c
                            ∧ ExportLiteral c) →
                    ∃ n c, n ∈ rest ∧ Readable h (path_join h [projectPath; n]) c
                           ∧ ExportLiteral c).
    { intros Hno (n & c & Hin & Hrd & Hlit).
      apply elem_of_cons in Hin as [-> | Hin]; [|eauto].
      exfalso. apply Hno. exists c. split; [|assumption].
      apply safeReadFile_Some in Hrd. congruence. }
    destruct r as [c|]; simpl.
    + destruct (String.eqb_spec c "") as [->|Hne].
      * exists b. split; [assumption|]. rewrite Hb. split; [assumption|].
        apply Hskip. intros (c & [= <-] & Hlit). apply test_export in Hlit.
        discriminate.
      * destruct (test exportPattern c) eqn:Ht.
        -- exists true. split; [reflexivity|]. split; [|reflexivity].
           intros _. exists name, c. split; [left|].
           split; [now apply safeReadFile_Some|now apply test_export].
        -- exists b. split; [assumption|]. rewrite Hb. split; [assumption|].
           apply Hskip. intros (c' & [= <-] & Hlit). apply test_export in Hlit.
           congruence.
    + exists b. split; [assumption|]. rewrite Hb. split; [assumption|].
      apply Hskip. intros (c & [=] & _).
Qed.

Lemma detectStaticExport_total projectPath :
  ∃ b, detectStaticExport h projectPath = Ok b.
Proof. destruct (scanConfigs_spec projectPath configNames) as (b & H & _). eauto. Qed.

Lemma scanConfigs_missing projectPath names :
  Forall (fun n => Missing h (path_join h [projectPath; n])) names →
  scanConfigs h projectPath names = Ok false.
Proof.
  induction 1 as [|n names Hn _ IH]; simpl; [reflexivity|].
  now rewrite (safeReadFile_missing h _ _ Hn).
Qed.

End NextJsFacts.

(** ** Dependencies of a manifest *)

Lemma truthy_version ver : ver ≠ "" → truthy (JStr ver) = true.
Proof. intros H. simpl. now destruct (String.eqb_spec ver ""). Qed.

Lemma Lacks_version pkg name :
  Lacks pkg name →
  jor (entry pkg "dependencies" name) (entry pkg "devDependencies" name) = None.
Proof.
  intros H. apply Forall_cons in H as [H1 H]. apply Forall_cons in H as [H2 _].
  now rewrite H1, H2.
Qed.

Lemma Declares_version pkg name :
  Declares pkg name →
  ∃ ver, jor (entry pkg "dependencies" name) (entry pkg "devDependencies" name)
         = Some (JStr ver) ∧ ver ≠ "".
Proof.
  intros [Hex Hall].
  apply Forall_cons in Hall as [H1 Hall]. apply Forall_cons in Hall as [H2 _].
  unfold jor.
  destruct (entry pkg "dependencies" name) as [v1|] eqn:E1.
  - destruct (H1 v1 eq_refl) as (ver & -> & Hne).
    exists ver. simpl. now destruct (String.eqb_spec ver "").
  - simpl. apply Exists_cons in Hex as [[v Hv] | Hex]; [congruence|].
    apply Exists_cons in Hex as [[v Hv] | Hex]; [|inversion Hex].
    destruct (H2 v Hv) as (ver & -> & Hne). eauto.
Qed.

Lemma entry_truthy pkg table name : is_Some (entry pkg table name) → truthy pkg = true.
Proof.
  unfold entry, get. intros [v Hv].
  destruct pkg as [|b|n|s|l|m]; try reflexivity;
    try (simpl in Hv; rewrite lookup_empty in Hv; discriminate).
  destruct s; [|reflexivity].
  change (own_props (JStr "")) with (∅ : gmap string json) in Hv.
  rewrite lookup_empty in Hv. discriminate.
Qed.

Lemma Declares_truthy pkg name : Declares pkg name → truthy pkg = true.
Proof.
  intros [Hex _]. apply Exists_exists in Hex as (table & _ & H).
  eapply entry_truthy; eauto.
Qed.

(** What a spread contributes under a name is what optional chaining
    reads there. *)
Lemma spread_lookup (o : option json) name :
  from_option own_props ∅ o !! name = get_opt o name.
Proof. destruct o as [[]|]; reflexivity. Qed.

Lemma spread2_lookup pkg name :
  spread2 (get pkg "dependencies") (get pkg "devDependencies") !! name =
  match entry pkg "devDependencies" name with
  | Some v => Some v
  | None => entry pkg "dependencies" name
  end.
Proof.
  unfold spread2, entry. rewrite lookup_union, !spread_lookup.
  destruct (get_opt (get pkg "devDependencies") name),
           (get_opt (get pkg "dependencies") name); reflexivity.
Qed.

(** ** The Vite detector *)

Section ViteFacts.
Import File ViteDetector.
Variable h : Host.

Lemma detectUILibrary_react pkg :
  Declares pkg "react" → detectUILibrary pkg = Ui_react.
Proof.
  intros [Hex Hall]. unfold detectUILibrary. cbv zeta. rewrite spread2_lookup.
  apply Forall_cons in Hall as [H1 Hall]. apply Forall_cons in Hall as [H2 _].
  destruct (entry pkg "devDependencies" "react") as [v2|] eqn:E2.
  - destruct (H2 v2 eq_refl) as (ver & -> & Hne).
    unfold truthy_opt. now rewrite truthy_version.
  - apply Exists_cons in Hex as [[v Hv] | Hex].
    + rewrite Hv. destruct (H1 v Hv) as (ver & -> & Hne).
      unfold truthy_opt. now rewrite truthy_version.
    + apply Exists_cons in Hex as [[v Hv] | Hex]; [congruence|inversion Hex].
Qed.

Lemma findConfigIn_total projectPath names :
  ∃ r, findConfigIn h projectPath names = Ok r.
Proof.
  induction names as [|n names [r IH]]; simpl; [eauto|].
  unfold fileExists. destruct (fs_access h _); simpl; eauto.
Qed.

Lemma findConfigIn_first projectPath names name :
  FirstExisting h projectPath names name →
  findConfigIn h projectPath names = Ok (Some name).
Proof.
  intros (before & after & -> & Hmiss & Hacc).
  induction Hmiss as [|n before Hn _ IH]; simpl.
  - now rewrite (fileExists_access h _ Hacc).
  - now rewrite (fileExists_missing h _ Hn).
Qed.

Lemma detectBuildOutputDir_total projectPath cfg :
  ∃ d, detectBuildOutputDir h projectPath cfg = Ok d.
Proof.
  destruct cfg as [name|]; simpl; [|eauto].
  destruct (safeReadFile_total h (path_join h [projectPath; name]) defaultMaxSize)
    as [r ->]. simpl.
  destruct (falsy_text r); [eauto|].
  destruct (match_ outDirPattern (default "" r)) as [[d|]|]; eauto.
  destruct (String.eqb d ""); eauto.
Qed.

Lemma detectBuildOutputDir_first projectPath name content dir :
  Readable h (path_join h [projectPath; name]) content →
  FirstOutDir content dir →
  detectBuildOutputDir h projectPath (Some name) = Ok dir.
Proof.
  intros Hr Hfirst. apply safeReadFile_Some in Hr.
  apply match_FirstOutDir in Hfirst as [Hm Hne].
  simpl. rewrite Hr. simpl.
  destruct (String.eqb_spec content "") as [->|_]; [discriminate|].
  rewrite Hm. now destruct (String.eqb_spec dir "").
Qed.

End ViteFacts.

Section Detectors.
Import File.
Variable h : Host.
Variable projectPath : string.

Lemma nextjs_absent pkg :
  readPackageJson h projectPath = Ok pkg →
  (truthy pkg = true → Lacks pkg "next") →
  NextJsDetector.detectNextJsProject h projectPath = Ok None.
Proof.
  intros Hpkg Hlacks. unfold NextJsDetector.detectNextJsProject. rewrite Hpkg. simpl.
  destruct (truthy pkg); [|reflexivity]. simpl.
  fold (entry pkg "dependencies" "next") (entry pkg "devDependencies" "next").
  now rewrite Lacks_version by auto.
Qed.

Lemma vite_absent pkg :
  readPackageJson h projectPath = Ok pkg →
  (truthy pkg = true → Lacks pkg "vite") →
  ViteDetector.detectViteProject h projectPath = Ok None.
Proof.
  intros Hpkg Hlacks. unfold ViteDetector.detectViteProject. rewrite Hpkg. simpl.
  destruct (truthy pkg); [|reflexivity]. simpl.
  fold (entry pkg "dependencies" "vite") (entry pkg "devDependencies" "vite").
  now rewrite Lacks_version by auto.
Qed.

(** What a model of the Next.js detector is made of. *)
Lemma detectNextJsProject_Some info :
  NextJsDetector.detectNextJsProject h projectPath = Ok (Some info) →
  ∃ se,
    NextJsDetector.detectRouterType h projectPath = Ok (routerType info) ∧
    NextJsDetector.detectApiRoutes h projectPath (routerType info)
      = Ok (hasApiRoutes info) ∧
    NextJsDetector.detectStaticExport h projectPath = Ok se ∧
    isStaticExport info = se ∧
    buildOutputDir info = (if se then "out" else ".next").
Proof.
  unfold NextJsDetector.detectNextJsProject.
  destruct (readPackageJson h projectPath) as [pkg|]; simpl; [|discriminate].
  destruct (truthy pkg); simpl; [|discriminate].
  destruct (jor _ _) as [v|]; [|discriminate].
  destruct (truthy v); simpl; [|discriminate].
  destruct (NextJsDetector.detectRouterType h projectPath) as [r|] eqn:Hr;
    simpl; [|discriminate].
  destruct (NextJsDetector.detectApiRoutes h projectPath r) as [api|] eqn:Hapi;
    simpl; [|discriminate].
  destruct (NextJsDetector.detectStaticExport h projectPath) as [se|] eqn:Hse;
    simpl; [|discriminate].
  intros [= <-]. exists se. simpl. auto.
Qed.

(** With the dependency declared, the Next.js detector answers with a
    model. *)
Lemma detectNextJsProject_declared pkg :
  Manifest h projectPath pkg → Declares pkg "next" →
  ∃ info, NextJsDetector.detectNextJsProject h projectPath = Ok (Some info).
Proof.
  intros Hm Hd. unfold NextJsDetector.detectNextJsProject.
  rewrite (readPackageJson_Manifest _ _ _ Hm). simpl.
  rewrite (Declares_truthy _ _ Hd). simpl.
  fold (entry pkg "dependencies" "next") (entry pkg "devDependencies" "next").
  destruct (Declares_version _ _ Hd) as (ver & -> & Hne).
  rewrite (truthy_version _ Hne). simpl.
  destruct (detectRouterType_total h projectPath) as [r ->]. simpl.
  destruct (detectApiRoutes_total h projectPath r) as [api ->]. simpl.
  destruct (detectStaticExport_total h projectPath) as [se ->]. simpl.
  eauto.
Qed.

End Detectors.

(** ** Occurrences of a text in another *)

Lemma prefix_app w s : String.prefix w s = true ↔ ∃ post, s = w +:+ post.
Proof.
  revert s. induction w as [|a w IH]; intros s; simpl.
  - split; [|destruct s; reflexivity]. intros _. exists s. reflexivity.
  - destruct s as [|b s]; simpl; [split; [discriminate|intros [? [=]]]|].
    destruct (ascii_dec a b) as [->|Hne].
    + rewrite IH. split; intros [post E]; exists post.
      * now rewrite E.
      * now injection E.
    + split; [discriminate|]. intros [post E].
      change (String b s = String a (w +:+ post)) in E. congruence.
Qed.

Lemma contains_Substring w s : contains w s = true ↔ Substring w s.
Proof.
  unfold Substring. induction s as [|a s IH]; cbn [contains].
  - rewrite orb_false_r, prefix_app. split.
    + intros [post E]. exists "", post. exact E.
    + intros ([|b pre] & post & E); [eauto|discriminate].
  - rewrite orb_true_iff, prefix_app, IH. split.
    + intros [[post E] | (pre & post & E)].
      * exists "", post. exact E.
      * exists (String a pre), post. now rewrite E.
    + intros ([|b pre] & post & E); [left; eauto|].
      right. exists pre, post. now injection E.
Qed.

Lemma text_nil_r s : s +:+ "" = s.
Proof.
  induction s as [|a s IH]; [reflexivity|].
  change (String a (s +:+ "") = String a s). now rewrite IH.
Qed.

Lemma Substring_refl s : Substring s s.
Proof.
  exists "", "". change (s = s +:+ ""). now rewrite text_nil_r.
Qed.

Lemma Substring_app_l w a b : Substring w a → Substring w (a +:+ b).
Proof.
  intros (pre & post & ->). exists pre, (post +:+ b). now rewrite !text_assoc.
Qed.

Lemma Substring_app_r w a b : Substring w b → Substring w (a +:+ b).
Proof.
  intros (pre & post & ->). exists (a +:+ pre), post. now rewrite !text_assoc.
Qed.

Lemma Substring_concat w sep l i s :
  l !! i = Some s → Substring w s → Substring w (String.concat sep l).
Proof.
  revert i. induction l as [|x l IH]; intros i Hi Hs; [discriminate|].
  destruct l as [|y l].
  - destruct i; [|discriminate]. injection Hi as ->. exact Hs.
  - change (Substring w (x +:+ sep +:+ String.concat sep (y :: l))).
    destruct i as [|i].
    + injection Hi as ->. now apply Substring_app_l.
    + do 2 apply Substring_app_r. eapply IH; eauto.
Qed.

(** ** Texts in which a warning cannot begin *)








(** ** The warnings of the migration document *)

Section Warnings.
Import SpecGenerator.



Lemma steps_static_warning i :
  Substring staticExportWarning (generateNextJsSteps (NextJs i))
  ↔ isStaticExport i = false.
Proof.
  rewrite <- contains_Substring.
  destruct i as [b [] [] []]; vm_compute; split; congruence.
Qed.

Lemma steps_critical_line i :
  Substring criticalLine (generateNextJsSteps (NextJs i))
  ↔ isStaticExport i = false.
Proof.
  rewrite <- contains_Substring.
  destruct i as [b [] [] []]; vm_compute; split; congruence.
Qed.

Lemma steps_enable_export i :
  Substring enableExportText (generateNextJsSteps (NextJs i))
  ↔ isStaticExport i = false.
Proof.
  rewrite <- contains_Substring.
  destruct i as [b [] [] []]; vm_compute; split; congruence.
Qed.


(** Every line of a warning is in the section under the condition of the
    warning, and under no other. *)
Lemma steps_static_lines i :
  Forall (fun line => Substring line (generateNextJsSteps (NextJs i))
                      ↔ isStaticExport i = false)
         (warningLines staticExportWarning).
Proof.
  remember (warningLines staticExportWarning) as l eqn:E. vm_compute in E. subst l.
  repeat (apply List.Forall_cons;
          [ rewrite <- contains_Substring;
            destruct i as [b [] [] []]; vm_compute; split; congruence | ]).
  apply List.Forall_nil.
Qed.


(** The lines that stand in the place of the warnings. *)
Lemma steps_enabled_line i :
  Substring "✓ Static export is already enabled." (generateNextJsSteps (NextJs i))
  ↔ isStaticExport i = true.
Proof.
  rewrite <- contains_Substring.
  destruct i as [b [] [] []]; vm_compute; split; congruence.
Qed.


(** The document of a model whose version and build command have
    texts. *)
Lemma document_sections now projectInfo options versionText commandText :
  Rendered (base projectInfo) versionText commandText →
  ∃ header overview buildSteps,
    generateHeader now (appName options) projectInfo = Ok header ∧
    generateProjectOverview projectInfo = Ok overview ∧
    generateBuildSteps projectInfo = Ok buildSteps ∧
    generateMigrationSpec now projectInfo options =
      Ok (String.concat (nl +:+ nl)
            [ header; overview;
              generateCapacitorSetup projectInfo (appName options) (bundleId options);
              generateFrameworkSpecificSteps projectInfo;
              generateCommonIssues projectInfo; buildSteps;
              generateTestingChecklist; generateNextSteps (primaryColor options) ]).
Proof.
  intros [Hv Hc].
  unfold generateMigrationSpec, sections, generateHeader, generateProjectOverview,
    generateBuildSteps.
  rewrite Hv, Hc. cbn [ebind]. eauto 10.
Qed.

Lemma document_produced now projectInfo options versionText commandText :
  Rendered (base projectInfo) versionText commandText →
  ∃ doc, generateMigrationSpec now projectInfo options = Ok doc.
Proof.
  intros H.
  destruct (document_sections now projectInfo options _ _ H) as (? & ? & ? & _ & _ & _ & E).
  eauto.
Qed.

(** Without a text for the version or for the build command there is no
    document: the conversion that throws ends the generator. *)
Lemma document_refused now projectInfo options :
  (∀ versionText commandText, ¬ Rendered (base projectInfo) versionText commandText) →
  ∃ e, generateMigrationSpec now projectInfo options = Throw e ∧
       (ToString (version (base projectInfo)) = Throw e ∨
        ToString (buildCommand (base projectInfo)) = Throw e).
Proof.
  intros Hno.
  unfold generateMigrationSpec, sections, generateHeader, generateProjectOverview,
    generateBuildSteps.
  destruct (ToString (version (base projectInfo))) as [v|e] eqn:Hv; cbn [ebind];
    [|eauto].
  destruct (ToString (buildCommand (base projectInfo))) as [c|e] eqn:Hc; cbn [ebind];
    [|eauto].
  destruct (Hno v c). now split.
Qed.



End Warnings.

(** ** Facts about the example projects *)

(** Facts about the example projects are settled by evaluation. *)
Ltac fixture_readable :=
  split; [reflexivity|];
  eexists; split; [reflexivity|]; split; [vm_compute; discriminate|reflexivity].

Ltac fixture_manifest text :=
  exists text; split; [fixture_readable|]; split; [discriminate|reflexivity].

Ltac fixture_entry :=
  let v := fresh "v" in let Hv := fresh "Hv" in
  intros v Hv; vm_compute in Hv;
  first [ discriminate Hv
        | injection Hv as <-; eexists; split; [reflexivity|discriminate] ].

Ltac fixture_declares :=
  split;
  [ first [ apply Exists_cons_hd; eexists; vm_compute; reflexivity
          | apply Exists_cons_tl, Exists_cons_hd; eexists; vm_compute; reflexivity ]
  | repeat (constructor; [fixture_entry|]); constructor ].

(** ** The detectors never raise *)

Section Totality.
Variable h : Host.
Variable projectPath : string.

Lemma detectNextJsProject_total :
  ∃ r, NextJsDetector.detectNextJsProject h projectPath = Ok r.
Proof.
  unfold NextJsDetector.detectNextJsProject, File.readPackageJson.
  destruct (readJsonFile_total h (path_join h [projectPath; "package.json"]))
    as [pkg ->].
  simpl. destruct (truthy pkg); simpl; [|eauto].
  destruct (jor _ _) as [v|]; [|eauto].
  destruct (truthy v); simpl; [|eauto].
  destruct (detectRouterType_total h projectPath) as [r ->]. simpl.
  destruct (detectApiRoutes_total h projectPath r) as [api ->]. simpl.
  destruct (detectStaticExport_total h projectPath) as [se ->]. simpl.
  eauto.
Qed.

Lemma detectViteProject_total :
  ∃ r, ViteDetector.detectViteProject h projectPath = Ok r.
Proof.
  unfold ViteDetector.detectViteProject, File.readPackageJson.
  destruct (readJsonFile_total h (path_join h [projectPath; "package.json"]))
    as [pkg ->].
  simpl. destruct (truthy pkg); simpl; [|eauto].
  destruct (jor _ _) as [v|]; [|eauto].
  destruct (truthy v); simpl; [|eauto].
  unfold ViteDetector.findViteConfig.
  destruct (findConfigIn_total h projectPath ViteDetector.configNames) as [cfg ->].
  cbn [ebind].
  destruct (detectBuildOutputDir_total h projectPath cfg) as [d ->]. cbn [ebind].
  eauto.
Qed.

(** The detectors never enter the handler of the tool; a conversion of
    the version or of the build command may. *)
Lemma detectFrameworkTool_reply :
  ∃ viteProject nextjsProject,
    ViteDetector.detectViteProject h projectPath = Ok viteProject ∧
    NextJsDetector.detectNextJsProject h projectPath = Ok nextjsProject ∧
    DetectFramework.detectFrameworkTool h projectPath =
      Ok (DetectFramework.reply
            match DetectFramework.firstDetected viteProject nextjsProject with
            | None => DetectFramework.noFrameworkText projectPath
            | Some projectInfo => detectedReply projectInfo
            end).
Proof.
  destruct detectViteProject_total as [v Hv], detectNextJsProject_total as [n Hn].
  exists v, n. split; [assumption|]. split; [assumption|].
  unfold DetectFramework.detectFrameworkTool. rewrite Hv, Hn. cbn [ebind].
  destruct (DetectFramework.firstDetected v n) as [p|]; [|reflexivity].
  unfold detectedReply. now destruct (DetectFramework.detectedText p).
Qed.

End Totality.

(** ** The detectors on the example projects *)

Example migrating_project_detected :
  NextJsDetector.detectNextJsProject (fixtureHost migratingProject) "/proj" =
  Ok (Some {|
    nextjs_base := {|
      version := JStr "14.0.0";
      buildCommand := JStr "next build";
      buildOutputDir := ".next" |};
    routerType := Rt_app;
    hasApiRoutes := false;
    isStaticExport := false |}).
Proof. reflexivity. Qed.

Example bare_project_exported :
  NextJsDetector.detectStaticExport (fixtureHost bareProject) "/proj" = Ok true.
Proof. reflexivity. Qed.

(** A computed export mode is not seen; a route file deep in the app
    directory is. *)
Example computed_export_not_seen :
  NextJsDetector.detectStaticExport (fixtureHost computedProject) "/proj" = Ok false ∧
  NextJsDetector.detectApiRoutes (fixtureHost computedProject) "/proj" Rt_app = Ok true.
Proof. split; reflexivity. Qed.

Example vite_project_detected :
  ViteDetector.detectViteProject (fixtureHost viteProject) "/proj" =
  Ok (Some {|
    vite_base := {|
      version := JStr "5.0.0";
      buildCommand := JStr "vite build";
      buildOutputDir := "build" |};
    uiLibrary := Ui_react;
    viteConfigPath := Some "vite.config.js";
    hasReactRouter := false;
    hasVueRouter := false |}).
Proof. reflexivity. Qed.

(** The leftmost match wins, and its directory runs up to the next
    quote of either kind. *)
Example outDir_leftmost :
  RegExp.match_ ViteDetector.outDirPattern "outDir : 'a', outDir: 'b'" = Some (Some "a") ∧
  RegExp.match_ ViteDetector.outDirPattern "outDir: '', outDir: 'b'" = Some (Some "b") ∧
  RegExp.match_ ViteDetector.outDirPattern "outDir: build" = None.
Proof. repeat split; reflexivity. Qed.

(** * The claims *)




(** C2.  Each detector answers absent when the manifest is missing or is
    not JSON, and when its signature dependency (vite, respectively
    next) appears in neither dependencies nor devDependencies; it never
    answers with a model then. *)
Theorem detectors_absent_without_dependency (h : Host) (projectPath : string) :
  (ManifestUnusable h projectPath ∨
   (∃ pkg, Manifest h projectPath pkg ∧ Lacks pkg "vite") →
   ViteDetector.detectViteProject h projectPath = Ok None) ∧
  (ManifestUnusable h projectPath ∨
   (∃ pkg, Manifest h projectPath pkg ∧ Lacks pkg "next") →
   NextJsDetector.detectNextJsProject h projectPath = Ok None).
Proof.
  split.
  - intros [Hbad | (pkg & Hm & Hl)].
    + apply vite_absent with JNull; [now apply readPackageJson_unusable|discriminate].
    + apply vite_absent with pkg; [now apply readPackageJson_Manifest|auto].
  - intros [Hbad | (pkg & Hm & Hl)].
    + apply nextjs_absent with JNull; [now apply readPackageJson_unusable|discriminate].
    + apply nextjs_absent with pkg; [now apply readPackageJson_Manifest|auto].
Qed.

Lemma detectors_absent_without_dependency_witness :
  ViteDetector.detectViteProject (fixtureHost emptyProject) "/proj" = Ok None ∧
  NextJsDetector.detectNextJsProject (fixtureHost brokenProject) "/proj" = Ok None ∧
  ViteDetector.detectViteProject (fixtureHost migratingProject) "/proj" = Ok None.
Proof.
  split; [|split].
  - apply (proj1 (detectors_absent_without_dependency _ _)).
    left. left. exists "ENOENT". reflexivity.
  - apply (proj2 (detectors_absent_without_dependency _ _)).
    left. right. exists "{ oops", "SyntaxError". split; [|reflexivity].
    split; [reflexivity|]. eexists. split; [reflexivity|]. split; [|reflexivity].
    vm_compute. discriminate.
  - apply (proj1 (detectors_absent_without_dependency _ _)).
    right. exists (manifestValue "dependencies" [("next", "14.0.0")]). split.
    + exists nextManifest. split; [|split; [discriminate|reflexivity]].
      split; [reflexivity|]. eexists. split; [reflexivity|]. split; [|reflexivity].
      vm_compute. discriminate.
    + repeat constructor.
Defined.

(** C3.  When an app directory (app/ or src/app/) and a pages directory
    (pages/ or src/pages/) both exist, the router type is app. *)
Theorem app_router_has_priority (h : Host) (projectPath : string) :
  IsDir h (path_join h [projectPath; "app"]) ∨
  IsDir h (path_join h [projectPath; "src"; "app"]) →
  IsDir h (path_join h [projectPath; "pages"]) ∨
  IsDir h (path_join h [projectPath; "src"; "pages"]) →
  NextJsDetector.detectRouterType h projectPath = Ok Rt_app.
Proof.
  intros Happ _. unfold NextJsDetector.detectRouterType.
  rewrite (eor_true (NextJsDetector.isDirectory h (path_join h [projectPath; "app"])))
    by (try apply isDirectory_total; rewrite !isDirectory_true; exact Happ).
  simpl.
  destruct (eor_total _ _
              (isDirectory_total h (path_join h [projectPath; "pages"]))
              (isDirectory_total h (path_join h [projectPath; "src"; "pages"])))
    as [b ->].
  reflexivity.
Qed.

Lemma app_router_has_priority_witness :
  NextJsDetector.detectRouterType (fixtureHost migratingProject) "/proj" = Ok Rt_app.
Proof.
  apply app_router_has_priority; left; eexists; split; reflexivity.
Defined.

(** C4.  A project whose manifest declares next and that has none of
    next.config.js, next.config.mjs, next.config.ts yields a model with
    isStaticExport = false and buildOutputDir = .next. *)
Theorem nextjs_defaults_without_config (h : Host) (projectPath : string) (pkg : json) :
  Manifest h projectPath pkg →
  Declares pkg "next" →
  Forall (fun name => Missing h (path_join h [projectPath; name]))
         NextJsDetector.configNames →
  ∃ info,
    NextJsDetector.detectNextJsProject h projectPath = Ok (Some info) ∧
    isStaticExport info = false ∧
    buildOutputDir info = ".next".
Proof.
  intros Hm Hd Hnone.
  destruct (detectNextJsProject_declared h projectPath pkg Hm Hd) as [info Hinfo].
  exists info. split; [assumption|].
  apply detectNextJsProject_Some in Hinfo as (se & _ & _ & Hse & -> & ->).
  unfold NextJsDetector.detectStaticExport in Hse.
  rewrite (scanConfigs_missing h _ _ Hnone) in Hse. injection Hse as <-. auto.
Qed.

Lemma nextjs_defaults_without_config_witness :
  ∃ info,
    NextJsDetector.detectNextJsProject (fixtureHost migratingProject) "/proj"
      = Ok (Some info) ∧
    isStaticExport info = false ∧ buildOutputDir info = ".next".
Proof.
  apply (nextjs_defaults_without_config _ _
           (manifestValue "dependencies" [("next", "14.0.0")])).
  - fixture_manifest nextManifest.
  - fixture_declares.
  - repeat constructor; exists "ENOENT"; reflexivity.
Defined.

(** C5.  Static-export detection always answers, and it answers true
    exactly when one of next.config.js, next.config.mjs, next.config.ts
    exists, is readable within the size bound and holds the literal
    output: 'export' (either quote, optional white space); without such
    a literal the answer is false. *)
Theorem static_export_iff_literal (h : Host) (projectPath : string) :
  ∃ answer,
    NextJsDetector.detectStaticExport h projectPath = Ok answer ∧
    (answer = true ↔
     ∃ name content,
       name ∈ NextJsDetector.configNames ∧
       Readable h (path_join h [projectPath; name]) content ∧
       ExportLiteral content).
Proof.
  unfold NextJsDetector.detectStaticExport.
  destruct (scanConfigs_spec h projectPath NextJsDetector.configNames)
    as (answer & Hanswer & Hiff).
  exists answer. split; [exact Hanswer|]. split.
  - intros Htrue. now apply Hiff.
  - intros Hlit. now apply Hiff.
Qed.

(** C6.  The file access facade never raises: safeReadFile, fileExists,
    readJsonFile and readPackageJson always complete.  safeReadFile
    answers null for a missing file and for one larger than the bound,
    and otherwise null or what readFile read; readJsonFile answers null
    for a missing file, for one larger than 10 MiB and for a text that
    is not JSON. *)
Theorem file_facade_never_raises (h : Host) (path : string) :
  (∀ maxSize, ∃ r, File.safeReadFile h path maxSize = Ok r) ∧
  (∀ maxSize, Missing h path → File.safeReadFile h path maxSize = Ok None) ∧
  (∀ maxSize stats,
     fs_stat h path = Ok stats → (maxSize < st_size stats)%N →
     File.safeReadFile h path maxSize = Ok None) ∧
  (∀ maxSize content,
     File.safeReadFile h path maxSize = Ok (Some content) →
     fs_readFile h path = Ok content) ∧
  (∃ b, File.fileExists h path = Ok b) ∧
  (∃ v, File.readJsonFile h path = Ok v) ∧
  (∃ v, File.readPackageJson h path = Ok v) ∧
  (Missing h path → File.readJsonFile h path = Ok JNull) ∧
  (∀ stats,
     fs_stat h path = Ok stats → (10 * 1024 * 1024 < st_size stats)%N →
     File.readJsonFile h path = Ok JNull) ∧
  (∀ content e,
     Readable h path content → JSON_parse h content = Throw e →
     File.readJsonFile h path = Ok JNull).
Proof.
  repeat split.
  - intros. apply safeReadFile_total.
  - intros. now apply safeReadFile_missing.
  - intros. eapply safeReadFile_too_large; eauto.
  - intros maxSize content. unfold File.safeReadFile.
    destruct (fs_access h path) as [[]|]; simpl; [|discriminate].
    destruct (fs_stat h path) as [st|]; simpl; [|discriminate].
    destruct (maxSize <? st_size st)%N; [discriminate|].
    destruct (fs_readFile h path); simpl; congruence.
  - unfold File.fileExists. destruct (fs_access h path); simpl; eauto.
  - apply readJsonFile_total.
  - apply readJsonFile_total.
  - intros. apply readJsonFile_absent. now apply safeReadFile_missing.
  - intros. apply readJsonFile_absent. eapply safeReadFile_too_large; eauto.
  - intros. eapply readJsonFile_invalid; eauto.
Qed.

Lemma file_facade_never_raises_witness :
  File.safeReadFile (fixtureHost emptyProject) "/proj/package.json" File.defaultMaxSize
    = Ok None ∧
  File.safeReadFile (fixtureHost brokenProject) "/proj/package.json" 3 = Ok None ∧
  File.readJsonFile (fixtureHost brokenProject) "/proj/package.json" = Ok JNull.
Proof.
  split; [|split].
  - apply (file_facade_never_raises (fixtureHost emptyProject) "/proj/package.json").
    exists "ENOENT". reflexivity.
  - eapply (file_facade_never_raises (fixtureHost brokenProject) "/proj/package.json").
    + reflexivity.
    + reflexivity.
  - eapply (file_facade_never_raises (fixtureHost brokenProject) "/proj/package.json").
    + split; [reflexivity|]. eexists. split; [reflexivity|].
      split; [|reflexivity]. vm_compute. discriminate.
    + reflexivity.
Defined.

(** C7.  When no detector matches, the detect operation returns an
    ordinary reply, not a rejection and not the error reply: one text
    item that lists the names of the frameworks the system recognises,
    and that list is not empty. *)
Theorem no_match_lists_supported_frameworks (h : Host) (projectPath : string) :
  ViteDetector.detectViteProject h projectPath = Ok None →
  NextJsDetector.detectNextJsProject h projectPath = Ok None →
  DetectFramework.detectFrameworkTool h projectPath
    = Ok (DetectFramework.reply (DetectFramework.noFrameworkText projectPath)) ∧
  Substring ("Supported frameworks:" +:+ nl +:+ bullets supportedFrameworks)
            (DetectFramework.noFrameworkText projectPath) ∧
  supportedFrameworks ≠ [].
Proof.
  intros Hv Hn. split; [|split; [|discriminate]].
  - unfold DetectFramework.detectFrameworkTool. now rewrite Hv, Hn.
  - exists ("❌ No supported framework detected in: " +:+ projectPath +:+ nl +:+ nl).
    eexists.
    unfold DetectFramework.noFrameworkText, lines. cbn [String.concat].
    rewrite !text_assoc. reflexivity.
Qed.

Lemma no_match_lists_supported_frameworks_witness :
  DetectFramework.detectFrameworkTool (fixtureHost emptyProject) "/proj"
    = Ok (DetectFramework.reply (DetectFramework.noFrameworkText "/proj")) ∧
  Substring ("Supported frameworks:" +:+ nl +:+ bullets supportedFrameworks)
            (DetectFramework.noFrameworkText "/proj") ∧
  supportedFrameworks ≠ [].
Proof.
  apply no_match_lists_supported_frameworks; reflexivity.
Defined.

(** C8.  A manifest declares vite and react; the first Vite
    configuration file that exists (in the order vite.config.ts, .js,
    .mjs, .cjs) is readable and its first outDir setting is the literal
    outDir: 'dir'.  Then detection yields the Vite model, with
    uiLibrary = react and buildOutputDir = dir instead of dist. *)
Theorem vite_react_custom_output (h : Host) (projectPath : string) (pkg : json)
    (name content dir : string) :
  Manifest h projectPath pkg →
  Declares pkg "vite" →
  Declares pkg "react" →
  FirstExisting h projectPath ViteDetector.configNames name →
  Readable h (path_join h [projectPath; name]) content →
  FirstOutDir content dir →
  ∃ info,
    ViteDetector.detectViteProject h projectPath = Ok (Some info) ∧
    (∀ nextjsProject,
       DetectFramework.firstDetected (Some info) nextjsProject = Some (Vite info)) ∧
    uiLibrary info = Ui_react ∧
    viteConfigPath info = Some name ∧
    buildOutputDir info = dir.
Proof.
  intros Hm Hvite Hreact Hcfg Hread Hdir.
  unfold ViteDetector.detectViteProject.
  rewrite (readPackageJson_Manifest _ _ _ Hm). simpl.
  rewrite (Declares_truthy _ _ Hvite). simpl.
  fold (entry pkg "dependencies" "vite") (entry pkg "devDependencies" "vite").
  destruct (Declares_version _ _ Hvite) as (ver & -> & Hne).
  rewrite (truthy_version _ Hne). simpl.
  unfold ViteDetector.findViteConfig. rewrite (findConfigIn_first _ _ _ _ Hcfg).
  cbn [ebind].
  rewrite (detectBuildOutputDir_first _ _ _ _ _ Hread Hdir). cbn [ebind].
  eexists. split; [reflexivity|]. cbn.
  repeat split. now apply detectUILibrary_react.
Qed.

Lemma vite_react_custom_output_witness :
  ∃ info,
    ViteDetector.detectViteProject (fixtureHost viteProject) "/proj" = Ok (Some info) ∧
    (∀ nextjsProject,
       DetectFramework.firstDetected (Some info) nextjsProject = Some (Vite info)) ∧
    uiLibrary info = Ui_react ∧
    viteConfigPath info = Some "vite.config.js" ∧
    buildOutputDir info = "build".
Proof.
  apply (vite_react_custom_output (fixtureHost viteProject) "/proj"
           (JObj {[ "dependencies" := JObj {[ "react" := JStr "18.2.0" ]};
                    "devDependencies" := JObj {[ "vite" := JStr "5.0.0" ]} ]})
           "vite.config.js" "export default { build: { outDir: 'build' } }" "build").
  - fixture_manifest viteManifest.
  - fixture_declares.
  - fixture_declares.
  - exists ["vite.config.ts"], ["vite.config.mjs"; "vite.config.cjs"].
    split; [reflexivity|]. split; [|reflexivity].
    repeat constructor. exists "ENOENT". reflexivity.
  - fixture_readable.
  - apply FirstOutDir_match. reflexivity.
Defined.

(** C9.  With router type unknown the Next.js detector sets
    hasApiRoutes = false whatever the project tree holds: neither an api
    directory nor route files are looked for. *)
Theorem unknown_router_has_no_api_routes (h : Host) (projectPath : string) :
  (∀ h' : Host, NextJsDetector.detectApiRoutes h' projectPath Rt_unknown = Ok false) ∧
  (∀ info,
     NextJsDetector.detectRouterType h projectPath = Ok Rt_unknown →
     NextJsDetector.detectNextJsProject h projectPath = Ok (Some info) →
     routerType info = Rt_unknown ∧ hasApiRoutes info = false).
Proof.
  split; [reflexivity|].
  intros info Hr Hinfo.
  apply detectNextJsProject_Some in Hinfo as (se & Hr' & Hapi & _).
  rewrite Hr in Hr'. injection Hr' as Hr'. rewrite <- Hr' in Hapi.
  simpl in Hapi. injection Hapi as <-. auto.
Qed.

Lemma unknown_router_has_no_api_routes_witness :
  ∃ info,
    NextJsDetector.detectNextJsProject (fixtureHost bareProject) "/proj" = Ok (Some info) ∧
    routerType info = Rt_unknown ∧ hasApiRoutes info = false.
Proof.
  eexists. split; [reflexivity|].
  apply (proj2 (unknown_router_has_no_api_routes (fixtureHost bareProject) "/proj"));
    reflexivity.
Defined.

(** C10.  Every model of the Next.js detector has buildOutputDir = out
    when isStaticExport is true and .next otherwise; the directory is
    decided by isStaticExport alone, so nothing else written in a
    configuration file can change it. *)
Theorem nextjs_output_dir_follows_export (h : Host) (projectPath : string)
    (info : NextJsProjectInfo) :
  NextJsDetector.detectNextJsProject h projectPath = Ok (Some info) →
  buildOutputDir info = (if isStaticExport info then "out" else ".next") ∧
  (∀ h' projectPath' info',
     NextJsDetector.detectNextJsProject h' projectPath' = Ok (Some info') →
     isStaticExport info' = isStaticExport info →
     buildOutputDir info' = buildOutputDir info).
Proof.
  intros Hinfo.
  apply detectNextJsProject_Some in Hinfo as (se & _ & _ & _ & Hse & Hdir).
  split; [now rewrite Hse|].
  intros h' p' info' Hinfo' Heq.
  apply detectNextJsProject_Some in Hinfo' as (se' & _ & _ & _ & Hse' & Hdir').
  rewrite Hdir, Hdir'. replace se' with se by congruence. reflexivity.
Qed.

Lemma nextjs_output_dir_follows_export_witness :
  ∃ info,
    NextJsDetector.detectNextJsProject (fixtureHost bareProject) "/proj" = Ok (Some info) ∧
    isStaticExport info = true ∧ buildOutputDir info = "out".
Proof.
  eexists. split; [reflexivity|]. split; [reflexivity|].
  apply (proj1 (nextjs_output_dir_follows_export (fixtureHost bareProject) "/proj" _ eq_refl)).
Defined.

(** * Further properties *)

(** ** More on the file access facade *)

(** X1.  safeReadFile always answers, and with a text exactly when
    access, stat and readFile all succeed and the size is at most
    maxSize: a file of exactly maxSize bytes is still read, and the text
    is the one readFile gave; in every other case the answer is null. *)
Theorem safeReadFile_reads_iff (h : Host) (path : string) (maxSize : N)
    (content : string) :
  (∃ r, File.safeReadFile h path maxSize = Ok r) ∧
  (File.safeReadFile h path maxSize = Ok (Some content) ↔
   fs_access h path = Ok tt ∧
   ∃ stats, fs_stat h path = Ok stats ∧
            (st_size stats ≤ maxSize)%N ∧
            fs_readFile h path = Ok content).
Proof.
  split; [apply safeReadFile_total|].
  unfold File.safeReadFile. split.
  - destruct (fs_access h path) as [[]|e]; simpl; [|discriminate].
    destruct (fs_stat h path) as [st|e]; simpl; [|discriminate].
    destruct (N.ltb_spec maxSize (st_size st)); [discriminate|].
    destruct (fs_readFile h path) as [c|e]; simpl; [|discriminate].
    intros [= ->]. split; [reflexivity|]. exists st. auto.
  - intros (Hacc & st & Hst & Hle & Hrd). rewrite Hacc, Hst. simpl.
    destruct (N.ltb_spec maxSize (st_size st)); [lia|].
    now rewrite Hrd.
Qed.

(** X2.  readJsonFile answers with the value of JSON.parse exactly for a
    readable file that is not empty; in every other case, an empty file
    among them, it answers null, so a file that holds the JSON text null
    cannot be told from a missing one. *)
Theorem readJsonFile_value (h : Host) (path : string) (v : json) :
  File.readJsonFile h path = Ok v ↔
  (∃ content, Readable h path content ∧ content ≠ "" ∧ JSON_parse h content = Ok v) ∨
  (v = JNull ∧
   ¬ ∃ content v', Readable h path content ∧ content ≠ "" ∧
                   JSON_parse h content = Ok v').
Proof.
  unfold File.readJsonFile.
  destruct (safeReadFile_total h path File.defaultMaxSize) as [r Hr]. rewrite Hr.
  cbn [ebind].
  destruct r as [c|]; cbn [File.falsy_text default from_option id].
  - apply safeReadFile_Some in Hr.
    assert (Hsame : ∀ c', Readable h path c' → c' = c).
    { intros c' (_ & st' & _ & _ & H'). destruct Hr as (_ & st & _ & _ & H). congruence. }
    destruct (String.eqb_spec c "") as [->|Hne].
    + split.
      * intros [= <-]. right. split; [reflexivity|].
        intros (c' & v' & Hc' & Hne' & _). apply Hne'. now apply Hsame.
      * intros [(c' & Hc' & Hne' & _) | [-> _]]; [|reflexivity].
        exfalso. apply Hne'. now apply Hsame.
    + destruct (JSON_parse h c) as [w|e] eqn:Hp; cbn [try_catch].
      * split.
        -- intros [= <-]. left. exists c. auto.
        -- intros [(c' & Hc' & _ & Hp') | [_ Hno]].
           ++ rewrite (Hsame _ Hc') in Hp'. congruence.
           ++ exfalso. apply Hno. exists c, w. auto.
      * split.
        -- intros [= <-]. right. split; [reflexivity|].
           intros (c' & v' & Hc' & _ & Hp'). rewrite (Hsame _ Hc') in Hp'. congruence.
        -- intros [(c' & Hc' & _ & Hp') | [-> _]]; [|reflexivity].
           rewrite (Hsame _ Hc') in Hp'. congruence.
  - split.
    + intros [= <-]. right. split; [reflexivity|].
      intros (c' & v' & Hc' & _). apply safeReadFile_Some in Hc'. congruence.
    + intros [(c' & Hc' & _) | [-> _]]; [|reflexivity].
      apply safeReadFile_Some in Hc'. congruence.
Qed.

(** ** More on the Next.js detector *)

Section NextJsMore.
Import NextJsDetector.
Variable h : Host.
Variable projectPath : string.

Lemma eor_isDirectory a b :
  ∃ x, eor (isDirectory h a) (isDirectory h b) = Ok x ∧
       (x = true ↔ IsDir h a ∨ IsDir h b).
Proof.
  destruct (isDirectory_total h a) as [x Hx], (isDirectory_total h b) as [y Hy].
  exists (x || y). rewrite Hx, Hy. split; [now destruct x|].
  rewrite <- !isDirectory_true, Hx, Hy, orb_true_iff.
  split; intros [H | H]; [left|right|left|right]; congruence.
Qed.

Lemma detectRouterType_table :
  ∃ a p,
    (a = true ↔ HasAppDir h projectPath) ∧
    (p = true ↔ HasPagesDir h projectPath) ∧
    detectRouterType h projectPath =
      Ok (if a then Rt_app else if p then Rt_pages else Rt_unknown).
Proof.
  unfold detectRouterType, HasAppDir, HasPagesDir.
  destruct (eor_isDirectory (path_join h [projectPath; "app"])
              (path_join h [projectPath; "src"; "app"])) as (a & -> & Ha).
  destruct (eor_isDirectory (path_join h [projectPath; "pages"])
              (path_join h [projectPath; "src"; "pages"])) as (p & -> & Hp).
  exists a, p. repeat split; try apply Ha; try apply Hp.
  simpl. now destruct a, p.
Qed.

Lemma hasRouteFiles_true dir :
  ∃ b, hasRouteFiles h dir = Ok b ∧ (b = true ↔ RouteFileIn h dir).
Proof.
  unfold hasRouteFiles, RouteFileIn.
  destruct (fs_readdir h dir) as [entries|e]; simpl.
  - exists (existsb isRouteFile entries). split; [reflexivity|].
    rewrite existsb_exists. split.
    + intros (x & Hin & Hx). unfold isRouteFile in Hx.
      apply andb_true_iff in Hx as [Hf Hn]. apply orb_true_iff in Hn.
      exists entries, x. repeat split; auto; [now apply list_elem_of_In|].
      destruct Hn as [Hn | Hn]; apply String.eqb_eq in Hn; auto.
    + intros (entries' & x & [= <-] & Hin & Hf & Hn).
      exists x. split; [now apply list_elem_of_In|]. unfold isRouteFile.
      rewrite Hf. simpl. apply orb_true_iff.
      destruct Hn as [-> | ->]; auto.
  - exists false. split; [reflexivity|]. split; [discriminate|].
    intros (? & ? & [=] & _).
Qed.

Lemma detectApiRoutes_app :
  ∃ b, detectApiRoutes h projectPath Rt_app = Ok b ∧
       (b = true ↔ HasRouteFile h projectPath).
Proof.
  unfold HasRouteFile. simpl.
  destruct (hasRouteFiles_true (path_join h [projectPath; "app"])) as (x & -> & Hx).
  destruct (hasRouteFiles_true (path_join h [projectPath; "src"; "app"])) as (y & -> & Hy).
  simpl. exists (x || y). split; [reflexivity|].
  rewrite orb_true_iff, Hx, Hy. reflexivity.
Qed.

Lemma detectApiRoutes_pages :
  ∃ b, detectApiRoutes h projectPath Rt_pages = Ok b ∧
       (b = true ↔ HasPagesApiDir h projectPath).
Proof. apply eor_isDirectory. Qed.

End NextJsMore.

(** X3.  The router type by the directories of the project: app when an
    app directory exists, pages when none does but a pages directory
    does, unknown when neither does.  A path that is a file, or that
    stat rejects, is not a directory. *)
Theorem router_type_by_directories (h : Host) (projectPath : string) :
  (NextJsDetector.detectRouterType h projectPath = Ok Rt_app
     ↔ HasAppDir h projectPath) ∧
  (NextJsDetector.detectRouterType h projectPath = Ok Rt_pages
     ↔ ¬ HasAppDir h projectPath ∧ HasPagesDir h projectPath) ∧
  (NextJsDetector.detectRouterType h projectPath = Ok Rt_unknown
     ↔ ¬ HasAppDir h projectPath ∧ ¬ HasPagesDir h projectPath).
Proof.
  destruct (detectRouterType_table h projectPath) as (a & p & Ha & Hp & ->).
  rewrite <- Ha, <- Hp.
  destruct a, p; repeat split; intros; try discriminate; intuition congruence.
Qed.

(** X4.  Under the pages router, API routes are present exactly when
    pages/api or src/pages/api is a directory. *)
Theorem pages_api_routes_by_directory (h : Host) (projectPath : string) :
  ∃ answer,
    NextJsDetector.detectApiRoutes h projectPath Rt_pages = Ok answer ∧
    (answer = true ↔ HasPagesApiDir h projectPath).
Proof.
  destruct (detectApiRoutes_pages h projectPath) as (b & Hb & Hiff).
  exists b. split; [exact Hb|]. split; intros H; now apply Hiff.
Qed.

(** X5.  Under the app router, API routes are present exactly when the
    recursive listing of app/ or of src/app/ holds a file named route.ts
    or route.js; a directory of that name does not count, and a listing
    that cannot be read counts as empty. *)
Theorem app_api_routes_by_route_files (h : Host) (projectPath : string) :
  ∃ answer,
    NextJsDetector.detectApiRoutes h projectPath Rt_app = Ok answer ∧
    (answer = true ↔ HasRouteFile h projectPath).
Proof.
  destruct (detectApiRoutes_app h projectPath) as (b & Hb & Hiff).
  exists b. split; [exact Hb|]. split; intros H; now apply Hiff.
Qed.

(** X6.  In a model of the Next.js detector, the router type is the one
    the directories give and hasApiRoutes follows it: once an app
    directory exists only route files count, and a pages/api directory
    is not looked at. *)
Theorem nextjs_model_routes (h : Host) (projectPath : string)
    (info : NextJsProjectInfo) :
  NextJsDetector.detectNextJsProject h projectPath = Ok (Some info) →
  (HasAppDir h projectPath →
   routerType info = Rt_app ∧
   (hasApiRoutes info = true ↔ HasRouteFile h projectPath)) ∧
  (¬ HasAppDir h projectPath → HasPagesDir h projectPath →
   routerType info = Rt_pages ∧
   (hasApiRoutes info = true ↔ HasPagesApiDir h projectPath)).
Proof.
  intros Hinfo.
  apply detectNextJsProject_Some in Hinfo as (se & Hr & Hapi & _).
  destruct (detectRouterType_table h projectPath) as (a & p & Ha & Hp & Htab).
  rewrite Htab in Hr. injection Hr as Hr. split.
  - intros Happ. apply Ha in Happ. subst a. rewrite <- Hr in *.
    split; [reflexivity|].
    destruct (detectApiRoutes_app h projectPath) as (b & Hb & Hiff).
    rewrite Hb in Hapi. injection Hapi as <-. exact Hiff.
  - intros Hnapp Hpages. apply Hp in Hpages. subst p.
    destruct a; [exfalso; apply Hnapp; now apply Ha|].
    rewrite <- Hr in *. split; [reflexivity|].
    destruct (detectApiRoutes_pages h projectPath) as (b & Hb & Hiff).
    rewrite Hb in Hapi. injection Hapi as <-. exact Hiff.
Qed.

Lemma nextjs_model_routes_witness :
  ∃ info,
    NextJsDetector.detectNextJsProject (fixtureHost migratingProject) "/proj"
      = Ok (Some info) ∧
    HasPagesApiDir (fixtureHost migratingProject) "/proj" ∧
    routerType info = Rt_app ∧
    hasApiRoutes info = false.
Proof.
  eexists. split; [reflexivity|].
  split; [left; eexists; split; reflexivity|].
  destruct (nextjs_model_routes (fixtureHost migratingProject) "/proj" _ eq_refl)
    as [Happ _].
  destruct Happ as [Hr Hiff]; [left; eexists; split; reflexivity|].
  split; [exact Hr|reflexivity].
Defined.

(** ** Versions and commands of the models *)

Lemma truthy_Falsy v : truthy v = false ↔ Falsy v.
Proof.
  unfold Falsy. split.
  - destruct v as [|[]|n|s|l|m]; simpl; try discriminate; auto.
    + destruct (isZero n) eqn:Hz; [eauto 10|discriminate].
    + destruct (String.eqb_spec s ""); [subst; auto 10|discriminate].
  - intros [-> | [-> | [(n & -> & Hz) | ->]]]; simpl; try reflexivity.
    now rewrite Hz.
Qed.

Lemma Unlisted_truthy pkg table name :
  Unlisted pkg table name → truthy_opt (entry pkg table name) = false.
Proof.
  intros H. destruct (entry pkg table name) as [v|] eqn:E; [|reflexivity].
  simpl. apply truthy_Falsy. exact (H v E).
Qed.

(** The signature dependency of a detector, as its first lines read it. *)
Lemma signature_version pkg name :
  jor (entry pkg "dependencies" name) (entry pkg "devDependencies" name) =
  if truthy_opt (entry pkg "dependencies" name)
  then entry pkg "dependencies" name
  else entry pkg "devDependencies" name.
Proof. reflexivity. Qed.

Section Models.
Import File.
Variable h : Host.
Variable projectPath : string.

(** What a model of the Next.js detector takes from the manifest. *)
Lemma detectNextJsProject_manifest info :
  NextJsDetector.detectNextJsProject h projectPath = Ok (Some info) →
  ∃ pkg,
    readPackageJson h projectPath = Ok pkg ∧
    truthy pkg = true ∧
    jor (entry pkg "dependencies" "next") (entry pkg "devDependencies" "next")
      = Some (version info) ∧
    truthy (version info) = true ∧
    buildCommand info =
      default (JStr "next build")
        (jor (get_opt (get pkg "scripts") "build") (Some (JStr "next build"))).
Proof.
  unfold NextJsDetector.detectNextJsProject.
  destruct (readPackageJson h projectPath) as [pkg|]; simpl; [|discriminate].
  destruct (truthy pkg) eqn:Hpkg; simpl; [|discriminate].
  fold (entry pkg "dependencies" "next") (entry pkg "devDependencies" "next").
  destruct (jor (entry _ _ _) _) as [v|] eqn:Hj; [|discriminate].
  destruct (truthy v) eqn:Hv; simpl; [|discriminate].
  destruct (NextJsDetector.detectRouterType h projectPath) as [r|]; simpl; [|discriminate].
  destruct (NextJsDetector.detectApiRoutes h projectPath r) as [api|]; simpl; [|discriminate].
  destruct (NextJsDetector.detectStaticExport h projectPath) as [se|]; simpl; [|discriminate].
  intros [= <-]. exists pkg. simpl. auto.
Qed.

(** What a model of the Vite detector is made of. *)
Lemma detectViteProject_Some info :
  ViteDetector.detectViteProject h projectPath = Ok (Some info) →
  ∃ pkg,
    readPackageJson h projectPath = Ok pkg ∧
    truthy pkg = true ∧
    jor (entry pkg "dependencies" "vite") (entry pkg "devDependencies" "vite")
      = Some (version info) ∧
    truthy (version info) = true ∧
    buildCommand info =
      default (JStr "vite build")
        (jor (get_opt (get pkg "scripts") "build") (Some (JStr "vite build"))) ∧
    uiLibrary info = ViteDetector.detectUILibrary pkg ∧
    ViteDetector.findViteConfig h projectPath = Ok (viteConfigPath info) ∧
    ViteDetector.detectBuildOutputDir h projectPath (viteConfigPath info)
      = Ok (buildOutputDir info).
Proof.
  unfold ViteDetector.detectViteProject.
  destruct (readPackageJson h projectPath) as [pkg|]; simpl; [|discriminate].
  destruct (truthy pkg) eqn:Hpkg; simpl; [|discriminate].
  fold (entry pkg "dependencies" "vite") (entry pkg "devDependencies" "vite").
  destruct (jor (entry _ _ _) _) as [v|] eqn:Hj; [|discriminate].
  destruct (truthy v) eqn:Hv; cbn [negb]; [|discriminate].
  destruct (ViteDetector.findViteConfig h projectPath) as [cfg|] eqn:Hcfg;
    cbn [ebind]; [|discriminate].
  destruct (ViteDetector.detectBuildOutputDir h projectPath cfg) as [d|] eqn:Hd;
    cbn [ebind]; [|discriminate].
  intros [= <-]. exists pkg. cbn. auto 10.
Qed.

(** With the dependency declared, the Vite detector answers with a
    model. *)
Lemma detectViteProject_version pkg v :
  readPackageJson h projectPath = Ok pkg →
  jor (entry pkg "dependencies" "vite") (entry pkg "devDependencies" "vite") = Some v →
  truthy v = true → truthy pkg = true →
  ∃ info, ViteDetector.detectViteProject h projectPath = Ok (Some info) ∧
          version info = v.
Proof.
  intros Hpkg Hv Ht Hp. unfold ViteDetector.detectViteProject.
  rewrite Hpkg. simpl. rewrite Hp. simpl.
  fold (entry pkg "dependencies" "vite") (entry pkg "devDependencies" "vite").
  rewrite Hv, Ht. cbn [negb].
  unfold ViteDetector.findViteConfig.
  destruct (findConfigIn_total h projectPath ViteDetector.configNames) as [cfg ->].
  cbn [ebind].
  destruct (detectBuildOutputDir_total h projectPath cfg) as [d ->]. cbn [ebind].
  eexists. split; reflexivity.
Qed.

Lemma detectNextJsProject_version pkg v :
  readPackageJson h projectPath = Ok pkg →
  jor (entry pkg "dependencies" "next") (entry pkg "devDependencies" "next") = Some v →
  truthy v = true → truthy pkg = true →
  ∃ info, NextJsDetector.detectNextJsProject h projectPath = Ok (Some info) ∧
          version info = v.
Proof.
  intros Hpkg Hv Ht Hp. unfold NextJsDetector.detectNextJsProject.
  rewrite Hpkg. simpl. rewrite Hp. simpl.
  fold (entry pkg "dependencies" "next") (entry pkg "devDependencies" "next").
  rewrite Hv, Ht. simpl.
  destruct (detectRouterType_total h projectPath) as [r ->]. simpl.
  destruct (detectApiRoutes_total h projectPath r) as [api ->]. simpl.
  destruct (detectStaticExport_total h projectPath) as [se ->]. simpl.
  eexists. split; reflexivity.
Qed.

End Models.

(** X7.  Where both tables list the signature dependency, the model
    carries the version of dependencies; the version of devDependencies
    is taken only when dependencies does not list it or lists it with a
    value that counts as false. *)
Theorem version_prefers_dependencies (h : Host) (projectPath : string) (pkg : json)
    (ver : string) :
  Manifest h projectPath pkg → ver ≠ "" →
  (entry pkg "dependencies" "next" = Some (JStr ver) →
   ∃ info, NextJsDetector.detectNextJsProject h projectPath = Ok (Some info) ∧
           version info = JStr ver) ∧
  (Unlisted pkg "dependencies" "next" →
   entry pkg "devDependencies" "next" = Some (JStr ver) →
   ∃ info, NextJsDetector.detectNextJsProject h projectPath = Ok (Some info) ∧
           version info = JStr ver) ∧
  (entry pkg "dependencies" "vite" = Some (JStr ver) →
   ∃ info, ViteDetector.detectViteProject h projectPath = Ok (Some info) ∧
           version info = JStr ver) ∧
  (Unlisted pkg "dependencies" "vite" →
   entry pkg "devDependencies" "vite" = Some (JStr ver) →
   ∃ info, ViteDetector.detectViteProject h projectPath = Ok (Some info) ∧
           version info = JStr ver).
Proof.
  intros Hm Hne. pose proof (readPackageJson_Manifest _ _ _ Hm) as Hpkg.
  pose proof (truthy_version _ Hne) as Hver.
  repeat split.
  - intros He. apply (detectNextJsProject_version h projectPath pkg); auto.
    + rewrite signature_version, He. cbn [truthy_opt]. now rewrite Hver.
    + eapply entry_truthy. rewrite He. eauto.
  - intros Hun He. apply (detectNextJsProject_version h projectPath pkg); auto.
    + now rewrite signature_version, (Unlisted_truthy _ _ _ Hun).
    + eapply entry_truthy. rewrite He. eauto.
  - intros He. apply (detectViteProject_version h projectPath pkg); auto.
    + rewrite signature_version, He. cbn [truthy_opt]. now rewrite Hver.
    + eapply entry_truthy. rewrite He. eauto.
  - intros Hun He. apply (detectViteProject_version h projectPath pkg); auto.
    + now rewrite signature_version, (Unlisted_truthy _ _ _ Hun).
    + eapply entry_truthy. rewrite He. eauto.
Qed.

Lemma version_prefers_dependencies_witness :
  ∃ info,
    NextJsDetector.detectNextJsProject (fixtureHost bothTablesProject) "/proj"
      = Ok (Some info) ∧
    version info = JStr "14.0.0".
Proof.
  assert (Hm : Manifest (fixtureHost bothTablesProject) "/proj" bothTablesValue)
    by fixture_manifest "both-tables.json".
  assert (Hne : "14.0.0" ≠ "") by discriminate.
  destruct (version_prefers_dependencies _ _ _ _ Hm Hne) as (Hdeps & _).
  apply Hdeps. vm_compute. reflexivity.
Defined.

(** X8.  A signature dependency that both tables leave out or list with
    a value that counts as false (null, false, 0, the empty text) is not
    declared for the detectors: they answer absent. *)
Theorem falsy_version_is_absent (h : Host) (projectPath : string) (pkg : json) :
  Manifest h projectPath pkg →
  (Unlisted pkg "dependencies" "next" → Unlisted pkg "devDependencies" "next" →
   NextJsDetector.detectNextJsProject h projectPath = Ok None) ∧
  (Unlisted pkg "dependencies" "vite" → Unlisted pkg "devDependencies" "vite" →
   ViteDetector.detectViteProject h projectPath = Ok None).
Proof.
  intros Hm. pose proof (readPackageJson_Manifest _ _ _ Hm) as Hpkg. split.
  - intros H1 H2. unfold NextJsDetector.detectNextJsProject. rewrite Hpkg. simpl.
    destruct (truthy pkg); [|reflexivity]. simpl.
    fold (entry pkg "dependencies" "next") (entry pkg "devDependencies" "next").
    rewrite signature_version, (Unlisted_truthy _ _ _ H1).
    pose proof (Unlisted_truthy _ _ _ H2) as Hf.
    destruct (entry pkg "devDependencies" "next") as [v|]; [|reflexivity].
    simpl in Hf. now rewrite Hf.
  - intros H1 H2. unfold ViteDetector.detectViteProject. rewrite Hpkg. simpl.
    destruct (truthy pkg); [|reflexivity]. simpl.
    fold (entry pkg "dependencies" "vite") (entry pkg "devDependencies" "vite").
    rewrite signature_version, (Unlisted_truthy _ _ _ H1).
    pose proof (Unlisted_truthy _ _ _ H2) as Hf.
    destruct (entry pkg "devDependencies" "vite") as [v|]; [|reflexivity].
    simpl in Hf. now rewrite Hf.
Qed.

Lemma falsy_version_is_absent_witness :
  entry (manifestValue "dependencies" [("next", "")]) "dependencies" "next"
    = Some (JStr "") ∧
  NextJsDetector.detectNextJsProject (fixtureHost emptyVersionProject) "/proj" = Ok None.
Proof.
  split; [vm_compute; reflexivity|].
  assert (Hm : Manifest (fixtureHost emptyVersionProject) "/proj"
                 (manifestValue "dependencies" [("next", "")]))
    by fixture_manifest (manifestText "dependencies" "next" "").
  destruct (falsy_version_is_absent _ _ _ Hm) as (Hnext & _).
  apply Hnext.
  - intros v Hv. vm_compute in Hv. injection Hv as <-. right. right. right. reflexivity.
  - intros v Hv. vm_compute in Hv. discriminate.
Defined.

(** ** More on the Vite detector *)

Lemma match_outDir_group content : match_ ViteDetector.outDirPattern content ≠ Some None.
Proof.
  unfold match_. destruct (exec _ _) as [[d|]|] eqn:Hx; try discriminate.
  apply exec_Some_inv in Hx as (pre & suf & _ & Hm & _).
  apply match_here_outDir in Hm as (? & ? & ? & ? & ? & ? & _ & _ & _ & _ & _ & _ & _ & [=]).
Qed.

Lemma match_outDir_None content :
  match_ ViteDetector.outDirPattern content = None ↔ ¬ HasOutDir content.
Proof.
  unfold HasOutDir. split.
  - intros Hnone (dir & pre & Hat).
    apply OutDirAt_match in Hat as (suf & E & _ & Hm).
    unfold match_ in Hnone.
    destruct (exec ViteDetector.outDirPattern (chars content)) eqn:Hx; [discriminate|].
    rewrite exec_None in Hx. rewrite (Hx _ _ E) in Hm. discriminate.
  - intros Hno.
    destruct (match_ ViteDetector.outDirPattern content) as [[d|]|] eqn:Hm;
      [|now apply match_outDir_group in Hm|reflexivity].
    exfalso. apply Hno. apply FirstOutDir_match in Hm as (pre & Hat & _). eauto.
Qed.

Section ViteMore.
Import File ViteDetector.
Variable h : Host.
Variable projectPath : string.

Lemma access_cases path : fs_access h path = Ok tt ∨ Missing h path.
Proof. unfold Missing. destruct (fs_access h path) as [[]|e]; eauto. Qed.

Lemma findConfigIn_None names :
  findConfigIn h projectPath names = Ok None ↔
  Forall (fun n => Missing h (path_join h [projectPath; n])) names.
Proof.
  induction names as [|n names IH]; simpl.
  - split; [constructor|reflexivity].
  - destruct (access_cases (path_join h [projectPath; n])) as [Hacc | Hmiss].
    + rewrite (fileExists_access h _ Hacc). simpl. split; [discriminate|].
      intros H. apply Forall_cons in H as [[e He] _]. congruence.
    + rewrite (fileExists_missing h _ Hmiss). simpl. rewrite IH. split.
      * intros H. now constructor.
      * intros H. now apply Forall_cons in H as [_ H].
Qed.

Lemma findConfigIn_Some names name :
  findConfigIn h projectPath names = Ok (Some name) ↔
  FirstExisting h projectPath names name.
Proof.
  split; [|apply findConfigIn_first].
  induction names as [|n names IH]; simpl; [discriminate|].
  destruct (access_cases (path_join h [projectPath; n])) as [Hacc | Hmiss].
  - rewrite (fileExists_access h _ Hacc). simpl. intros [= <-].
    exists [], names. repeat split; auto.
  - rewrite (fileExists_missing h _ Hmiss). simpl. intros H.
    destruct (IH H) as (before & after & -> & Hb & Ha).
    exists (n :: before), after. repeat split; auto.
Qed.

(** The output directory is the default or the directory of the first
    setting of the file that was found. *)
Lemma detectBuildOutputDir_cases cfg d :
  detectBuildOutputDir h projectPath cfg = Ok d →
  d = "dist" ∨
  ∃ name content,
    cfg = Some name ∧ Readable h (path_join h [projectPath; name]) content ∧
    FirstOutDir content d.
Proof.
  destruct cfg as [name|]; simpl; [|intros [= <-]; auto].
  destruct (safeReadFile_total h (path_join h [projectPath; name]) defaultMaxSize)
    as [r Hr].
  rewrite Hr. simpl. destruct r as [c|]; simpl; [|intros [= <-]; auto].
  destruct (String.eqb c ""); [intros [= <-]; auto|].
  destruct (match_ outDirPattern c) as [[dir|]|] eqn:Hm;
    try (intros [= <-]; auto; fail).
  destruct (String.eqb dir ""); intros [= <-]; auto.
  right. exists name, c. split; [reflexivity|].
  split; [now apply safeReadFile_Some|now apply FirstOutDir_match].
Qed.

Lemma detectBuildOutputDir_default name :
  (∀ content, Readable h (path_join h [projectPath; name]) content →
              ¬ HasOutDir content) →
  detectBuildOutputDir h projectPath (Some name) = Ok "dist".
Proof.
  intros Hno. simpl.
  destruct (safeReadFile_total h (path_join h [projectPath; name]) defaultMaxSize)
    as [r Hr].
  rewrite Hr. simpl. destruct r as [c|]; simpl; [|reflexivity].
  destruct (String.eqb c ""); [reflexivity|].
  apply safeReadFile_Some in Hr. apply Hno, match_outDir_None in Hr.
  now rewrite Hr.
Qed.

End ViteMore.

(** X9.  The models are complete.  Every model of either detector has a
    version and a build command that count as true, and an output
    directory that is not empty; the output directory of a Vite model
    holds no quote, and its configuration path is null or one of the
    four names. *)
Theorem models_are_complete (h : Host) (projectPath : string) :
  (∀ info,
     ViteDetector.detectViteProject h projectPath = Ok (Some info) →
     truthy (version info) = true ∧ truthy (buildCommand info) = true ∧
     buildOutputDir info ≠ "" ∧ QuoteFree (buildOutputDir info) ∧
     (viteConfigPath info = None ∨
      ∃ name, name ∈ ViteDetector.configNames ∧ viteConfigPath info = Some name)) ∧
  (∀ info,
     NextJsDetector.detectNextJsProject h projectPath = Ok (Some info) →
     truthy (version info) = true ∧ truthy (buildCommand info) = true ∧
     buildOutputDir info ≠ "").
Proof.
  assert (Hcmd : ∀ (o : option json) (d : string),
            d ≠ "" → truthy (default (JStr d) (jor o (Some (JStr d)))) = true).
  { intros o d Hd. unfold jor. destruct (truthy_opt o) eqn:Ho.
    - destruct o; [exact Ho|discriminate].
    - now apply truthy_version. }
  split; intros info Hinfo.
  - apply detectViteProject_Some in Hinfo
      as (pkg & _ & _ & _ & Hv & Hc & _ & Hcfg & Hdir).
    split; [exact Hv|]. split; [rewrite Hc; now apply Hcmd|].
    assert (Hd : buildOutputDir info ≠ "" ∧ QuoteFree (buildOutputDir info)).
    { apply detectBuildOutputDir_cases in Hdir
        as [-> | (name & content & _ & _ & pre & (Hne & Hqf & _) & _)].
      - split; [discriminate|repeat constructor].
      - auto. }
    destruct Hd as [Hd1 Hd2]. repeat split; auto.
    unfold ViteDetector.findViteConfig in Hcfg.
    destruct (viteConfigPath info) as [name|]; [right|now left].
    apply findConfigIn_Some in Hcfg as (before & after & E & _).
    exists name. split; [|reflexivity]. rewrite E. apply list_elem_of_In, in_elt.
  - pose proof Hinfo as Hinfo'.
    apply detectNextJsProject_manifest in Hinfo as (pkg & _ & _ & _ & Hv & Hc).
    apply detectNextJsProject_Some in Hinfo' as (se & _ & _ & _ & _ & Hd).
    split; [exact Hv|]. split; [rewrite Hc; now apply Hcmd|].
    rewrite Hd. now destruct se.
Qed.

Lemma models_are_complete_witness :
  ∃ info,
    ViteDetector.detectViteProject (fixtureHost viteProject) "/proj" = Ok (Some info) ∧
    truthy (version info) = true ∧ buildOutputDir info ≠ "".
Proof.
  eexists. split; [reflexivity|].
  destruct (models_are_complete (fixtureHost viteProject) "/proj") as [Hvite _].
  destruct (Hvite _ eq_refl) as (Hv & _ & Hd & _). split; assumption.
Defined.

(** X10.  A Vite project without any of the four configuration files
    yields a model with viteConfigPath = null and buildOutputDir =
    dist. *)
Theorem vite_defaults_without_config (h : Host) (projectPath : string) (pkg : json) :
  Manifest h projectPath pkg →
  Declares pkg "vite" →
  Forall (fun name => Missing h (path_join h [projectPath; name]))
         ViteDetector.configNames →
  ∃ info,
    ViteDetector.detectViteProject h projectPath = Ok (Some info) ∧
    viteConfigPath info = None ∧
    buildOutputDir info = "dist".
Proof.
  intros Hm Hd Hnone.
  destruct (Declares_version _ _ Hd) as (ver & Hver & Hne).
  destruct (detectViteProject_version h projectPath pkg (JStr ver))
    as (info & Hinfo & _); auto.
  { now apply readPackageJson_Manifest. }
  { now apply truthy_version. }
  { eapply Declares_truthy; eauto. }
  exists info. split; [assumption|].
  apply detectViteProject_Some in Hinfo as (_ & _ & _ & _ & _ & _ & _ & Hcfg & Hdir).
  unfold ViteDetector.findViteConfig in Hcfg.
  apply findConfigIn_None in Hnone. rewrite Hnone in Hcfg. injection Hcfg as Hcfg.
  rewrite <- Hcfg in Hdir. injection Hdir as Hdir. auto.
Qed.

Lemma vite_defaults_without_config_witness :
  ∃ info,
    ViteDetector.detectViteProject (fixtureHost plainViteProject) "/proj"
      = Ok (Some info) ∧
    viteConfigPath info = None ∧ buildOutputDir info = "dist".
Proof.
  apply (vite_defaults_without_config _ _
           (twoTables [("svelte", "4.0.0")] [("vite", "5.0.0")])).
  - fixture_manifest viteManifest.
  - fixture_declares.
  - repeat constructor; exists "ENOENT"; reflexivity.
Defined.

(** X11.  Only the first configuration file that exists is read.  When
    it cannot be read or holds no outDir setting, the output directory
    is dist whatever the later candidates hold, and viteConfigPath is
    still the name of that first file. *)
Theorem vite_reads_first_config_only (h : Host) (projectPath : string) (pkg : json)
    (name : string) :
  Manifest h projectPath pkg →
  Declares pkg "vite" →
  FirstExisting h projectPath ViteDetector.configNames name →
  (∀ content, Readable h (path_join h [projectPath; name]) content →
              ¬ HasOutDir content) →
  ∃ info,
    ViteDetector.detectViteProject h projectPath = Ok (Some info) ∧
    viteConfigPath info = Some name ∧
    buildOutputDir info = "dist".
Proof.
  intros Hm Hd Hfirst Hno.
  destruct (Declares_version _ _ Hd) as (ver & Hver & Hne).
  destruct (detectViteProject_version h projectPath pkg (JStr ver))
    as (info & Hinfo & _); auto.
  { now apply readPackageJson_Manifest. }
  { now apply truthy_version. }
  { eapply Declares_truthy; eauto. }
  exists info. split; [assumption|].
  apply detectViteProject_Some in Hinfo as (_ & _ & _ & _ & _ & _ & _ & Hcfg & Hdir).
  unfold ViteDetector.findViteConfig in Hcfg.
  rewrite (findConfigIn_first _ _ _ _ Hfirst) in Hcfg. injection Hcfg as Hcfg.
  rewrite <- Hcfg, (detectBuildOutputDir_default _ _ _ Hno) in Hdir.
  injection Hdir as Hdir. auto.
Qed.

Lemma vite_reads_first_config_only_witness :
  HasOutDir "export default { build: { outDir: 'build' } }" ∧
  ∃ info,
    ViteDetector.detectViteProject (fixtureHost twoConfigsProject) "/proj"
      = Ok (Some info) ∧
    viteConfigPath info = Some "vite.config.ts" ∧ buildOutputDir info = "dist".
Proof.
  split.
  - assert (H : FirstOutDir "export default { build: { outDir: 'build' } }" "build")
      by (apply FirstOutDir_match; reflexivity).
    destruct H as (pre & Hat & _). exists "build", pre. exact Hat.
  - apply (vite_reads_first_config_only _ _
             (twoTables [("react", "18.2.0")] [("vite", "5.0.0")])).
    + fixture_manifest viteManifest.
    + fixture_declares.
    + exists [], ["vite.config.js"; "vite.config.mjs"; "vite.config.cjs"].
      repeat split; constructor.
    + intros content (_ & st & _ & _ & Hrd). injection Hrd as <-.
      apply match_outDir_None. reflexivity.
Defined.

(** X12.  findViteConfig answers with the first of vite.config.ts, .js,
    .mjs, .cjs that access finds, and with null exactly when access
    rejects all four. *)
Theorem findViteConfig_first_existing (h : Host) (projectPath : string) :
  (∀ name,
     ViteDetector.findViteConfig h projectPath = Ok (Some name) ↔
     FirstExisting h projectPath ViteDetector.configNames name) ∧
  (ViteDetector.findViteConfig h projectPath = Ok None ↔
   Forall (fun name => Missing h (path_join h [projectPath; name]))
          ViteDetector.configNames).
Proof.
  split.
  - intros name. split; intros H; now apply findConfigIn_Some.
  - split; intros H; now apply findConfigIn_None.
Qed.

(** X13.  The outDir pattern on a text: its match is the directory of
    the leftmost outDir: 'dir' setting, a directory that is not empty
    and holds no quote; the group always takes part; and there is no
    match exactly when the text has no such setting. *)
Theorem outDir_pattern_meaning (content : string) :
  (∀ dir,
     RegExp.match_ ViteDetector.outDirPattern content = Some (Some dir) ↔
     FirstOutDir content dir) ∧
  RegExp.match_ ViteDetector.outDirPattern content ≠ Some None ∧
  (RegExp.match_ ViteDetector.outDirPattern content = None ↔ ¬ HasOutDir content).
Proof.
  split; [|split].
  - intros dir. split; [apply FirstOutDir_match|]. intros H.
    now apply match_FirstOutDir in H as [H _].
  - apply match_outDir_group.
  - split; intros H; now apply match_outDir_None.
Qed.

(** ** The UI library *)

Lemma Lacks_merged pkg name :
  Lacks pkg name →
  spread2 (get pkg "dependencies") (get pkg "devDependencies") !! name = None.
Proof.
  intros H. apply Forall_cons in H as [H1 H]. apply Forall_cons in H as [H2 _].
  now rewrite spread2_lookup, H2, H1.
Qed.

Lemma Declares_merged pkg name :
  Declares pkg name →
  truthy_opt (spread2 (get pkg "dependencies") (get pkg "devDependencies") !! name)
    = true.
Proof.
  intros [Hex Hall]. rewrite spread2_lookup.
  apply Forall_cons in Hall as [H1 Hall]. apply Forall_cons in Hall as [H2 _].
  destruct (entry pkg "devDependencies" name) as [v2|] eqn:E2.
  - destruct (H2 v2 eq_refl) as (ver & -> & Hne). now apply truthy_version.
  - apply Exists_cons in Hex as [[v Hv] | Hex].
    + rewrite Hv. destruct (H1 v Hv) as (ver & -> & Hne). now apply truthy_version.
    + apply Exists_cons in Hex as [[v Hv] | Hex]; [congruence|inversion Hex].
Qed.

(** X14.  The UI library is the first of react, vue, svelte and
    @angular/core that the manifest declares, and unknown when it
    declares none of them. *)
Theorem ui_library_priority (pkg : json) :
  (Declares pkg "react" → ViteDetector.detectUILibrary pkg = Ui_react) ∧
  (Lacks pkg "react" → Declares pkg "vue" →
   ViteDetector.detectUILibrary pkg = Ui_vue) ∧
  (Lacks pkg "react" → Lacks pkg "vue" → Declares pkg "svelte" →
   ViteDetector.detectUILibrary pkg = Ui_svelte) ∧
  (Lacks pkg "react" → Lacks pkg "vue" → Lacks pkg "svelte" →
   Declares pkg "@angular/core" →
   ViteDetector.detectUILibrary pkg = Ui_angular) ∧
  (Lacks pkg "react" → Lacks pkg "vue" → Lacks pkg "svelte" →
   Lacks pkg "@angular/core" →
   ViteDetector.detectUILibrary pkg = Ui_unknown).
Proof.
  unfold ViteDetector.detectUILibrary. cbv zeta.
  repeat split; intros;
    repeat match goal with
    | H : Lacks pkg _ |- _ => rewrite (Lacks_merged _ _ H); clear H
    | H : Declares pkg _ |- _ => rewrite (Declares_merged _ _ H); clear H
    end; reflexivity.
Qed.

Lemma ui_library_priority_witness :
  ViteDetector.detectUILibrary (twoTables [("next", "14.0.0"); ("vue", "3.4.0")]
                                  [("vite", "5.0.0")]) = Ui_vue.
Proof.
  apply ui_library_priority.
  - repeat constructor.
  - fixture_declares.
Defined.

(** X15.  The two tables are merged with devDependencies last: an entry
    of devDependencies whose value counts as false hides the entry of
    the same package in dependencies, so react declared in dependencies
    is not seen behind such an entry. *)
Theorem devDependencies_shadow_dependencies (pkg : json) (v : json) :
  entry pkg "devDependencies" "react" = Some v → Falsy v →
  ViteDetector.detectUILibrary pkg ≠ Ui_react.
Proof.
  intros He Hf. unfold ViteDetector.detectUILibrary. cbv zeta.
  rewrite spread2_lookup, He. cbn [truthy_opt].
  apply truthy_Falsy in Hf. rewrite Hf.
  repeat match goal with |- context [if ?b then _ else _] => destruct b end;
    discriminate.
Qed.

Lemma devDependencies_shadow_dependencies_witness :
  entry shadowedReactValue "dependencies" "react" = Some (JStr "18.2.0") ∧
  ViteDetector.detectUILibrary shadowedReactValue ≠ Ui_react.
Proof.
  split; [vm_compute; reflexivity|].
  apply (devDependencies_shadow_dependencies shadowedReactValue (JStr "")).
  - vm_compute. reflexivity.
  - right. right. right. reflexivity.
Defined.

(** ** The tools *)

(** Induction on a value: for an array, the property of its elements. *)
Lemma json_elements_ind (P : json → Prop) :
  P JNull → (∀ b, P (JBool b)) → (∀ n, P (JNum n)) → (∀ s, P (JStr s)) →
  (∀ l, Forall P l → P (JArr l)) → (∀ m, P (JObj m)) → ∀ v, P v.
Proof.
  intros HN HB Hn HS HA HO. fix IH 1.
  intros [| b | n | s | l | m];
    [exact HN | apply HB | apply Hn | apply HS | | apply HO].
  apply HA. induction l as [|x l IHl]; constructor; [apply IH | exact IHl].
Qed.

(** A conversion yields a text or throws the TypeError. *)
Lemma ToString_cases v : (∃ t, ToString v = Ok t) ∨ ToString v = Throw typeErrorText.
Proof.
  induction v as [| [] | n | s | l Hl | m] using json_elements_ind;
    cbn [ToString]; eauto.
  - match goal with
    | |- context [ebind (?f l) _] =>
        assert (H : (∃ parts, f l = Ok parts) ∨ f l = Throw typeErrorText)
    end.
    { induction Hl as [|x l Hx _ IHl]; [eauto|].
      assert (Hx' : (∃ t, match x with JNull => Ok "" | _ => ToString x end = Ok t) ∨
                    match x with JNull => Ok "" | _ => ToString x end
                    = Throw typeErrorText).
      { destruct x; eauto. }
      destruct Hx' as [[t Ht] | Ht]; rewrite Ht; cbn [ebind]; [|auto].
      destruct IHl as [[parts Hp] | Hp]; rewrite Hp; cbn [ebind]; eauto. }
    destruct H as [[parts Hp] | Hp]; rewrite Hp; cbn [ebind]; eauto.
  - destruct (bool_decide _); eauto.
Qed.

(** An object with a member named toString has no text. *)
Lemma ToString_member m v :
  m !! "toString" = Some v → ToString (JObj m) = Throw typeErrorText.
Proof.
  intros H. cbn [ToString]. rewrite bool_decide_eq_true_2; [reflexivity|eauto].
Qed.

Lemma Rendered_or_not (i : ProjectInfo) :
  (∃ versionText commandText, Rendered i versionText commandText) ∨
  (ToString (version i) = Throw typeErrorText ∨
   ToString (buildCommand i) = Throw typeErrorText).
Proof.
  unfold Rendered.
  destruct (ToString_cases (version i)) as [[v Hv] | Hv]; [|auto].
  destruct (ToString_cases (buildCommand i)) as [[c Hc] | Hc]; [|auto].
  left. eauto.
Qed.

(** What the conversions of a model throw, in the order of the
    templates: the version first. *)
Lemma detectedText_Throw projectInfo e :
  DetectFramework.detectedText projectInfo = Throw e ↔
  ToString (version (base projectInfo)) = Throw e ∨
  (∃ v, ToString (version (base projectInfo)) = Ok v ∧
        ToString (buildCommand (base projectInfo)) = Throw e).
Proof.
  unfold DetectFramework.detectedText.
  destruct (ToString (version (base projectInfo))) as [v|e1]; cbn [ebind].
  - destruct (ToString (buildCommand (base projectInfo))) as [c|e2]; cbn [ebind].
    + split; [discriminate|]. intros [H | (? & _ & H)]; discriminate.
    + split; [intros [= ->]; eauto|]. intros [H | (? & _ & H)]; congruence.
  - split; [intros [= ->]; auto|]. intros [H | (? & H & _)]; congruence.
Qed.

Lemma generateMigrationSpec_Throw now projectInfo options e :
  SpecGenerator.generateMigrationSpec now projectInfo options = Throw e ↔
  ToString (version (base projectInfo)) = Throw e ∨
  (∃ v, ToString (version (base projectInfo)) = Ok v ∧
        ToString (buildCommand (base projectInfo)) = Throw e).
Proof.
  unfold SpecGenerator.generateMigrationSpec, SpecGenerator.sections,
    SpecGenerator.generateHeader, SpecGenerator.generateProjectOverview,
    SpecGenerator.generateBuildSteps.
  destruct (ToString (version (base projectInfo))) as [v|e1]; cbn [ebind].
  - destruct (ToString (buildCommand (base projectInfo))) as [c|e2]; cbn [ebind].
    + split; [discriminate|]. intros [H | (? & _ & H)]; discriminate.
    + split; [intros [= ->]; eauto|]. intros [H | (? & _ & H)]; congruence.
  - split; [intros [= ->]; auto|]. intros [H | (? & H & _)]; congruence.
Qed.

Lemma detectedReply_cases projectInfo :
  (∀ versionText commandText,
     Rendered (base projectInfo) versionText commandText →
     detectedReply projectInfo =
       DetectFramework.detectedLines projectInfo versionText commandText) ∧
  ((∀ versionText commandText,
      ¬ Rendered (base projectInfo) versionText commandText) →
   detectedReply projectInfo = "❌ Error detecting framework: " +:+ typeErrorText).
Proof.
  unfold detectedReply, DetectFramework.detectedText. split.
  - intros v c [-> ->]. reflexivity.
  - intros Hno.
    destruct (Rendered_or_not (base projectInfo)) as [(v & c & Hr) | [Hv | Hc]].
    + destruct (Hno v c Hr).
    + now rewrite Hv.
    + rewrite Hc.
      destruct (ToString (version (base projectInfo))) as [v|e] eqn:Hv; [reflexivity|].
      destruct (ToString_cases (version (base projectInfo))) as [[t Ht] | Ht];
        [congruence|].
      replace e with typeErrorText by congruence. reflexivity.
Qed.

Lemma specReply_cases now projectInfo options :
  (∀ versionText commandText,
     Rendered (base projectInfo) versionText commandText →
     SpecGenerator.generateMigrationSpec now projectInfo options
       = Ok (specReply now projectInfo options)) ∧
  ((∀ versionText commandText,
      ¬ Rendered (base projectInfo) versionText commandText) →
   specReply now projectInfo options
     = "❌ Error generating specification: " +:+ typeErrorText).
Proof.
  unfold specReply. split.
  - intros v c Hr.
    destruct (document_produced now projectInfo options v c Hr) as [doc ->].
    reflexivity.
  - intros Hno.
    destruct (document_refused now projectInfo options Hno) as (e & -> & He).
    destruct (ToString_cases (version (base projectInfo))) as [[t Ht] | Ht],
             (ToString_cases (buildCommand (base projectInfo))) as [[u Hu] | Hu],
             He as [He | He]; congruence.
Qed.

(** X16.  The detect tool never rejects: on every host both detectors
    answer and the tool replies with one text.  It is the text about
    the Vite model when the Vite detector answers with one, else the
    text about the Next.js model, else the text that lists the
    supported frameworks; no project is reported as Create React App.
    The text about a model is its description when its version and its
    build command have texts, and the error text of the tool with the
    message of the TypeError when one of them has none. *)
Theorem detect_tool_first_match_wins (h : Host) (projectPath : string) :
  ∃ viteProject nextjsProject,
    ViteDetector.detectViteProject h projectPath = Ok viteProject ∧
    NextJsDetector.detectNextJsProject h projectPath = Ok nextjsProject ∧
    DetectFramework.detectFrameworkTool h projectPath =
      Ok (DetectFramework.reply
            match viteProject, nextjsProject with
            | Some v, _ => detectedReply (Vite v)
            | None, Some n => detectedReply (NextJs n)
            | None, None => DetectFramework.noFrameworkText projectPath
            end) ∧
    ∀ projectInfo,
      (∀ versionText commandText,
         Rendered (base projectInfo) versionText commandText →
         detectedReply projectInfo =
           DetectFramework.detectedLines projectInfo versionText commandText) ∧
      ((∀ versionText commandText,
          ¬ Rendered (base projectInfo) versionText commandText) →
       detectedReply projectInfo
         = "❌ Error detecting framework: " +:+ typeErrorText).
Proof.
  destruct (detectFrameworkTool_reply h projectPath) as (v & n & Hv & Hn & Htool).
  exists v, n. split; [exact Hv|]. split; [exact Hn|].
  split; [|apply detectedReply_cases].
  rewrite Htool. now destruct v, n.
Qed.

Lemma nextjsDetails_notes i :
  (Substring importantNote (DetectFramework.nextjsDetails i) ↔ isStaticExport i = false) ∧
  (Substring warningNote (DetectFramework.nextjsDetails i) ↔ hasApiRoutes i = true).
Proof.
  rewrite <- !contains_Substring.
  destruct i as [b [] [] []]; vm_compute; split; split; congruence.
Qed.

(** X17.  In the detection text of a Next.js model the note about static
    export appears exactly when isStaticExport is false and the note
    about API routes exactly when hasApiRoutes is true; the project is
    called ready for Capacitor exactly when neither note appears.  Vite
    and Create React App models are always called ready. *)
Theorem readiness_matches_notes (projectInfo : AnyProjectInfo) :
  match projectInfo with
  | NextJs i =>
      (Substring importantNote (DetectFramework.nextjsDetails i)
         ↔ isStaticExport i = false) ∧
      (Substring warningNote (DetectFramework.nextjsDetails i)
         ↔ hasApiRoutes i = true) ∧
      (DetectFramework.isCapacitorReady projectInfo = true ↔
       ¬ Substring importantNote (DetectFramework.nextjsDetails i) ∧
       ¬ Substring warningNote (DetectFramework.nextjsDetails i))
  | _ => DetectFramework.isCapacitorReady projectInfo = true
  end.
Proof.
  destruct projectInfo as [v | i | c]; [reflexivity| |reflexivity].
  destruct (nextjsDetails_notes i) as [Himp Hwarn].
  split; [exact Himp|]. split; [exact Hwarn|].
  rewrite Himp, Hwarn. simpl.
  destruct (isStaticExport i), (hasApiRoutes i); simpl; intuition congruence.
Qed.

(** X18.  The spec tool never rejects, and it decides as the detect tool
    does: on the same host and path both report no framework, or both
    work on the same model, the first one detected.  For a model whose
    version and build command have texts the reply is the migration
    document of that model with the caller's options; the generator
    throws for exactly the models for which the description of the
    detect tool throws, with the same message, and the reply is then
    the error text of the tool. *)
Theorem spec_tool_agrees_with_detection (h : Host) (now : string)
    (args : GenerateSpecOptions) :
  ∃ viteProject nextjsProject,
    ViteDetector.detectViteProject h (projectPath args) = Ok viteProject ∧
    NextJsDetector.detectNextJsProject h (projectPath args) = Ok nextjsProject ∧
    GenerateSpec.generateSpecTool h now args =
      Ok (DetectFramework.reply
            match DetectFramework.firstDetected viteProject nextjsProject with
            | None => GenerateSpec.noFrameworkText (projectPath args)
            | Some projectInfo => specReply now projectInfo args
            end) ∧
    DetectFramework.detectFrameworkTool h (projectPath args) =
      Ok (DetectFramework.reply
            match DetectFramework.firstDetected viteProject nextjsProject with
            | None => DetectFramework.noFrameworkText (projectPath args)
            | Some projectInfo => detectedReply projectInfo
            end) ∧
    ∀ projectInfo,
      (∀ versionText commandText,
         Rendered (base projectInfo) versionText commandText →
         SpecGenerator.generateMigrationSpec now projectInfo args
           = Ok (specReply now projectInfo args)) ∧
      (∀ e, SpecGenerator.generateMigrationSpec now projectInfo args = Throw e
            ↔ DetectFramework.detectedText projectInfo = Throw e) ∧
      ((∀ versionText commandText,
          ¬ Rendered (base projectInfo) versionText commandText) →
       specReply now projectInfo args
         = "❌ Error generating specification: " +:+ typeErrorText).
Proof.
  destruct (detectFrameworkTool_reply h (projectPath args))
    as (v & n & Hv & Hn & Htool).
  exists v, n. split; [exact Hv|]. split; [exact Hn|]. split; [|split; [exact Htool|]].
  - unfold GenerateSpec.generateSpecTool. rewrite Hv, Hn. cbn [ebind].
    destruct (DetectFramework.firstDetected v n) as [p|]; [|reflexivity].
    unfold specReply. destruct args.
    cbn [projectPath appName bundleId primaryColor].
    now destruct (SpecGenerator.generateMigrationSpec _ _ _).
  - intros p. destruct (specReply_cases now p args) as [Hok Hno].
    split; [exact Hok|]. split; [|exact Hno].
    intros e. now rewrite generateMigrationSpec_Throw, detectedText_Throw.
Qed.

(** ** Detection and the document together *)

(** X19.  The Vite section of the document tells the reader to update
    the configuration file the detector found, by its full name, and
    vite.config.ts when it found none. *)
Theorem vite_steps_name_found_config (h : Host) (projectPath : string)
    (info : ViteProjectInfo) :
  ViteDetector.detectViteProject h projectPath = Ok (Some info) →
  Substring (updateLine (text_or (viteConfigPath info) "vite.config.ts"))
            (SpecGenerator.generateViteSteps (Vite info)).
Proof.
  intros Hinfo.
  apply detectViteProject_Some in Hinfo as (_ & _ & _ & _ & _ & _ & _ & Hcfg & _).
  unfold ViteDetector.findViteConfig in Hcfg.
  assert (Hline :
    updateLine (text_or (viteConfigPath info) "vite.config.ts") =
    "Update `vite.config." +:+
      text_or (option_map (fun p => SpecGenerator.lastSegment "." p "")
                 (viteConfigPath info)) "ts" +:+ "`:").
  { destruct (viteConfigPath info) as [name|]; [|reflexivity].
    apply findConfigIn_Some in Hcfg as (before & after & E & _).
    assert (Hin : In name ViteDetector.configNames) by (rewrite E; apply in_elt).
    simpl in Hin. destruct Hin as [<- | [<- | [<- | [<- | []]]]]; reflexivity. }
  rewrite Hline. unfold SpecGenerator.generateViteSteps, lines.
  eapply (Substring_concat _ _ _ 4); [reflexivity|apply Substring_refl].
Qed.

Lemma vite_steps_name_found_config_witness :
  ∃ info,
    ViteDetector.detectViteProject (fixtureHost viteProject) "/proj" = Ok (Some info) ∧
    Substring "Update `vite.config.js`:" (SpecGenerator.generateViteSteps (Vite info)).
Proof.
  eexists. split; [reflexivity|].
  apply (vite_steps_name_found_config (fixtureHost viteProject) "/proj" _ eq_refl).
Defined.

(** X20.  For a project the Next.js detector accepts, a configuration
    file with the export literal decides these things at once:
    isStaticExport is true, the output directory is out, and the
    Next.js section of the document says that static export is enabled
    and carries no line of the static-export warning; without such a
    file the directory is .next and the warning, its CRITICAL line and
    its instructions, is there. *)
Theorem export_literal_decides_document (h : Host) (projectPath : string)
    (info : NextJsProjectInfo) :
  NextJsDetector.detectNextJsProject h projectPath = Ok (Some info) →
  let steps := SpecGenerator.generateNextJsSteps (NextJs info) in
  (isStaticExport info = true ↔ ExportConfigured h projectPath) ∧
  (buildOutputDir info = "out" ↔ ExportConfigured h projectPath) ∧
  (buildOutputDir info = ".next" ↔ ¬ ExportConfigured h projectPath) ∧
  (Substring staticExportWarning steps ↔ ¬ ExportConfigured h projectPath) ∧
  (Substring SpecGenerator.criticalLine steps ↔ ¬ ExportConfigured h projectPath) ∧
  (Substring SpecGenerator.enableExportText steps
     ↔ ¬ ExportConfigured h projectPath) ∧
  Forall (fun line => Substring line steps ↔ ¬ ExportConfigured h projectPath)
         (warningLines staticExportWarning) ∧
  (Substring "✓ Static export is already enabled." steps
     ↔ ExportConfigured h projectPath).
Proof.
  intros Hinfo steps.
  apply detectNextJsProject_Some in Hinfo as (se & _ & _ & Hse & Hflag & Hdir).
  destruct (scanConfigs_spec h projectPath NextJsDetector.configNames)
    as (b & Hb & Hiff).
  unfold NextJsDetector.detectStaticExport in Hse. rewrite Hb in Hse.
  injection Hse as <-. fold (ExportConfigured h projectPath) in Hiff.
  unfold steps.
  assert (Hlines : Forall (fun line =>
                      Substring line (SpecGenerator.generateNextJsSteps (NextJs info))
                      ↔ ¬ ExportConfigured h projectPath)
                     (warningLines staticExportWarning)).
  { eapply Forall_impl; [apply steps_static_lines|]. cbv beta. intros line ->.
    rewrite Hflag, <- Hiff. destruct b; intuition congruence. }
  rewrite steps_static_warning, steps_critical_line, steps_enable_export,
    steps_enabled_line, Hdir, Hflag, <- Hiff.
  split; [reflexivity|].
  destruct b; intuition congruence.
Qed.

Lemma export_literal_decides_document_witness :
  ∃ info,
    NextJsDetector.detectNextJsProject (fixtureHost bareProject) "/proj" = Ok (Some info) ∧
    ExportConfigured (fixtureHost bareProject) "/proj" ∧
    ¬ Substring SpecGenerator.criticalLine
        (SpecGenerator.generateNextJsSteps (NextJs info)).
Proof.
  eexists. split; [reflexivity|].
  destruct (export_literal_decides_document (fixtureHost bareProject) "/proj" _ eq_refl)
    as (Hflag & _ & _ & _ & Hwarn & _).
  assert (Hcfg : ExportConfigured (fixtureHost bareProject) "/proj")
    by (apply Hflag; reflexivity).
  split; [exact Hcfg|]. intros Hsub. now apply Hwarn in Hsub.
Defined.

(** ** The other tools and the server *)

Lemma generateSpecTool_reply h now args :
  ∃ text,
    GenerateSpec.generateSpecTool h now args = Ok (DetectFramework.reply text) ∧
    (text = GenerateSpec.noFrameworkText (projectPath args) ∨
     ∃ projectInfo options, text = specReply now projectInfo options).
Proof.
  destruct (detectFrameworkTool_reply h (projectPath args)) as (v & n & Hv & Hn & _).
  unfold GenerateSpec.generateSpecTool. rewrite Hv, Hn. cbn [ebind].
  destruct (DetectFramework.firstDetected v n) as [p|]; [|eauto].
  match goal with
  | |- context [SpecGenerator.generateMigrationSpec now p ?o] =>
      exists (specReply now p o)
  end.
  split; [|eauto]. unfold specReply.
  now destruct (SpecGenerator.generateMigrationSpec _ _ _).
Qed.

Lemma detectedReply_head projectInfo :
  headChar (detectedReply projectInfo) = Some "226"%char.
Proof.
  unfold detectedReply, DetectFramework.detectedText.
  destruct (ToString (version (base projectInfo))); cbn [ebind]; [|reflexivity].
  now destruct (ToString (buildCommand (base projectInfo))).
Qed.

Lemma specReply_head now projectInfo options :
  headChar (specReply now projectInfo options) = Some "226"%char ∨
  headChar (specReply now projectInfo options) = Some "#"%char.
Proof.
  unfold specReply, SpecGenerator.generateMigrationSpec, SpecGenerator.sections,
    SpecGenerator.generateHeader, SpecGenerator.generateProjectOverview,
    SpecGenerator.generateBuildSteps.
  destruct (ToString (version (base projectInfo))); cbn [ebind]; [|left; reflexivity].
  destruct (ToString (buildCommand (base projectInfo))); cbn [ebind];
    [right|left]; reflexivity.
Qed.

Lemma generateConfigTool_reply g args :
  ∃ text,
    GenerateConfig.generateConfigTool g args = Ok (DetectFramework.reply text) ∧
    ((∃ e,
        text = "❌ Error generating config: " +:+ e ∧
        (GenerateConfig.generateCapacitorConfig g args = Throw e ∨
         GenerateConfig.generateCapacitorScripts g (GenerateConfig.framework args)
           = Throw e ∨
         GenerateConfig.generateSetupGuide g args = Throw e ∨
         GenerateConfig.generateInfoPlistPermissions g = Throw e ∨
         GenerateConfig.generateGitignoreEntries g = Throw e)) ∨
     (∃ configContent scripts setupGuide permissions gitignore,
        GenerateConfig.generateCapacitorConfig g args = Ok configContent ∧
        GenerateConfig.generateCapacitorScripts g (GenerateConfig.framework args)
          = Ok scripts ∧
        GenerateConfig.generateSetupGuide g args = Ok setupGuide ∧
        GenerateConfig.generateInfoPlistPermissions g = Ok permissions ∧
        GenerateConfig.generateGitignoreEntries g = Ok gitignore ∧
        text = GenerateConfig.configText configContent scripts gitignore
                 permissions setupGuide)).
Proof.
  unfold GenerateConfig.generateConfigTool. destruct args as [a i w f c]. cbn.
  set (o := {| GenerateConfig.appName := a; GenerateConfig.appId := i;
               GenerateConfig.webDir := w; GenerateConfig.framework := f;
               GenerateConfig.primaryColor := c |}).
  destruct (GenerateConfig.generateCapacitorConfig g o) as [cc|e]; cbn;
    [|eexists; split; [reflexivity|]; left; eauto].
  destruct (GenerateConfig.generateCapacitorScripts g f) as [sc|e]; cbn;
    [|eexists; split; [reflexivity|]; left; eauto].
  destruct (GenerateConfig.generateSetupGuide g o) as [sg|e]; cbn;
    [|eexists; split; [reflexivity|]; left; eauto 6].
  destruct (GenerateConfig.generateInfoPlistPermissions g) as [pm|e]; cbn;
    [|eexists; split; [reflexivity|]; left; eauto 7].
  destruct (GenerateConfig.generateGitignoreEntries g) as [gi|e]; cbn;
    [|eexists; split; [reflexivity|]; left; eauto 8].
  eexists. split; [reflexivity|]. right. eauto 12.
Qed.

Lemma headChar_differs s t : headChar s ≠ headChar t → s ≠ t.
Proof. congruence. Qed.

(** X21.  The config tool never rejects: it replies with the composed
    text when the five generators answer, and with its error text,
    carrying the message of the generator that threw, as soon as one of
    them throws. *)
Theorem config_tool_never_rejects (g : GenerateConfig.ConfigGenerator)
    (args : GenerateConfig.CapacitorConfigOptions) :
  ∃ text,
    GenerateConfig.generateConfigTool g args = Ok (DetectFramework.reply text) ∧
    ((∃ e,
        text = "❌ Error generating config: " +:+ e ∧
        (GenerateConfig.generateCapacitorConfig g args = Throw e ∨
         GenerateConfig.generateCapacitorScripts g (GenerateConfig.framework args)
           = Throw e ∨
         GenerateConfig.generateSetupGuide g args = Throw e ∨
         GenerateConfig.generateInfoPlistPermissions g = Throw e ∨
         GenerateConfig.generateGitignoreEntries g = Throw e)) ∨
     (∃ configContent scripts setupGuide permissions gitignore,
        GenerateConfig.generateCapacitorConfig g args = Ok configContent ∧
        GenerateConfig.generateCapacitorScripts g (GenerateConfig.framework args)
          = Ok scripts ∧
        GenerateConfig.generateSetupGuide g args = Ok setupGuide ∧
        GenerateConfig.generateInfoPlistPermissions g = Ok permissions ∧
        GenerateConfig.generateGitignoreEntries g = Ok gitignore ∧
        text = GenerateConfig.configText configContent scripts gitignore
                 permissions setupGuide)).
Proof.
  destruct (generateConfigTool_reply g args) as (text & Htool & Hcases).
  exists text. split; [exact Htool|]. exact Hcases.
Qed.

Section ServerFacts.
Variable h : Host.
Variable now : string.
Variable g : GenerateConfig.ConfigGenerator.

Lemma detect_text_head projectPath :
  ∃ text,
    DetectFramework.detectFrameworkTool h projectPath = Ok (DetectFramework.reply text) ∧
    headChar text = Some "226"%char.
Proof.
  destruct (detectFrameworkTool_reply h projectPath) as (v & n & _ & _ & ->).
  eexists. split; [reflexivity|].
  destruct (DetectFramework.firstDetected v n); [apply detectedReply_head|reflexivity].
Qed.

Lemma spec_text_head args :
  ∃ text,
    GenerateSpec.generateSpecTool h now args = Ok (DetectFramework.reply text) ∧
    (headChar text = Some "226"%char ∨ headChar text = Some "#"%char).
Proof.
  destruct (generateSpecTool_reply h now args) as (text & -> & [-> | (i & o & ->)]);
    eexists; (split; [reflexivity|]); [left; reflexivity|apply specReply_head].
Qed.

Lemma config_text_head args :
  ∃ text,
    GenerateConfig.generateConfigTool g args = Ok (DetectFramework.reply text) ∧
    (headChar text = Some "226"%char ∨ headChar text = Some "#"%char).
Proof.
  destruct (generateConfigTool_reply g args)
    as (text & -> & [(e & -> & _) | (c & s & sg & p & gi & _ & _ & _ & _ & _ & ->)]);
    eexists; (split; [reflexivity|]); [left|right]; reflexivity.
Qed.

End ServerFacts.

(** X22.  The handler of tool calls never rejects, and it knows exactly
    the tools the server lists: a call of any other name is answered
    with the text Error: Unknown tool: name, and a call of a listed
    tool never is. *)
Theorem call_tool_knows_listed_tools (h : Host) (now : string)
    (g : GenerateConfig.ConfigGenerator) (name : string) (args : Server.Arguments) :
  ∃ text,
    Server.callTool h now g name args = Ok (DetectFramework.reply text) ∧
    (text = unknownToolText name ↔ name ∉ map Server.name Server.listTools).
Proof.
  unfold Server.callTool.
  destruct (String.eqb_spec name "detect_web_framework") as [-> | N1].
  { destruct (detect_text_head h (Server.arg_projectPath args)) as (text & -> & Hh).
    exists text. split; [reflexivity|]. split.
    - intros ->. discriminate.
    - intros Hnot. exfalso. apply Hnot. repeat constructor. }
  destruct (String.eqb_spec name "generate_ios_migration_spec") as [-> | N2].
  { destruct (spec_text_head h now
                {| projectPath := Server.arg_projectPath args;
                   appName := Server.arg_appName args;
                   bundleId := Server.arg_bundleId args;
                   primaryColor := Server.arg_primaryColor args |})
      as (text & -> & Hh).
    exists text. split; [reflexivity|]. split.
    - intros ->. destruct Hh; discriminate.
    - intros Hnot. exfalso. apply Hnot. repeat constructor. }
  destruct (String.eqb_spec name "generate_capacitor_config") as [-> | N3].
  { destruct (config_text_head g
                {| GenerateConfig.appName := Server.arg_appName args;
                   GenerateConfig.appId := Server.arg_appId args;
                   GenerateConfig.webDir := Server.arg_webDir args;
                   GenerateConfig.framework := Server.arg_framework args;
                   GenerateConfig.primaryColor := Server.arg_primaryColor args |})
      as (text & -> & Hh).
    exists text. split; [reflexivity|]. split.
    - intros ->. destruct Hh; discriminate.
    - intros Hnot. exfalso. apply Hnot. repeat constructor. }
  exists (unknownToolText name). split; [reflexivity|]. split; [|reflexivity].
  intros _ Hin. simpl in Hin.
  repeat (apply elem_of_cons in Hin as [Hin | Hin]; [congruence|]).
  inversion Hin.
Qed.

(** X23.  The handler of resource reads knows exactly the resources the
    server lists.  For a listed one it answers with one content of the
    listed mime type whose text is the guide as readFile gave it, and a
    rejection of readFile is its rejection; for any other uri it rejects
    with Unknown resource: uri. *)
Theorem read_resource_knows_listed_resources (h : Host) (dirname uri : string) :
  (∀ info,
     info ∈ Server.listResources → uri = Server.r_uri info →
     Server.readResource h dirname uri =
       match fs_readFile h (guidePath h dirname uri) with
       | Ok guide =>
           Ok {| Server.contents :=
                   [ {| Server.uri := uri;
                        Server.mimeType := Server.r_mimeType info;
                        Server.text := guide |} ] |}
       | Throw e => Throw e
       end) ∧
  (uri ∉ map Server.r_uri Server.listResources →
   Server.readResource h dirname uri = Throw ("Unknown resource: " +:+ uri)).
Proof.
  split.
  - intros info Hin ->. unfold Server.listResources in Hin.
    apply elem_of_cons in Hin as [-> | Hin];
      [|apply elem_of_cons in Hin as [-> | Hin]; [|inversion Hin]];
      unfold Server.readResource, guidePath, Resources.loadImplementationGuide,
        Resources.loadCommonIssues; simpl;
      destruct (fs_readFile h _); reflexivity.
  - intros Hnot. unfold Server.readResource.
    destruct (String.eqb_spec uri "web-to-ios://guides/implementation") as [-> | N1];
      [exfalso; apply Hnot; repeat constructor|].
    destruct (String.eqb_spec uri "web-to-ios://guides/troubleshooting") as [-> | N2];
      [exfalso; apply Hnot; repeat constructor|].
    reflexivity.
Qed.

Lemma read_resource_knows_listed_resources_witness :
  (∃ r, Server.readResource (fixtureHost guidesProject) "/srv/dist/resources"
          "web-to-ios://guides/troubleshooting" = Ok r ∧
        map Server.text (Server.contents r) = ["# Issues"]) ∧
  Server.readResource (fixtureHost guidesProject) "/srv/dist/resources"
    "web-to-ios://guides/other" = Throw "Unknown resource: web-to-ios://guides/other".
Proof.
  destruct (read_resource_knows_listed_resources (fixtureHost guidesProject)
              "/srv/dist/resources" "web-to-ios://guides/troubleshooting")
    as [Hlisted _].
  destruct (read_resource_knows_listed_resources (fixtureHost guidesProject)
              "/srv/dist/resources" "web-to-ios://guides/other")
    as [_ Hother].
  split.
  - eexists. split.
    + apply (Hlisted (Server.Build_ResourceInfo
                        "web-to-ios://guides/troubleshooting" "Common Issues & Solutions"
                        "Troubleshooting guide for web-to-iOS conversion covering build errors, runtime issues, and framework-specific problems"
                        "text/markdown")); [|reflexivity].
      right. left.
    + reflexivity.
  - apply Hother. intros Hin. simpl in Hin.
    repeat (apply elem_of_cons in Hin as [Hin | Hin]; [discriminate|]).
    inversion Hin.
Defined.

(** ** Routers and build commands of the models *)

Lemma Lacks_entries pkg name :
  Lacks pkg name →
  entry pkg "dependencies" name = None ∧ entry pkg "devDependencies" name = None.
Proof.
  intros H. apply Forall_cons in H as [H1 H]. apply Forall_cons in H as [H2 _]. auto.
Qed.

Lemma Declares_jor pkg name :
  Declares pkg name →
  truthy_opt (jor (entry pkg "dependencies" name) (entry pkg "devDependencies" name))
    = true.
Proof.
  intros Hd. destruct (Declares_version _ _ Hd) as (ver & -> & Hne).
  now apply truthy_version.
Qed.

Lemma jor_truthy a b : truthy_opt (jor a b) = truthy_opt a || truthy_opt b.
Proof. unfold jor. now destruct (truthy_opt a) eqn:E. Qed.

Lemma detectViteProject_routers h projectPath info :
  ViteDetector.detectViteProject h projectPath = Ok (Some info) →
  ∃ pkg,
    File.readPackageJson h projectPath = Ok pkg ∧
    hasReactRouter info =
      truthy_opt
        (jor (jor (jor (entry pkg "dependencies" "react-router-dom")
                       (entry pkg "devDependencies" "react-router-dom"))
                  (entry pkg "dependencies" "react-router"))
             (entry pkg "devDependencies" "react-router")) ∧
    hasVueRouter info =
      truthy_opt (jor (entry pkg "dependencies" "vue-router")
                      (entry pkg "devDependencies" "vue-router")).
Proof.
  unfold ViteDetector.detectViteProject.
  destruct (File.readPackageJson h projectPath) as [pkg|]; simpl; [|discriminate].
  destruct (truthy pkg) eqn:Hpkg; simpl; [|discriminate].
  destruct (jor (get_opt _ "vite") _) as [v|] eqn:Hj; [|discriminate].
  destruct (truthy v) eqn:Hv; cbn [negb]; [|discriminate].
  destruct (ViteDetector.findViteConfig h projectPath) as [cfg|] eqn:Hcfg;
    cbn [ebind]; [|discriminate].
  destruct (ViteDetector.detectBuildOutputDir h projectPath cfg) as [d|] eqn:Hd;
    cbn [ebind]; [|discriminate].
  intros [= <-]. exists pkg. cbn. auto.
Qed.

(** X24.  hasReactRouter is true exactly when the manifest declares
    react-router-dom or react-router, and hasVueRouter exactly when it
    declares vue-router; neither looks at the UI library, so a Vue
    project that lists react-router has hasReactRouter = true. *)
Theorem vite_routers_by_dependencies (h : Host) (projectPath : string) (pkg : json)
    (info : ViteProjectInfo) :
  Manifest h projectPath pkg →
  ViteDetector.detectViteProject h projectPath = Ok (Some info) →
  (Declares pkg "react-router-dom" ∨ Declares pkg "react-router" →
   hasReactRouter info = true) ∧
  (Lacks pkg "react-router-dom" → Lacks pkg "react-router" →
   hasReactRouter info = false) ∧
  (Declares pkg "vue-router" → hasVueRouter info = true) ∧
  (Lacks pkg "vue-router" → hasVueRouter info = false).
Proof.
  intros Hm Hinfo. apply readPackageJson_Manifest in Hm.
  apply detectViteProject_routers in Hinfo as (pkg' & Hpkg & -> & ->).
  rewrite Hm in Hpkg. injection Hpkg as <-.
  repeat split.
  - intros [Hd | Hd]; apply Declares_jor in Hd; rewrite jor_truthy in Hd;
      rewrite !jor_truthy; apply orb_true_iff in Hd as [Hd | Hd]; rewrite Hd;
      rewrite ?orb_true_r; reflexivity.
  - intros H1 H2. apply Lacks_entries in H1 as [-> ->], H2 as [-> ->]. reflexivity.
  - intros Hd. now apply Declares_jor.
  - intros H1. apply Lacks_entries in H1 as [-> ->]. reflexivity.
Qed.

Lemma vite_routers_by_dependencies_witness :
  ∃ info,
    ViteDetector.detectViteProject (fixtureHost mixedRoutersProject) "/proj"
      = Ok (Some info) ∧
    uiLibrary info = Ui_vue ∧ hasReactRouter info = true ∧ hasVueRouter info = false.
Proof.
  eexists. split; [reflexivity|]. split; [reflexivity|].
  assert (Hm : Manifest (fixtureHost mixedRoutersProject) "/proj" mixedRoutersValue)
    by fixture_manifest "mixed-routers.json".
  destruct (vite_routers_by_dependencies _ _ _ _ Hm eq_refl) as (Hr & _ & _ & Hv).
  split.
  - apply Hr. right. fixture_declares.
  - apply Hv. repeat constructor.
Defined.

(** X25.  The build command of a model is the build script of the
    manifest when that is a text that is not empty, and the default of
    the framework, next build respectively vite build, when the manifest
    has no build script. *)
Theorem build_command_from_scripts (h : Host) (projectPath : string) (pkg : json) :
  Manifest h projectPath pkg →
  (∀ info,
     NextJsDetector.detectNextJsProject h projectPath = Ok (Some info) →
     (∀ cmd, buildScript pkg = Some (JStr cmd) → cmd ≠ "" →
             buildCommand info = JStr cmd) ∧
     (buildScript pkg = None → buildCommand info = JStr "next build")) ∧
  (∀ info,
     ViteDetector.detectViteProject h projectPath = Ok (Some info) →
     (∀ cmd, buildScript pkg = Some (JStr cmd) → cmd ≠ "" →
             buildCommand info = JStr cmd) ∧
     (buildScript pkg = None → buildCommand info = JStr "vite build")).
Proof.
  intros Hm. apply readPackageJson_Manifest in Hm.
  split; intros info Hinfo.
  - apply detectNextJsProject_manifest in Hinfo as (pkg' & Hpkg & _ & _ & _ & ->).
    rewrite Hm in Hpkg. injection Hpkg as <-. fold (buildScript pkg). split.
    + intros cmd -> Hne. unfold jor. cbn [truthy_opt].
      now rewrite (truthy_version _ Hne).
    + intros ->. reflexivity.
  - apply detectViteProject_Some in Hinfo as (pkg' & Hpkg & _ & _ & _ & -> & _).
    rewrite Hm in Hpkg. injection Hpkg as <-. fold (buildScript pkg). split.
    + intros cmd -> Hne. unfold jor. cbn [truthy_opt].
      now rewrite (truthy_version _ Hne).
    + intros ->. reflexivity.
Qed.

Lemma build_command_from_scripts_witness :
  ∃ info,
    NextJsDetector.detectNextJsProject (fixtureHost bothTablesProject) "/proj"
      = Ok (Some info) ∧
    buildCommand info = JStr "next build && next export".
Proof.
  eexists. split; [reflexivity|].
  assert (Hm : Manifest (fixtureHost bothTablesProject) "/proj" bothTablesValue)
    by fixture_manifest "both-tables.json".
  destruct (build_command_from_scripts _ _ _ Hm) as (Hnext & _).
  destruct (Hnext _ eq_refl) as (Hcmd & _).
  apply Hcmd; [vm_compute; reflexivity|discriminate].
Defined.

(** ** The colour of the icon *)

(** X26.  The last section of the document hints at a primary colour
    exactly when a colour was supplied and is not the empty text: an
    empty colour is treated like a missing one. *)
Theorem colour_hint_iff_supplied (primaryColor : option string) :
  Substring colourLead (SpecGenerator.generateNextSteps primaryColor) ↔
  ∃ c, primaryColor = Some c ∧ c ≠ "".
Proof.
  split.
  - intros H. apply contains_Substring in H.
    destruct primaryColor as [c|]; [|vm_compute in H; discriminate].
    exists c. split; [reflexivity|]. intros ->. vm_compute in H. discriminate.
  - intros (c & -> & Hne).
    apply (Substring_concat _ _ _ 4
             ("   - Prepare 1024x1024 icon" +:+ " (use " +:+ c +:+ " as primary color)")).
    + unfold SpecGenerator.generateNextSteps.
      destruct (String.eqb_spec c ""); [contradiction|]. reflexivity.
    + apply Substring_app_r, Substring_app_l, Substring_refl.
Qed.

(** ** Runs of the tools *)

(** A manifest with vite and next: both detectors answer, the reply is
    that of Vite. *)
Example hybrid_project_reported_as_vite :
  ∃ v n,
    ViteDetector.detectViteProject (fixtureHost hybridProject) "/proj" = Ok (Some v) ∧
    NextJsDetector.detectNextJsProject (fixtureHost hybridProject) "/proj"
      = Ok (Some n) ∧
    DetectFramework.detectFrameworkTool (fixtureHost hybridProject) "/proj"
      = Ok (DetectFramework.reply
              (DetectFramework.detectedLines (Vite v) "5.0.0" "vite build")).
Proof. do 2 eexists. repeat split; vm_compute; reflexivity. Qed.

(** The configuration tool with a generator that answers, and with one
    whose scripts fail. *)
Example config_tool_answers :
  ∃ text,
    Server.callTool (fixtureHost emptyProject) "" sampleGenerator
      "generate_capacitor_config" sampleArguments
      = Ok (DetectFramework.reply text) ∧
    Substring "appId: com.example.shop" text ∧
    Substring (GenerateConfig.scriptLine ("cap:sync", "npx cap sync ios")) text.
Proof.
  eexists. split; [vm_compute; reflexivity|].
  split; apply contains_Substring; vm_compute; reflexivity.
Qed.

Example config_tool_reports_failure :
  Server.callTool (fixtureHost emptyProject) "" failingGenerator
    "generate_capacitor_config" sampleArguments
    = Ok (DetectFramework.reply "❌ Error generating config: no scripts").
Proof. vm_compute. reflexivity. Qed.

(** A tool that is not listed. *)
Example unlisted_tool_reported :
  Server.callTool (fixtureHost emptyProject) "" sampleGenerator "deploy"
    sampleArguments
    = Ok (DetectFramework.reply (unknownToolText "deploy")).
Proof. vm_compute. reflexivity. Qed.

(** White space beyond ASCII around the colon of a setting is white
    space of the patterns. *)
Example nbsp_export_seen :
  NextJsDetector.detectStaticExport (fixtureHost nbspNextProject) "/proj" = Ok true.
Proof. vm_compute. reflexivity. Qed.

Example nbsp_outDir_first :
  ∃ info,
    ViteDetector.detectViteProject (fixtureHost nbspViteProject) "/proj"
      = Ok (Some info) ∧
    buildOutputDir info = "a".
Proof. eexists. split; vm_compute; reflexivity. Qed.

(** A version without a text: both tools reply with their error text. *)
Example unprintable_version_reported :
  DetectFramework.detectFrameworkTool (fixtureHost unprintableProject) "/proj"
    = Ok (DetectFramework.reply
            ("❌ Error detecting framework: " +:+ typeErrorText)) ∧
  GenerateSpec.generateSpecTool (fixtureHost unprintableProject)
    "2025-01-01T00:00:00.000Z" sampleOptions
    = Ok (DetectFramework.reply
            ("❌ Error generating specification: " +:+ typeErrorText)).
Proof. split; vm_compute; reflexivity. Qed.
